(** * Nexus Chat: the secure-messaging envelope of [cryptoService.ts], the
      identity of [IdentitySetup.tsx] and the peer and session key of
      [ChatInterface.tsx]

    The development is a shallow embedding.  JavaScript strings are lists of
    UTF-16 code units, [ArrayBuffer]s are lists of bytes, rejected promises
    and thrown exceptions are an error result, and the calls made to
    [window.crypto.subtle] are recorded in a log so that their order can be
    stated.  The component is a state with the tasks that are still to
    settle, moved by the clicks and completions the event loop runs.

    The browser's cryptography ([crypto.subtle], the random source) and
    [JSON.parse]/[JSON.stringify] are an interface ([WebPlatform]); the text
    and base64 helpers of the browser ([btoa], [atob], [TextEncoder],
    [TextDecoder]) are modelled concretely after their standards, and so is
    the encoding of RSA-PSS signatures where the salt matters. *)

From Stdlib Require Import ZArith List Lia Bool Ascii String Strings.Byte.
From Stdlib Require Import Floats.PrimFloat.
From stdpp Require Import base option list strings gmap.
Import ListNotations.
Local Open Scope Z_scope.

(* ================================================================= *)
(** ** JavaScript data *)

(** A JavaScript string: its UTF-16 code units. *)
Definition JSString : Type := list Z.

(** An [ArrayBuffer] / [Uint8Array]: its bytes. *)
Definition ArrayBuffer : Type := list byte.

(** An ASCII literal as a JavaScript string. *)
Definition str (s : string) : JSString :=
  List.map (fun a => Z.of_N (N_of_ascii a)) (list_ascii_of_string s).

Definition Z_of_byte (b : byte) : Z := Z.of_N (Byte.to_N b).

(** Storing a number into a [Uint8Array] keeps it modulo 256. *)
Definition byte_of_Z (z : Z) : byte :=
  match Byte.of_N (Z.to_N (z mod 256)) with
  | Some b => b
  | None => x00
  end.

Definition jsstr_eqb (a b : JSString) : bool := bool_decide (a = b).

Definition bytes_eqb (a b : ArrayBuffer) : bool :=
  jsstr_eqb (List.map Z_of_byte a) (List.map Z_of_byte b).

(** [String.prototype.trim]: white space and line terminators. *)
Definition is_js_whitespace (c : Z) : bool :=
  ((9 <=? c) && (c <=? 13)) || (c =? 32) || (c =? 0xA0) || (c =? 0x1680)
  || ((0x2000 <=? c) && (c <=? 0x200A)) || (c =? 0x2028) || (c =? 0x2029)
  || (c =? 0x202F) || (c =? 0x205F) || (c =? 0x3000) || (c =? 0xFEFF).

Fixpoint trimStart (s : JSString) : JSString :=
  match s with
  | c :: rest => if is_js_whitespace c then trimStart rest else s
  | [] => []
  end.

Definition trim (s : JSString) : JSString := rev (trimStart (rev (trimStart s))).

(** What a [throw] or a rejected promise carries. *)
Inductive Exception : Type :=
| InvalidCharacterError                 (* DOMException of atob / btoa *)
| SyntaxError                           (* JSON.parse *)
| TypeError                             (* property access on null *)
| OperationError (op : string)          (* a rejected crypto.subtle promise *)
| JsError (message : JSString).         (* new Error(message) *)

Inductive Result (A : Type) : Type :=
| Ok (a : A)
| Throw (e : Exception).
Arguments Ok {A} a.
Arguments Throw {A} e.

Definition is_Ok {A} (r : Result A) : bool :=
  match r with Ok _ => true | Throw _ => false end.

(* ================================================================= *)
(** ** [window.btoa] and [window.atob] *)

Module Base64.

(** The base64 alphabet: index to character code and back. *)
Definition b64_char (i : Z) : Z :=
  if i <? 26 then 65 + i
  else if i <? 52 then 97 + (i - 26)
  else if i <? 62 then 48 + (i - 52)
  else if i =? 62 then 43
  else 47.

Definition b64_index (c : Z) : option Z :=
  if (65 <=? c) && (c <=? 90) then Some (c - 65)
  else if (97 <=? c) && (c <=? 122) then Some (c - 97 + 26)
  else if (48 <=? c) && (c <=? 57) then Some (c - 48 + 52)
  else if c =? 43 then Some 62
  else if c =? 47 then Some 63
  else None.

(** The 6-bit groups of a byte sequence (a final group is filled up with
    zero bits). *)
Fixpoint sextets (bs : list Z) : list Z :=
  match bs with
  | [] => []
  | [a] => [a / 4; (a mod 4) * 16]
  | [a; b] => [a / 4; (a mod 4) * 16 + b / 16; (b mod 16) * 4]
  | a :: b :: c :: rest =>
      [a / 4; (a mod 4) * 16 + b / 16; (b mod 16) * 4 + c / 64; c mod 64]
        ++ sextets rest
  end.

Definition padding (n : nat) : list Z :=
  match (n mod 3)%nat with
  | 1%nat => [61; 61]
  | 2%nat => [61]
  | _ => []
  end.

Definition b64_encode (bs : list Z) : JSString :=
  List.map b64_char (sextets bs) ++ padding (List.length bs).

(** [btoa(data)]: throws when a code unit is above U+00FF. *)
Definition btoa (data : JSString) : Result JSString :=
  if forallb (fun c => (0 <=? c) && (c <=? 255)) data
  then Ok (b64_encode data)
  else Throw InvalidCharacterError.

Definition is_ascii_whitespace (c : Z) : bool :=
  (c =? 9) || (c =? 10) || (c =? 12) || (c =? 13) || (c =? 32).

(** Removes one or two trailing [=]. *)
Definition strip_padding (d : JSString) : JSString :=
  match rev d with
  | c1 :: r =>
      if c1 =? 61 then
        match r with
        | c2 :: r' => if c2 =? 61 then rev r' else rev r
        | [] => rev r
        end
      else d
  | [] => d
  end.

Fixpoint indexes (d : JSString) : option (list Z) :=
  match d with
  | [] => Some []
  | c :: r =>
      match b64_index c, indexes r with
      | Some i, Some l => Some (i :: l)
      | _, _ => None
      end
  end.

(** The bytes of a sequence of 6-bit groups; 12 left-over bits give one
    byte, 18 give two (the last 4, respectively 2, bits are dropped). *)
Fixpoint unsextets (ix : list Z) : list Z :=
  match ix with
  | a :: b :: c :: d :: rest =>
      let n := ((a * 64 + b) * 64 + c) * 64 + d in
      [n / 65536; (n / 256) mod 256; n mod 256] ++ unsextets rest
  | [a; b; c] =>
      let n := ((a * 64 + b) * 64 + c) / 4 in [n / 256; n mod 256]
  | [a; b] => [(a * 64 + b) / 16]
  | _ => []
  end.

(** [atob(data)], the forgiving base64 decoding of the HTML standard. *)
Definition atob (data : JSString) : Result JSString :=
  let d := List.filter (fun c => negb (is_ascii_whitespace c)) data in
  let d := if (List.length d mod 4 =? 0)%nat then strip_padding d else d in
  if (List.length d mod 4 =? 1)%nat then Throw InvalidCharacterError
  else match indexes d with
       | Some ix => Ok (unsextets ix)
       | None => Throw InvalidCharacterError
       end.

End Base64.

(* ================================================================= *)
(** ** [TextEncoder] and [TextDecoder] (UTF-8) *)

Module Utf8.

Definition is_lead (c : Z) : bool := (0xD800 <=? c) && (c <=? 0xDBFF).
Definition is_trail (c : Z) : bool := (0xDC00 <=? c) && (c <=? 0xDFFF).

(** Conversion of a string to scalar values (a [USVString]): a surrogate
    pair is one scalar value, an unpaired surrogate becomes U+FFFD. *)
Fixpoint to_scalar_values (s : JSString) : list Z :=
  match s with
  | [] => []
  | c :: rest =>
      if is_lead c then
        match rest with
        | d :: rest' =>
            if is_trail d
            then (0x10000 + (c - 0xD800) * 1024 + (d - 0xDC00))
                   :: to_scalar_values rest'
            else 0xFFFD :: to_scalar_values rest
        | [] => [0xFFFD]
        end
      else if is_trail c then 0xFFFD :: to_scalar_values rest
      else c :: to_scalar_values rest
  end.

(** The UTF-16 code units of a scalar value. *)
Definition code_units (c : Z) : JSString :=
  if c <? 0x10000 then [c]
  else [0xD800 + Z.shiftr (c - 0x10000) 10;
        0xDC00 + Z.land (c - 0x10000) 0x3FF].

(** The UTF-8 encoder. *)
Definition encode_scalar (c : Z) : list Z :=
  if c <=? 0x7F then [c]
  else if c <=? 0x7FF then
    [Z.lor 0xC0 (Z.shiftr c 6); Z.lor 0x80 (Z.land c 0x3F)]
  else if c <=? 0xFFFF then
    [Z.lor 0xE0 (Z.shiftr c 12);
     Z.lor 0x80 (Z.land (Z.shiftr c 6) 0x3F);
     Z.lor 0x80 (Z.land c 0x3F)]
  else
    [Z.lor 0xF0 (Z.shiftr c 18);
     Z.lor 0x80 (Z.land (Z.shiftr c 12) 0x3F);
     Z.lor 0x80 (Z.land (Z.shiftr c 6) 0x3F);
     Z.lor 0x80 (Z.land c 0x3F)].

(** The state of the UTF-8 decoder of the Encoding standard. *)
Record decoder : Type := Decoder {
  code_point : Z;
  bytes_seen : Z;
  bytes_needed : Z;
  lower_boundary : Z;
  upper_boundary : Z
}.

Definition initial : decoder := Decoder 0 0 0 0x80 0xBF.

(** The handler when no continuation byte is awaited. *)
Definition lead_byte (b : Z) : list Z * decoder :=
  if b <=? 0x7F then ([b], initial)
  else if (0xC2 <=? b) && (b <=? 0xDF) then
    ([], Decoder (Z.land b 0x1F) 0 1 0x80 0xBF)
  else if (0xE0 <=? b) && (b <=? 0xEF) then
    ([], Decoder (Z.land b 0xF) 0 2
           (if b =? 0xE0 then 0xA0 else 0x80)
           (if b =? 0xED then 0x9F else 0xBF))
  else if (0xF0 <=? b) && (b <=? 0xF4) then
    ([], Decoder (Z.land b 0x7) 0 3
           (if b =? 0xF0 then 0x90 else 0x80)
           (if b =? 0xF4 then 0x8F else 0xBF))
  else ([0xFFFD], initial).

(** One byte through the decoder: the scalar values it emits and the next
    state.  A byte that is no continuation ends the pending sequence with
    U+FFFD and is then handled again from the initial state. *)
Definition handler (st : decoder) (b : Z) : list Z * decoder :=
  if bytes_needed st =? 0 then lead_byte b
  else if (b <? lower_boundary st) || (upper_boundary st <? b) then
    let '(out, st') := lead_byte b in (0xFFFD :: out, st')
  else
    let cp := Z.lor (Z.shiftl (code_point st) 6) (Z.land b 0x3F) in
    if bytes_seen st + 1 =? bytes_needed st then ([cp], initial)
    else ([], Decoder cp (bytes_seen st + 1) (bytes_needed st) 0x80 0xBF).

Fixpoint run (st : decoder) (bs : list Z) : list Z :=
  match bs with
  | [] => if bytes_needed st =? 0 then [] else [0xFFFD]
  | b :: rest => let '(out, st') := handler st b in out ++ run st' rest
  end.

(** Several bytes through the decoder, without the end of input. *)
Fixpoint feed (st : decoder) (bs : list Z) : list Z * decoder :=
  match bs with
  | [] => ([], st)
  | b :: rest =>
      let '(out, st') := handler st b in
      let '(out', st'') := feed st' rest in
      (out ++ out', st'')
  end.

(** A leading byte order mark is dropped ([ignoreBOM] is false). *)
Definition strip_bom (cs : list Z) : list Z :=
  match cs with
  | c :: rest => if c =? 0xFEFF then rest else cs
  | [] => []
  end.

(** A string without unpaired surrogates, as
    [String.prototype.isWellFormed]; code units are 16 bits wide. *)
Fixpoint isWellFormed (s : JSString) : bool :=
  match s with
  | [] => true
  | c :: rest =>
      (0 <=? c) && (c <=? 0xFFFF) &&
      (if is_lead c then
         match rest with
         | d :: rest' => is_trail d && isWellFormed rest'
         | [] => false
         end
       else negb (is_trail c) && isWellFormed rest)
  end.

(** A Unicode scalar value: a code point that is no surrogate. *)
Definition is_scalar (c : Z) : bool :=
  ((0 <=? c) && (c <? 0xD800)) || ((0xE000 <=? c) && (c <? 0x110000)).

Definition decoder_eqb (a b : decoder) : bool :=
  (code_point a =? code_point b) && (bytes_seen a =? bytes_seen b)
  && (bytes_needed a =? bytes_needed b)
  && (lower_boundary a =? lower_boundary b)
  && (upper_boundary a =? upper_boundary b).

(** The bytes of one scalar value, stored in a buffer and read back, go
    through the decoder to that scalar value and leave it in its initial
    state; the code units of the scalar value are what
    [to_scalar_values] reads it from. *)
Definition decodes_back (c : Z) : bool :=
  match feed initial
          (List.map Z_of_byte (List.map byte_of_Z (encode_scalar c))) with
  | ([c'], st) => (c' =? c) && decoder_eqb st initial
  | _ => false
  end.

Fixpoint forall_from (n : nat) (f : Z -> bool) (start : Z) : bool :=
  match n with
  | O => true
  | S n' => f start && forall_from n' f (start + 1)
  end.

Definition code_point_count : nat := Z.to_nat 0x110000.

End Utf8.

(** [new TextEncoder().encode(s)] *)
Definition TextEncoder_encode (s : JSString) : ArrayBuffer :=
  List.map byte_of_Z (flat_map Utf8.encode_scalar (Utf8.to_scalar_values s)).

(** [new TextDecoder().decode(buffer)]: never throws ([fatal] is false). *)
Definition TextDecoder_decode (buffer : ArrayBuffer) : JSString :=
  flat_map Utf8.code_units
    (Utf8.strip_bom (Utf8.run Utf8.initial (List.map Z_of_byte buffer))).

(* ================================================================= *)
(** ** JSON values, [types.ts] *)

(** A value as [JSON.parse] returns it. *)
#[warnings="-register-all"] Inductive JSON : Type :=
| JNull
| JBool (b : bool)
| JNum (x : float)
| JStr (s : JSString)
| JArr (items : list JSON)
| JObj (members : list (JSString * JSON)).


Definition JsonWebKey : Type := JSON.

(** [value.name]: [None] is [undefined]; reading a property of [null]
    throws. *)
Fixpoint lookup_member (name : JSString) (members : list (JSString * JSON))
  : option JSON :=
  match members with
  | [] => None
  | (k, v) :: rest => if jsstr_eqb k name then Some v else lookup_member name rest
  end.

Definition get_property (value : JSON) (name : string) : Result (option JSON) :=
  match value with
  | JNull => Throw TypeError
  | JObj members => Ok (lookup_member (str name) members)
  | _ => Ok None
  end.

(** Truthiness of a value ([ToBoolean]). *)
Definition truthy (v : option JSON) : bool :=
  match v with
  | None => false
  | Some JNull => false
  | Some (JBool b) => b
  | Some (JNum x) => negb (PrimFloat.eqb x 0%float) && PrimFloat.eqb x x
  | Some (JStr s) => negb (Nat.eqb (List.length s) 0)
  | Some (JArr _) => true
  | Some (JObj _) => true
  end.

(** [value === s] for a string [s]. *)
Definition strict_equals_string (v : option JSON) (s : JSString) : bool :=
  match v with
  | Some (JStr t) => jsstr_eqb t s
  | _ => false
  end.

Record UserIdentity : Type := {
  userId : JSString;
  username : JSString;
  publicKey : JsonWebKey;
  privateKey : JsonWebKey;
  publicKeyFingerprint : JSString
}.

(** The fields of [PublicIdentity], [Message] and [EncryptedMessage] carry
    a prefix, because field names are global here. *)
Record PublicIdentity : Type := {
  peer_userId : JSString;
  peer_username : JSString;
  peer_publicKey : JsonWebKey;
  peer_publicKeyFingerprint : JSString
}.

(** [senderId] holds what was stored into it: [identity.userId],
    ['system'], or the value of [peer.userId] of a parsed peer, whatever
    it is ([None] is [undefined]). *)
Record Message : Type := {
  msg_id : JSString;
  msg_senderId : option JSON;
  msg_text : JSString;
  msg_timestamp : Z;
  msg_isLocalSender : bool
}.

Record EncryptedMessage : Type := {
  id : JSString;
  senderId : JSString;
  iv : JSString;
  encryptedData : JSString;
  signature : JSString;
  timestamp : Z
}.

(* ================================================================= *)
(** ** The browser interface used by [cryptoService.ts] *)

Inductive KeyUsage : Type := sign | verify | encrypt | decrypt.

Record RsaHashedKeyGenParams : Type := {
  rsa_name : string;
  modulusLength : Z;
  publicExponent : ArrayBuffer;
  hash : string
}.

Record AesKeyGenParams : Type := {
  aes_name : string;
  length : Z
}.

Record RsaPssParams : Type := {
  pss_name : string;
  saltLength : Z
}.

Definition RSA_ALGORITHM : RsaHashedKeyGenParams :=
  {| rsa_name := "RSA-PSS"; modulusLength := 2048;
     publicExponent := [x01; x00; x01]; hash := "SHA-256" |}.

Definition AES_ALGORITHM : AesKeyGenParams :=
  {| aes_name := "AES-GCM"; length := 256 |}.

Definition SIGN_ALGORITHM : RsaPssParams :=
  {| pss_name := "RSA-PSS"; saltLength := 32 |}.

(** [window.crypto.subtle] and [JSON].  An operation whose promise can be
    rejected returns an option.  The salt of an RSA-PSS signature and the
    seed of a generated key are the random bytes the browser draws inside
    the call; they are arguments here.  [Error_message] is the [message]
    of an exception the browser has raised: its wording is the browser's. *)
Record WebPlatform : Type := {
  CryptoKey : Type;
  importKey_rsa :
    JsonWebKey -> string -> string -> list KeyUsage -> option CryptoKey;
  importKey_aes :
    JsonWebKey -> AesKeyGenParams -> list KeyUsage -> option CryptoKey;
  exportKey_jwk : CryptoKey -> option JsonWebKey;
  generateKey_aes :
    AesKeyGenParams -> list KeyUsage -> ArrayBuffer -> option CryptoKey;
  generateKey_rsa :
    RsaHashedKeyGenParams -> list KeyUsage -> ArrayBuffer
    -> option (CryptoKey * CryptoKey);
  subtle_sign :
    RsaPssParams -> CryptoKey -> ArrayBuffer -> ArrayBuffer -> option ArrayBuffer;
  subtle_verify :
    RsaPssParams -> CryptoKey -> ArrayBuffer -> ArrayBuffer -> option bool;
  subtle_encrypt :
    string -> ArrayBuffer -> CryptoKey -> ArrayBuffer -> option ArrayBuffer;
  subtle_decrypt :
    string -> ArrayBuffer -> CryptoKey -> ArrayBuffer -> option ArrayBuffer;
  subtle_digest : string -> ArrayBuffer -> ArrayBuffer;
  JSON_parse : JSString -> option JSON;
  JSON_stringify : JSON -> JSString;
  Error_message : Exception -> JSString
}.

(** The values a call reads from the outside: random bytes, the salt drawn
    by the signer, a fresh UUID and the clock. *)
Record Entropy : Type := {
  random_bytes : nat -> byte;
  signer_salt : nat -> byte;
  randomUUID : JSString;
  Date_now : Z
}.

(** [crypto.getRandomValues(new Uint8Array(n))] *)
Definition getRandomValues (e : Entropy) (n : nat) : ArrayBuffer :=
  List.map (random_bytes e) (seq 0 n).

(** The calls to [crypto.subtle], in the order they are made. *)
Inductive Event (K : Type) : Type :=
| EvImportKey (jwk : JsonWebKey) (usages : list KeyUsage)
| EvEncrypt (key : K) (iv data : ArrayBuffer)
| EvSign (key : K) (data : ArrayBuffer)
| EvVerify (key : K) (signature data : ArrayBuffer) (verified : option bool)
| EvDecrypt (key : K) (iv data : ArrayBuffer).
Arguments EvImportKey {K} jwk usages.
Arguments EvEncrypt {K} key iv data.
Arguments EvSign {K} key data.
Arguments EvVerify {K} key signature data verified.
Arguments EvDecrypt {K} key iv data.

Definition is_decrypt {K} (ev : Event K) : bool :=
  match ev with EvDecrypt _ _ _ => true | _ => false end.

Definition is_verify {K} (ev : Event K) : bool :=
  match ev with EvVerify _ _ _ _ => true | _ => false end.

(** An [async] computation: the calls it made and how it settled. *)
Definition Async (K A : Type) : Type := list (Event K) * Result A.

Definition resolve {K A} (a : A) : Async K A := ([], Ok a).
Definition reject {K A} (e : Exception) : Async K A := ([], Throw e).

Definition await {K A B} (m : Async K A) (k : A -> Async K B) : Async K B :=
  match m with
  | (log, Ok a) => let '(log', r) := k a in (log ++ log', r)
  | (log, Throw e) => (log, Throw e)
  end.

Definition lift {K A} (r : Result A) : Async K A := ([], r).

(** A call to the browser: logged, rejected when the browser refuses. *)
Definition call {K A} (ev : Event K) (op : string) (o : option A) : Async K A :=
  ([ev], match o with Some a => Ok a | None => Throw (OperationError op) end).

Notation "x <- m ;; k" := (await m (fun x => k))
  (at level 100, m at next level, right associativity).

Definition calls {K A} (m : Async K A) : list (Event K) := fst m.
Definition settled {K A} (m : Async K A) : Result A := snd m.

(* ================================================================= *)
(** ** [services/cryptoService.ts] *)

Section CryptoService.

Context (W : WebPlatform).
Let K : Type := CryptoKey W.

(** Helper to convert ArrayBuffer to Base64: the loop appends
    [String.fromCharCode(bytes[i])] for every byte. *)
Definition arrayBufferToBase64 (buffer : ArrayBuffer) : Result JSString :=
  let binary := fold_left (fun binary b => binary ++ [Z_of_byte b]) buffer [] in
  Base64.btoa binary.

(** Helper to convert Base64 to ArrayBuffer: [bytes[i] = charCodeAt(i)]. *)
Definition base64ToArrayBuffer (base64 : JSString) : Result ArrayBuffer :=
  match Base64.atob base64 with
  | Ok binary_string => Ok (List.map byte_of_Z binary_string)
  | Throw e => Throw e
  end.

(** Generates a new RSA key pair for identity: the public and the private
    key. *)
Definition generateRsaKeyPair (e : Entropy) : option (K * K) :=
  generateKey_rsa W RSA_ALGORITHM [sign; verify] (getRandomValues e 256).

(** Exports a CryptoKey to a portable JSON Web Key (JWK) format. *)
Definition exportKey (key : K) : option JsonWebKey := exportKey_jwk W key.

(** Simulates deriving a shared secret: generates a new AES key. *)
Definition generateSharedSecret (e : Entropy) : option K :=
  generateKey_aes W AES_ALGORITHM [encrypt; decrypt] (getRandomValues e 32).

Definition exportAesKey (key : K) : option JsonWebKey := exportKey_jwk W key.

Definition importAesKey (jwk : JsonWebKey) : option K :=
  importKey_aes W jwk AES_ALGORITHM [encrypt; decrypt].

Definition importPublicKey (jwk : JsonWebKey) : Async K K :=
  call (EvImportKey jwk [verify]) "importKey"
       (importKey_rsa W jwk (rsa_name RSA_ALGORITHM) (hash RSA_ALGORITHM) [verify]).

Definition importPrivateKey (jwk : JsonWebKey) : Async K K :=
  call (EvImportKey jwk [sign]) "importKey"
       (importKey_rsa W jwk (rsa_name RSA_ALGORITHM) (hash RSA_ALGORITHM) [sign]).

(** [Number.prototype.toString(16)] of a byte. *)
Definition hex_digit (d : Z) : Z := if d <? 10 then 48 + d else 87 + d.

Definition toString16 (b : Z) : JSString :=
  if b <? 16 then [hex_digit b] else [hex_digit (b / 16); hex_digit (b mod 16)].

Definition padStart (n : nat) (fill : Z) (s : JSString) : JSString :=
  repeat fill (n - List.length s) ++ s.

Definition substring (from to : nat) (s : JSString) : JSString :=
  firstn (to - from) (skipn from s).

(** [toUpperCase] on Basic Latin letters, which is all its argument has
    here; other code units are kept. *)
Definition toUpperCase (s : JSString) : JSString :=
  List.map (fun c => if (97 <=? c) && (c <=? 122) then c - 32 else c) s.

(** Generates a SHA-256 fingerprint for a public key. *)
Definition generatePublicKeyFingerprint (publicKey : JsonWebKey) : JSString :=
  let pubKeyString := JSON_stringify W publicKey in
  let data := TextEncoder_encode pubKeyString in
  let hashBuffer := subtle_digest W "SHA-256" data in
  let hashArray := List.map Z_of_byte hashBuffer in
  toUpperCase
    (substring 0 16
       (concat (List.map (fun b => padStart 2 48 (toString16 b)) hashArray))).

(** Signs data with a private key. *)
Definition signData (e : Entropy) (privateKey : K) (data : ArrayBuffer)
  : Async K ArrayBuffer :=
  call (EvSign privateKey data) "sign"
       (subtle_sign W SIGN_ALGORITHM privateKey
          (List.map (signer_salt e) (seq 0 (Z.to_nat (saltLength SIGN_ALGORITHM))))
          data).

(** Verifies a signature with a public key. *)
Definition verifySignature (publicKey : K) (signature data : ArrayBuffer)
  : Async K bool :=
  let r := subtle_verify W SIGN_ALGORITHM publicKey signature data in
  call (EvVerify publicKey signature data r) "verify" r.

(** Encrypts text using a shared AES key. *)
Definition encryptMessage (e : Entropy) (text : JSString) (key : K)
  : Async K (ArrayBuffer * ArrayBuffer) :=
  let data := TextEncoder_encode text in
  let iv := getRandomValues e 12 in
  encryptedData <- call (EvEncrypt key iv data) "encrypt"
                        (subtle_encrypt W "AES-GCM" iv key data) ;;
  resolve (iv, encryptedData).

Definition decryption_warning : JSString :=
  [0x26A0; 0xFE0F]
    ++ str " Could not decrypt message. Key might be wrong or message corrupted.".

(** Decrypts data using a shared AES key.  The [catch] turns a rejected
    decryption into the warning text. *)
Definition decryptMessage (encryptedData iv : ArrayBuffer) (key : K)
  : Async K JSString :=
  match call (EvDecrypt key iv encryptedData) "decrypt"
             (subtle_decrypt W "AES-GCM" iv key encryptedData) with
  | (log, Ok decryptedBuffer) => (log, Ok (TextDecoder_decode decryptedBuffer))
  | (log, Throw _) => (log, Ok decryption_warning)
  end.

(** Full encryption and signing flow. *)
Definition createEncryptedPayload (e : Entropy) (text : JSString)
    (localIdentity : UserIdentity) (sharedKey : K) : Async K EncryptedMessage :=
  enc <- encryptMessage e text sharedKey ;;
  let '(iv, encryptedData) := enc in
  privateKey <- importPrivateKey (privateKey localIdentity) ;;
  signature <- signData e privateKey encryptedData ;;
  iv64 <- lift (arrayBufferToBase64 iv) ;;
  data64 <- lift (arrayBufferToBase64 encryptedData) ;;
  sig64 <- lift (arrayBufferToBase64 signature) ;;
  resolve {| id := randomUUID e;
             senderId := userId localIdentity;
             iv := iv64;
             encryptedData := data64;
             signature := sig64;
             timestamp := Date_now e |}.

Definition signature_invalid : Exception :=
  JsError (str "Message signature is invalid! The sender's identity could not be verified.").

(** Full decryption and verification flow. *)
Definition readEncryptedPayload (payload : EncryptedMessage)
    (peerIdentity : PublicIdentity) (sharedKey : K) : Async K JSString :=
  encryptedData <- lift (base64ToArrayBuffer (encryptedData payload)) ;;
  signature <- lift (base64ToArrayBuffer (signature payload)) ;;
  iv <- lift (base64ToArrayBuffer (iv payload)) ;;
  publicKey <- importPublicKey (peer_publicKey peerIdentity) ;;
  isVerified <- verifySignature publicKey signature encryptedData ;;
  if negb isVerified then reject signature_invalid
  else decryptMessage encryptedData iv sharedKey.

(** An envelope with one field replaced, as a third party in transit can
    do. *)
Definition with_iv (v : JSString) (p : EncryptedMessage) : EncryptedMessage :=
  {| id := id p; senderId := senderId p; iv := v;
     encryptedData := encryptedData p; signature := signature p;
     timestamp := timestamp p |}.

Definition with_encryptedData (v : JSString) (p : EncryptedMessage)
  : EncryptedMessage :=
  {| id := id p; senderId := senderId p; iv := iv p;
     encryptedData := v; signature := signature p;
     timestamp := timestamp p |}.

Definition with_signature (v : JSString) (p : EncryptedMessage)
  : EncryptedMessage :=
  {| id := id p; senderId := senderId p; iv := iv p;
     encryptedData := encryptedData p; signature := v;
     timestamp := timestamp p |}.

(** [getPublicIdentity] of [ChatInterface.tsx]: the public part of an
    identity. *)
Definition getPublicIdentity (identity : UserIdentity) : PublicIdentity :=
  {| peer_userId := userId identity;
     peer_username := username identity;
     peer_publicKey := publicKey identity;
     peer_publicKeyFingerprint := publicKeyFingerprint identity |}.

End CryptoService.

(* ================================================================= *)
(** ** [components/IdentitySetup.tsx]: a new identity *)

Section IdentitySetup.

Context (W : WebPlatform).

(** [handleCreateIdentity]: the identity handed to [onIdentityCreated],
    or nothing when the user name is blank or a key operation is
    rejected. *)
Definition handleCreateIdentity (e : Entropy) (username : JSString)
  : option UserIdentity :=
  match trim username with
  | [] => None
  | _ :: _ =>
      match generateRsaKeyPair W e with
      | Some (keyPair_publicKey, keyPair_privateKey) =>
          match exportKey W keyPair_publicKey, exportKey W keyPair_privateKey with
          | Some publicKey, Some privateKey =>
              let fingerprint := generatePublicKeyFingerprint W publicKey in
              Some {| userId := randomUUID e;
                      username := username;
                      publicKey := publicKey;
                      privateKey := privateKey;
                      publicKeyFingerprint := fingerprint |}
          | _, _ => None
          end
      | None => None
      end
  end.

End IdentitySetup.

(* ================================================================= *)
(** ** [components/ChatInterface.tsx]: peer and session key *)

Definition bindR {A B} (r : Result A) (k : A -> Result B) : Result B :=
  match r with Ok a => k a | Throw e => Throw e end.

Notation "x <~ r ;; k" := (bindR r (fun x => k))
  (at level 100, r at next level, right associativity).

Section ChatInterface.

Context (W : WebPlatform).
Let K : Type := CryptoKey W.

(** The state of the component.  [peer] and [messages] are the values kept
    by [useLocalStorage]: the hook rewrites the entries ['peer-identity']
    and ['chat-messages'] from them after the first render and after each
    of their changes.  [localStorage] is the rest of the browser's
    [localStorage], without these two entries: what the component reads
    and writes there itself is the entry ['shared-aes-key']. *)
Record ChatState : Type := {
  peer : option JSON;
  peerInput : JSString;
  message : JSString;
  messages : list Message;
  sharedKey : option K;
  error : JSString;
  isSending : bool;
  localStorage : gmap string JSString
}.

Definition setPeer (v : option JSON) (st : ChatState) : ChatState :=
  {| peer := v; peerInput := peerInput st; message := message st;
     messages := messages st; sharedKey := sharedKey st; error := error st;
     isSending := isSending st; localStorage := localStorage st |}.

Definition setPeerInput (v : JSString) (st : ChatState) : ChatState :=
  {| peer := peer st; peerInput := v; message := message st;
     messages := messages st; sharedKey := sharedKey st; error := error st;
     isSending := isSending st; localStorage := localStorage st |}.

Definition setMessage (v : JSString) (st : ChatState) : ChatState :=
  {| peer := peer st; peerInput := peerInput st; message := v;
     messages := messages st; sharedKey := sharedKey st; error := error st;
     isSending := isSending st; localStorage := localStorage st |}.

Definition setMessages (v : list Message) (st : ChatState) : ChatState :=
  {| peer := peer st; peerInput := peerInput st; message := message st;
     messages := v; sharedKey := sharedKey st; error := error st;
     isSending := isSending st; localStorage := localStorage st |}.

Definition setSharedKey (v : option K) (st : ChatState) : ChatState :=
  {| peer := peer st; peerInput := peerInput st; message := message st;
     messages := messages st; sharedKey := v; error := error st;
     isSending := isSending st; localStorage := localStorage st |}.

Definition setError (v : JSString) (st : ChatState) : ChatState :=
  {| peer := peer st; peerInput := peerInput st; message := message st;
     messages := messages st; sharedKey := sharedKey st; error := v;
     isSending := isSending st; localStorage := localStorage st |}.

Definition setIsSending (v : bool) (st : ChatState) : ChatState :=
  {| peer := peer st; peerInput := peerInput st; message := message st;
     messages := messages st; sharedKey := sharedKey st; error := error st;
     isSending := v; localStorage := localStorage st |}.

Definition localStorage_removeItem (key : string) (st : ChatState) : ChatState :=
  {| peer := peer st; peerInput := peerInput st; message := message st;
     messages := messages st; sharedKey := sharedKey st; error := error st;
     isSending := isSending st; localStorage := delete key (localStorage st) |}.

Definition localStorage_setItem (key : string) (v : JSString) (st : ChatState)
  : ChatState :=
  {| peer := peer st; peerInput := peerInput st; message := message st;
     messages := messages st; sharedKey := sharedKey st; error := error st;
     isSending := isSending st; localStorage := <[key := v]> (localStorage st) |}.

Definition self_peer_error : JSString := str "You can't add yourself as a peer.".

Definition invalid_peer_error : JSString :=
  str "Invalid peer identity format. Please paste the correct JSON payload or scan a valid QR code.".

Definition invalid_structure : Exception :=
  JsError (str "Invalid peer data structure.").

(** The [try] block of [handleAddPeer]: the state it leaves when it
    completes (normally or by its [return]), or what it throws.  The four
    property reads are evaluated left to right and stop at the first falsy
    one. *)
Definition handleAddPeer_try (identity : UserIdentity) (st : ChatState)
  : Result ChatState :=
  parsedPeer <~ match JSON_parse W (peerInput st) with
                | Some v => Ok v
                | None => Throw SyntaxError
                end ;;
  uid <~ get_property parsedPeer "userId" ;;
  if negb (truthy uid) then Throw invalid_structure else
  uname <~ get_property parsedPeer "username" ;;
  if negb (truthy uname) then Throw invalid_structure else
  pk <~ get_property parsedPeer "publicKey" ;;
  if negb (truthy pk) then Throw invalid_structure else
  fp <~ get_property parsedPeer "publicKeyFingerprint" ;;
  if negb (truthy fp) then Throw invalid_structure else
  if strict_equals_string uid (userId identity) then
    Ok (setError self_peer_error st)
  else
    Ok (localStorage_removeItem "shared-aes-key"
          (setMessages [] (setPeerInput [] (setPeer (Some parsedPeer) st)))).

Definition handleAddPeer (identity : UserIdentity) (st : ChatState) : ChatState :=
  let st := setError [] st in
  match handleAddPeer_try identity st with
  | Ok st' => st'
  | Throw _ => setError invalid_peer_error st
  end.

(** What is still to happen after an [await] or a [setTimeout]. *)
Inductive Task : Type :=
| ImportStoredKey (jwk : JSON)
    (* deriveAndSetSharedKey, awaiting importAesKey(jwk) *)
| GenerateSharedSecret
    (* deriveAndSetSharedKey, awaiting generateSharedSecret() *)
| SimulatedDelivery (payload : EncryptedMessage) (peerAtSend : JSON) (key : K).
    (* the setTimeout callback of handleSendMessage *)

(** [deriveAndSetSharedKey] up to its first [await]. *)
Definition deriveAndSetSharedKey_begin (st : ChatState) : option Task :=
  let storedKey := localStorage st !! "shared-aes-key"%string in
  match storedKey, truthy (peer st) with
  | Some s, true =>
      if negb (Nat.eqb (List.length s) 0) then
        match JSON_parse W s with
        | Some jwk => Some (ImportStoredKey jwk)
        | None => None
        end
      else Some GenerateSharedSecret
  | None, true => Some GenerateSharedSecret
  | _, false => None
  end.

(** The effect on [peer]: [if (peer) deriveAndSetSharedKey()]. *)
Definition peer_effect (st : ChatState) : option Task :=
  if truthy (peer st) then deriveAndSetSharedKey_begin st else None.

(** One use of a session key: the peer of the render that made the call,
    and the key. *)
Record KeyUse : Type := {
  use_peer : JSON;
  use_key : K;
  use_calls : list (Event K)
}.

(** The component between two turns of the event loop. *)
Record Session : Type := {
  ui : ChatState;
  pending : list Task;
  key_uses : list KeyUse
}.

Definition with_ui (f : ChatState -> ChatState) (s : Session) : Session :=
  {| ui := f (ui s); pending := pending s; key_uses := key_uses s |}.

Definition spawn (t : option Task) (s : Session) : Session :=
  {| ui := ui s;
     pending := pending s ++ match t with Some t => [t] | None => [] end;
     key_uses := key_uses s |}.

Definition record_use (p : JSON) (k : K) (log : list (Event K)) (s : Session)
  : Session :=
  {| ui := ui s; pending := pending s;
     key_uses := key_uses s ++ [{| use_peer := p; use_key := k; use_calls := log |}] |}.

Definition system_message (e : Entropy) (text : JSString) (isLocal : bool)
  : Message :=
  {| msg_id := randomUUID e; msg_senderId := Some (JStr (str "system"));
     msg_text := text; msg_timestamp := Date_now e;
     msg_isLocalSender := isLocal |}.

Definition warning_sign : JSString := [0x26A0; 0xFE0F].

(** [e instanceof Error ? e.message : ...]: every exception here is an
    [Error].  The message of an [Error] the code has made is the text
    given to [new Error]; the message of an exception of the browser is
    the browser's. *)
Definition exception_message (e : Exception) : JSString :=
  match e with
  | JsError m => m
  | _ => Error_message W e
  end.

(** [handleSendMessage] up to the [setTimeout]. *)
Definition handleSendMessage (identity : UserIdentity) (e : Entropy)
    (s : Session) : Session :=
  let st := ui s in
  match trim (message st), peer st, sharedKey st with
  | (_ :: _) as text, Some p, Some key =>
      if truthy (Some p) then
        let s := with_ui (setIsSending true) s in
        let r := createEncryptedPayload W e text identity key in
        let s := record_use p key (calls r) s in
        let s :=
          match settled r with
          | Ok encryptedPayload =>
              let sentMessage :=
                {| msg_id := id encryptedPayload;
                   msg_senderId := Some (JStr (userId identity));
                   msg_text := text;
                   msg_timestamp := timestamp encryptedPayload;
                   msg_isLocalSender := true |} in
              spawn (Some (SimulatedDelivery encryptedPayload p key))
                (with_ui (fun st => setMessage [] (setMessages (messages st ++ [sentMessage]) st)) s)
          | Throw err =>
              let errorMsg :=
                system_message e
                  (warning_sign ++ str " Error sending message: " ++ exception_message err)
                  true in
              with_ui (fun st => setMessages (messages st ++ [errorMsg]) st) s
          end in
        with_ui (setIsSending false) s
      else s
  | _, _, _ => s
  end.

(** A pending task runs to its end. *)
Definition settle (identity : UserIdentity) (e : Entropy) (t : Task)
    (s : Session) : Session :=
  match t with
  | ImportStoredKey jwk =>
      match importAesKey W jwk with
      | Some key => with_ui (setSharedKey (Some key)) s
      | None => s
      end
  | GenerateSharedSecret =>
      match generateSharedSecret W e with
      | Some newKey =>
          match exportAesKey W newKey with
          | Some jwk =>
              with_ui (fun st =>
                         setSharedKey (Some newKey)
                           (localStorage_setItem "shared-aes-key"
                              (JSON_stringify W jwk) st)) s
          | None => s
          end
      | None => s
      end
  | SimulatedDelivery encryptedPayload p key =>
      let r := readEncryptedPayload W encryptedPayload
                 (getPublicIdentity identity) key in
      let s := record_use p key (calls r) s in
      match (decryptedText <~ settled r ;;
             sender <~ get_property p "userId" ;;
             Ok (decryptedText, sender)) with
      | Ok (decryptedText, sender) =>
          let receivedMessage :=
            {| msg_id := randomUUID e;
               msg_senderId := sender;
               msg_text := str "(Simulated Decryption) " ++ decryptedText;
               msg_timestamp := timestamp encryptedPayload;
               msg_isLocalSender := false |} in
          with_ui (fun st => setMessages (messages st ++ [receivedMessage]) st) s
      | Throw err =>
          let errorMsg :=
            system_message e
              (warning_sign ++ str " Error receiving message: " ++ exception_message err)
              false in
          with_ui (fun st => setMessages (messages st ++ [errorMsg]) st) s
      end
  end.

(** What the event loop can run next. *)
Inductive Action : Type :=
| Mount                           (* first render: the effect on [peer] runs *)
| TypePeerInput (text : JSString)
| TypeMessage (text : JSString)
| ClickConnect                    (* "Connect to Peer": no peer, input not empty *)
| ClickDisconnect                 (* "Disconnect", shown while a peer is set *)
| ClickSend (e : Entropy)         (* shown while a peer is set *)
| Settle (i : nat) (e : Entropy). (* the pending task number [i] completes *)

Definition step (identity : UserIdentity) (a : Action) (s : Session) : Session :=
  match a with
  | Mount => spawn (peer_effect (ui s)) s
  | TypePeerInput text =>
      if truthy (peer (ui s)) then s else with_ui (setPeerInput text) s
  | TypeMessage text =>
      if truthy (peer (ui s)) then with_ui (setMessage text) s else s
  | ClickConnect =>
      if truthy (peer (ui s)) || Nat.eqb (List.length (peerInput (ui s))) 0 then s
      else
        let s := with_ui (handleAddPeer identity) s in
        spawn (peer_effect (ui s)) s
  | ClickDisconnect =>
      if truthy (peer (ui s)) then with_ui (setPeer None) s else s
  | ClickSend e =>
      if truthy (peer (ui s)) then handleSendMessage identity e s else s
  | Settle i e =>
      match pending s !! i with
      | Some t =>
          settle identity e t
            {| ui := ui s; pending := take i (pending s) ++ drop (S i) (pending s);
               key_uses := key_uses s |}
      | None => s
      end
  end.

Definition run_actions (identity : UserIdentity) (actions : list Action)
    (s : Session) : Session :=
  fold_left (fun s a => step identity a s) actions s.

End ChatInterface.

(* ================================================================= *)
(** ** A small platform to run the definitions on

    [Toy.platform] implements [WebPlatform] with a readable stand-in for
    each browser service: a JSON reader for objects and strings, a key
    that is its own name, a signature that is the signer's name and the
    signed bytes between two copies of the salt, and an authenticated
    cipher whose tag is made of the key and the nonce.  It is lawful (what
    is signed verifies, what is encrypted decrypts, a wrong key is refused)
    and nothing more; it serves to evaluate the code on concrete inputs. *)

Module Toy.

Record ToyKey : Type := {
  key_usages : list KeyUsage;
  key_material : JSString
}.

Definition usage_eqb (a b : KeyUsage) : bool :=
  match a, b with
  | sign, sign | verify, verify | encrypt, encrypt | decrypt, decrypt => true
  | _, _ => false
  end.

Definition allows (u : KeyUsage) (k : ToyKey) : bool :=
  existsb (usage_eqb u) (key_usages k).

Definition member (name : string) (j : JSON) : option JSON :=
  match j with
  | JObj ms => lookup_member (str name) ms
  | _ => None
  end.

Definition importKey_rsa (jwk : JsonWebKey) (name hash : string)
    (usages : list KeyUsage) : option ToyKey :=
  match member "n" jwk with
  | Some (JStr n) =>
      if existsb (usage_eqb sign) usages then
        match member "d" jwk with
        | Some (JStr _) => Some {| key_usages := usages; key_material := n |}
        | _ => None
        end
      else Some {| key_usages := usages; key_material := n |}
  | _ => None
  end.

Definition importKey_aes (jwk : JsonWebKey) (alg : AesKeyGenParams)
    (usages : list KeyUsage) : option ToyKey :=
  match member "k" jwk with
  | Some (JStr k) => Some {| key_usages := usages; key_material := k |}
  | _ => None
  end.

Definition exportKey_jwk (k : ToyKey) : option JsonWebKey :=
  if allows encrypt k || allows decrypt k then
    Some (JObj [(str "kty", JStr (str "oct")); (str "k", JStr (key_material k))])
  else if allows sign k then
    Some (JObj [(str "kty", JStr (str "RSA")); (str "n", JStr (key_material k));
                (str "d", JStr (key_material k))])
  else
    Some (JObj [(str "kty", JStr (str "RSA")); (str "n", JStr (key_material k))]).

Definition generateKey_aes (alg : AesKeyGenParams) (usages : list KeyUsage)
    (seed : ArrayBuffer) : option ToyKey :=
  Some {| key_usages := usages; key_material := List.map Z_of_byte seed |}.

Definition generateKey_rsa (alg : RsaHashedKeyGenParams) (usages : list KeyUsage)
    (seed : ArrayBuffer) : option (ToyKey * ToyKey) :=
  let name := List.map Z_of_byte (firstn 8 seed) in
  Some ({| key_usages := List.filter (usage_eqb verify) usages;
           key_material := name |},
        {| key_usages := List.filter (usage_eqb sign) usages;
           key_material := name |}).

Definition name_bytes (k : ToyKey) : ArrayBuffer :=
  List.map byte_of_Z (key_material k).

Definition subtle_sign (alg : RsaPssParams) (k : ToyKey) (salt data : ArrayBuffer)
  : option ArrayBuffer :=
  if allows sign k then Some (salt ++ name_bytes k ++ data ++ salt) else None.

Definition subtle_verify (alg : RsaPssParams) (k : ToyKey)
    (signature data : ArrayBuffer) : option bool :=
  if allows verify k then
    let salt := firstn (Z.to_nat (saltLength alg)) signature in
    Some ((Z.to_nat (saltLength alg) <=? List.length signature)%nat
          && bytes_eqb signature (salt ++ name_bytes k ++ data ++ salt))
  else None.

Definition mask (k : ToyKey) (data : ArrayBuffer) : ArrayBuffer :=
  List.map (fun b => byte_of_Z (Z.lxor (Z_of_byte b) (hd 0 (key_material k)))) data.

Definition tag (k : ToyKey) (iv : ArrayBuffer) : ArrayBuffer :=
  List.map (fun i => byte_of_Z (nth i (key_material k) 0
                                + Z_of_byte (nth i iv x00)
                                + Z.of_nat (List.length iv)))
           (seq 0 16).

Definition subtle_encrypt (name : string) (iv : ArrayBuffer) (k : ToyKey)
    (data : ArrayBuffer) : option ArrayBuffer :=
  if allows encrypt k then Some (mask k data ++ tag k iv) else None.

Definition subtle_decrypt (name : string) (iv : ArrayBuffer) (k : ToyKey)
    (data : ArrayBuffer) : option ArrayBuffer :=
  let n := (List.length data - 16)%nat in
  if allows decrypt k && (16 <=? List.length data)%nat
     && bytes_eqb (skipn n data) (tag k iv)
  then Some (mask k (firstn n data))
  else None.

Definition subtle_digest (name : string) (data : ArrayBuffer) : ArrayBuffer :=
  List.map (fun i => byte_of_Z
                       (fold_left (fun acc b => acc * 31 + Z_of_byte b + Z.of_nat i)
                                  data 7))
           (seq 0 32).

(** The characters up to the closing quote. *)
Fixpoint string_body (s : JSString) : option (JSString * JSString) :=
  match s with
  | [] => None
  | c :: r =>
      if c =? 34 then Some ([], r)
      else match string_body r with
           | Some (t, r') => Some (c :: t, r')
           | None => None
           end
  end.

Fixpoint parse_value (fuel : nat) (s : JSString) : option (JSON * JSString) :=
  match fuel with
  | O => None
  | S fuel =>
      match s with
      | c :: r =>
          if c =? 34 then
            match string_body r with
            | Some (t, r') => Some (JStr t, r')
            | None => None
            end
          else if c =? 123 then
            match r with
            | d :: r2 =>
                if d =? 125 then Some (JObj [], r2)
                else match parse_members fuel r with
                     | Some (ms, r3) => Some (JObj ms, r3)
                     | None => None
                     end
            | [] => None
            end
          else None
      | [] => None
      end
  end
with parse_members (fuel : nat) (s : JSString)
  : option (list (JSString * JSON) * JSString) :=
  match fuel with
  | O => None
  | S fuel =>
      match s with
      | q :: r =>
          if q =? 34 then
            match string_body r with
            | Some (k, colon :: r1) =>
                if colon =? 58 then
                  match parse_value fuel r1 with
                  | Some (v, sep :: r2) =>
                      if sep =? 125 then Some ([(k, v)], r2)
                      else if sep =? 44 then
                        match parse_members fuel r2 with
                        | Some (ms, r3) => Some ((k, v) :: ms, r3)
                        | None => None
                        end
                      else None
                  | _ => None
                  end
                else None
            | _ => None
            end
          else None
      | [] => None
      end
  end.

Definition JSON_parse (s : JSString) : option JSON :=
  match parse_value (S (List.length s)) s with
  | Some (v, []) => Some v
  | _ => None
  end.

Fixpoint JSON_stringify (j : JSON) : JSString :=
  match j with
  | JNull => str "null"
  | JBool true => str "true"
  | JBool false => str "false"
  | JNum _ => str "0"
  | JStr s => [34] ++ s ++ [34]
  | JArr _ => str "[]"
  | JObj ms =>
      [123]
        ++ (fix members (ms : list (JSString * JSON)) : JSString :=
              match ms with
              | [] => []
              | [(k, v)] => [34] ++ k ++ [34; 58] ++ JSON_stringify v
              | (k, v) :: rest =>
                  [34] ++ k ++ [34; 58] ++ JSON_stringify v ++ [44] ++ members rest
              end) ms
        ++ [125]
  end.

(** The wording of one browser. *)
Definition Error_message (e : Exception) : JSString :=
  match e with
  | InvalidCharacterError => str "The string to be decoded is not correctly encoded."
  | SyntaxError => str "Unexpected end of JSON input"
  | TypeError => str "Cannot read properties of null"
  | OperationError _ => str "The operation failed for an operation-specific reason"
  | JsError m => m
  end.

Definition platform : WebPlatform :=
  Build_WebPlatform ToyKey importKey_rsa importKey_aes exportKey_jwk
    generateKey_aes generateKey_rsa subtle_sign subtle_verify subtle_encrypt
    subtle_decrypt subtle_digest JSON_parse JSON_stringify Error_message.

(** Two identities, two session keys and a source of random values. *)
Definition rsa_public (name : string) : JsonWebKey :=
  JObj [(str "kty", JStr (str "RSA")); (str "n", JStr (str name))].

Definition rsa_private (name : string) : JsonWebKey :=
  JObj [(str "kty", JStr (str "RSA")); (str "n", JStr (str name));
        (str "d", JStr (str name))].

Definition identity_of (uid name : string) : UserIdentity :=
  {| userId := str uid;
     username := str name;
     publicKey := rsa_public name;
     privateKey := rsa_private name;
     publicKeyFingerprint :=
       generatePublicKeyFingerprint platform (rsa_public name) |}.

Definition alice : UserIdentity := identity_of "1111" "alice".
Definition bob : UserIdentity := identity_of "2222" "bob".

Definition session_key (material : string) : ToyKey :=
  {| key_usages := [encrypt; decrypt]; key_material := str material |}.

Definition K1 : ToyKey := session_key "first session key".
Definition K2 : ToyKey := session_key "second session key".

Definition entropy (n : nat) : Entropy :=
  {| random_bytes := fun i => byte_of_Z (Z.of_nat (n + 7 * i));
     signer_salt := fun i => byte_of_Z (Z.of_nat (3 * n + i));
     randomUUID := str "00000000-0000-4000-8000-000000000000";
     Date_now := 1700000000000 + Z.of_nat n |}.

Definition no_envelope : EncryptedMessage :=
  {| id := []; senderId := []; iv := []; encryptedData := [];
     signature := []; timestamp := 0 |}.

(** The envelope [createEncryptedPayload] resolves to. *)
Definition seal (e : Entropy) (text : JSString) (i : UserIdentity) (k : ToyKey)
  : EncryptedMessage :=
  match settled (createEncryptedPayload platform e text i k) with
  | Ok p => p
  | Throw _ => no_envelope
  end.

Definition hello : EncryptedMessage := seal (entropy 1) (str "hello") alice K1.

Definition base64_of (buffer : ArrayBuffer) : JSString :=
  match arrayBufferToBase64 buffer with
  | Ok text => text
  | Throw _ => []
  end.

(** An envelope around arbitrary bytes, as a sender who does not go
    through [TextEncoder] can make it. *)
Definition seal_bytes (e : Entropy) (data : ArrayBuffer) (i : UserIdentity)
    (k : ToyKey) : EncryptedMessage :=
  let nonce := getRandomValues e 12 in
  match subtle_encrypt "AES-GCM" nonce k data,
        importKey_rsa (privateKey i) "RSA-PSS" "SHA-256" [sign] with
  | Some ct, Some sk =>
      match subtle_sign SIGN_ALGORITHM sk
              (List.map (signer_salt e) (seq 0 32)) ct with
      | Some sg =>
          {| id := randomUUID e; senderId := userId i;
             iv := base64_of nonce; encryptedData := base64_of ct;
             signature := base64_of sg; timestamp := Date_now e |}
      | None => no_envelope
      end
  | _, _ => no_envelope
  end.

(** The text a peer hands over: [JSON.stringify] of the public identity. *)
Definition identity_json (i : UserIdentity) : JSON :=
  JObj [(str "userId", JStr (userId i));
        (str "username", JStr (username i));
        (str "publicKey", publicKey i);
        (str "publicKeyFingerprint", JStr (publicKeyFingerprint i))].

Definition identity_text (i : UserIdentity) : JSString :=
  JSON_stringify (identity_json i).

End Toy.

(* ================================================================= *)
(** ** RSASSA-PSS signing, after RFC 8017

    What [crypto.subtle.sign] computes for [{name: 'RSA-PSS', saltLength}]:
    the EMSA-PSS encoding of the message with the salt, then the RSA
    private-key operation on the encoded message.  The hash, the mask
    generation function and the RSA operation are parameters. *)

Module RsaPss.

Definition byte_xor (a b : byte) : byte :=
  let '(a0, (a1, (a2, (a3, (a4, (a5, (a6, a7))))))) := Byte.to_bits a in
  let '(b0, (b1, (b2, (b3, (b4, (b5, (b6, b7))))))) := Byte.to_bits b in
  Byte.of_bits (xorb a0 b0, (xorb a1 b1, (xorb a2 b2, (xorb a3 b3,
               (xorb a4 b4, (xorb a5 b5, (xorb a6 b6, xorb a7 b7))))))).

Fixpoint xor_bytes (a b : ArrayBuffer) : ArrayBuffer :=
  match a, b with
  | x :: a', y :: b' => byte_xor x y :: xor_bytes a' b'
  | _, _ => []
  end.

(** The leftmost [n] bits of the leftmost byte set to zero. *)
Definition clear_leftmost (n : nat) (bs : ArrayBuffer) : ArrayBuffer :=
  match bs with
  | b :: rest =>
      byte_of_Z (Z.land (Z_of_byte b) (Z.ones (8 - Z.of_nat n))) :: rest
  | [] => []
  end.

Section Scheme.

Variable Hash : ArrayBuffer -> ArrayBuffer.
Variable hLen : nat.
Variable MGF : ArrayBuffer -> nat -> ArrayBuffer.
(** Length of the encoded message and number of its unused leading bits:
    256 and 1 for a modulus of 2048 bits. *)
Variable emLen : nat.
Variable unused_bits : nat.

(** [H = Hash(0x00 x 8 || mHash || salt)] *)
Definition salted_hash (salt M : ArrayBuffer) : ArrayBuffer :=
  Hash (repeat x00 8 ++ Hash M ++ salt).

(** [DB = PS || 0x01 || salt] *)
Definition data_block (salt : ArrayBuffer) : ArrayBuffer :=
  repeat x00 (emLen - List.length salt - hLen - 2) ++ [x01] ++ salt.

(** [maskedDB = DB xor MGF(H, emLen - hLen - 1)], leading bits cleared. *)
Definition masked_data_block (salt M : ArrayBuffer) : ArrayBuffer :=
  clear_leftmost unused_bits
    (xor_bytes (data_block salt) (MGF (salted_hash salt M) (emLen - hLen - 1))).

(** EMSA-PSS-ENCODE: [EM = maskedDB || H || 0xbc]. *)
Definition emsa_pss_encode (salt M : ArrayBuffer) : option ArrayBuffer :=
  if (emLen <? hLen + List.length salt + 2)%nat then None
  else Some (masked_data_block salt M ++ salted_hash salt M ++ [xbc]).

(** RSASSA-PSS-SIGN with the private-key operation [RSASP1]; a salt of
    another length than the one asked for is not drawn. *)
Definition sign (RSASP1 : ArrayBuffer -> ArrayBuffer) (alg : RsaPssParams)
    (salt M : ArrayBuffer) : option ArrayBuffer :=
  if (List.length salt =? Z.to_nat (saltLength alg))%nat
  then option_map RSASP1 (emsa_pss_encode salt M)
  else None.

(** EMSA-PSS-VERIFY of an encoded message of [emLen] bytes. *)
Definition emsa_pss_verify (sLen : nat) (M EM : ArrayBuffer) : bool :=
  let maskedDB := firstn (emLen - hLen - 1) EM in
  let H := firstn hLen (skipn (emLen - hLen - 1) EM) in
  let DB := clear_leftmost unused_bits
              (xor_bytes maskedDB (MGF H (emLen - hLen - 1))) in
  let salt := skipn (emLen - hLen - 1 - sLen) DB in
  (List.length EM =? emLen)%nat
  && (hLen + sLen + 2 <=? emLen)%nat
  && bytes_eqb (skipn (emLen - 1) EM) [xbc]
  && bytes_eqb (clear_leftmost unused_bits maskedDB) maskedDB
  && bytes_eqb (firstn (emLen - hLen - 1 - sLen) DB)
               (repeat x00 (emLen - hLen - sLen - 2) ++ [x01])
  && bytes_eqb H (salted_hash salt M).

(** RSASSA-PSS-VERIFY with the public-key operation [RSAVP1]. *)
Definition verify (RSAVP1 : ArrayBuffer -> ArrayBuffer) (alg : RsaPssParams)
    (sg M : ArrayBuffer) : bool :=
  emsa_pss_verify (Z.to_nat (saltLength alg)) M (RSAVP1 sg).

(** The DER prefix of the [DigestInfo] of a SHA-256 hash. *)
Definition sha256_digest_info : ArrayBuffer :=
  [x30; x31; x30; x0d; x06; x09; x60; x86; x48; x01; x65; x03; x04; x02; x01;
   x05; x00; x04; x20].

(** EMSA-PKCS1-v1_5-ENCODE: [EM = 0x00 || 0x01 || PS || 0x00 || T], [T]
    the [DigestInfo] of the hash of the message.  There is no salt. *)
Definition emsa_pkcs1_v1_5_encode (M : ArrayBuffer) : option ArrayBuffer :=
  let T := sha256_digest_info ++ Hash M in
  if (emLen <? List.length T + 11)%nat then None
  else Some ([x00; x01] ++ repeat xff (emLen - List.length T - 3) ++ [x00] ++ T).

(** [crypto.subtle.sign(algorithm, key, data)] with an RSA key, by the
    [name] of the algorithm asked for: RSASSA-PSS with the salt length
    asked for, RSASSA-PKCS1-v1_5, which draws no salt, or a rejection. *)
Definition rsa_sign (RSASP1 : ArrayBuffer -> ArrayBuffer) (alg : RsaPssParams)
    (salt M : ArrayBuffer) : option ArrayBuffer :=
  if String.eqb (pss_name alg) "RSA-PSS" then sign RSASP1 alg salt M
  else if String.eqb (pss_name alg) "RSASSA-PKCS1-v1_5"
       then option_map RSASP1 (emsa_pkcs1_v1_5_encode M)
       else None.

(** [crypto.subtle.verify(algorithm, key, signature, data)], likewise. *)
Definition rsa_verify (RSAVP1 : ArrayBuffer -> ArrayBuffer) (alg : RsaPssParams)
    (sg M : ArrayBuffer) : option bool :=
  if String.eqb (pss_name alg) "RSA-PSS" then Some (verify RSAVP1 alg sg M)
  else if String.eqb (pss_name alg) "RSASSA-PKCS1-v1_5"
       then Some match emsa_pkcs1_v1_5_encode M with
                 | Some EM => bytes_eqb (RSAVP1 sg) EM
                 | None => false
                 end
       else None.

End Scheme.

End RsaPss.

(** The toy platform with RSASSA-PSS in the place of its signature: the
    hash is the toy digest, the mask repeats the hash of the seed, and the
    RSA operation, a permutation of the encoded messages, reverses the
    bytes after mixing in the key's name. *)
Module ToyPss.

Definition Hash : ArrayBuffer -> ArrayBuffer := Toy.subtle_digest "SHA-256".

Definition MGF (seed : ArrayBuffer) (n : nat) : ArrayBuffer :=
  let h := Hash seed in
  List.map (fun i => nth (i mod 32) h x00) (seq 0 n).

Definition key_mask (k : Toy.ToyKey) (n : nat) : ArrayBuffer :=
  let name := Toy.name_bytes k in
  let period := S (List.length name) in
  List.map (fun i => nth (i mod period) name x00) (seq 0 n).

Definition RSASP1 (k : Toy.ToyKey) (em : ArrayBuffer) : ArrayBuffer :=
  rev (RsaPss.xor_bytes em (key_mask k (List.length em))).

Definition RSAVP1 (k : Toy.ToyKey) (sg : ArrayBuffer) : ArrayBuffer :=
  RsaPss.xor_bytes (rev sg) (key_mask k (List.length sg)).

Definition subtle_sign (alg : RsaPssParams) (k : Toy.ToyKey)
    (salt data : ArrayBuffer) : option ArrayBuffer :=
  if Toy.allows sign k
  then RsaPss.rsa_sign Hash 32 MGF 256 1 (RSASP1 k) alg salt data
  else None.

Definition subtle_verify (alg : RsaPssParams) (k : Toy.ToyKey)
    (sg data : ArrayBuffer) : option bool :=
  if Toy.allows verify k
  then RsaPss.rsa_verify Hash 32 MGF 256 1 (RSAVP1 k) alg sg data
  else None.

Definition platform : WebPlatform :=
  Build_WebPlatform Toy.ToyKey Toy.importKey_rsa Toy.importKey_aes
    Toy.exportKey_jwk Toy.generateKey_aes Toy.generateKey_rsa
    subtle_sign subtle_verify Toy.subtle_encrypt Toy.subtle_decrypt
    Toy.subtle_digest Toy.JSON_parse Toy.JSON_stringify Toy.Error_message.

Definition alice_sign_key : Toy.ToyKey :=
  {| Toy.key_usages := [sign]; Toy.key_material := str "alice" |}.

Definition alice_verify_key : Toy.ToyKey :=
  {| Toy.key_usages := [verify]; Toy.key_material := str "alice" |}.

(** The other signature scheme of Web Crypto for RSA keys, with the same
    salt length written next to it. *)
Definition PKCS1_ALGORITHM : RsaPssParams :=
  {| pss_name := "RSASSA-PKCS1-v1_5"; saltLength := 32 |}.

End ToyPss.

(* ================================================================= *)
(** ** Definitions used to state the properties *)

Definition is_byte (z : Z) : Prop := 0 <= z < 256.

Definition is_sextet (z : Z) : Prop := 0 <= z < 64.

Section Statements.

Context (W : WebPlatform).

(** The text fields of an envelope, decoded in the order of the code. *)
Definition decoded (payload : EncryptedMessage)
  : Result (ArrayBuffer * ArrayBuffer * ArrayBuffer) :=
  ct <~ base64ToArrayBuffer (encryptedData payload) ;;
  sg <~ base64ToArrayBuffer (signature payload) ;;
  nonce <~ base64ToArrayBuffer (iv payload) ;;
  Ok (ct, sg, nonce).

Definition import_verify_key (peerIdentity : PublicIdentity) : option (CryptoKey W) :=
  importKey_rsa W (peer_publicKey peerIdentity) "RSA-PSS" "SHA-256" [verify].

Definition import_sign_key (identity : UserIdentity) : option (CryptoKey W) :=
  importKey_rsa W (privateKey identity) "RSA-PSS" "SHA-256" [sign].

Definition decrypted_text (key : CryptoKey W) (nonce ct : ArrayBuffer) : JSString :=
  match subtle_decrypt W "AES-GCM" nonce key ct with
  | Some buf => TextDecoder_decode buf
  | None => decryption_warning
  end.

(** Every run of [readEncryptedPayload] is one of five. *)
Inductive OpenRun (payload : EncryptedMessage) (peerIdentity : PublicIdentity)
    (key : CryptoKey W) : Async (CryptoKey W) JSString -> Prop :=
| RunMalformed e :
    decoded payload = Throw e ->
    OpenRun payload peerIdentity key ([], Throw e)
| RunNoKey ct sg nonce :
    decoded payload = Ok (ct, sg, nonce) ->
    import_verify_key peerIdentity = None ->
    OpenRun payload peerIdentity key
      ([EvImportKey (peer_publicKey peerIdentity) [verify]],
       Throw (OperationError "importKey"))
| RunVerifyRejected ct sg nonce pk :
    decoded payload = Ok (ct, sg, nonce) ->
    import_verify_key peerIdentity = Some pk ->
    subtle_verify W SIGN_ALGORITHM pk sg ct = None ->
    OpenRun payload peerIdentity key
      ([EvImportKey (peer_publicKey peerIdentity) [verify];
        EvVerify pk sg ct None],
       Throw (OperationError "verify"))
| RunUnverified ct sg nonce pk :
    decoded payload = Ok (ct, sg, nonce) ->
    import_verify_key peerIdentity = Some pk ->
    subtle_verify W SIGN_ALGORITHM pk sg ct = Some false ->
    OpenRun payload peerIdentity key
      ([EvImportKey (peer_publicKey peerIdentity) [verify];
        EvVerify pk sg ct (Some false)],
       Throw signature_invalid)
| RunVerified ct sg nonce pk :
    decoded payload = Ok (ct, sg, nonce) ->
    import_verify_key peerIdentity = Some pk ->
    subtle_verify W SIGN_ALGORITHM pk sg ct = Some true ->
    OpenRun payload peerIdentity key
      ([EvImportKey (peer_publicKey peerIdentity) [verify];
        EvVerify pk sg ct (Some true);
        EvDecrypt key nonce ct],
       Ok (decrypted_text key nonce ct)).

(** The check [handleAddPeer] makes on a parsed payload: the four fields
    are there and truthy. *)
Definition has_peer_fields (v : JSON) : bool :=
  match get_property v "userId", get_property v "username",
        get_property v "publicKey", get_property v "publicKeyFingerprint" with
  | Ok a, Ok b, Ok c, Ok d => truthy a && truthy b && truthy c && truthy d
  | _, _, _, _ => false
  end.

(** The component before its first render, nothing stored. *)
Definition initial_state : ChatState W :=
  {| peer := None; peerInput := []; message := []; messages := [];
     sharedKey := None; error := []; isSending := false;
     localStorage := ∅ |}.

Definition initial_session : Session W :=
  {| ui := initial_state; pending := []; key_uses := [] |}.

Definition is_generate (t : Task W) : bool :=
  match t with GenerateSharedSecret _ => true | _ => false end.

End Statements.

(** A session on the toy platform: Alice is the local identity; Bob and
    Carol are peers. *)
Module ToySession.

Definition carol : UserIdentity := Toy.identity_of "3333" "carol".

Definition with_peerInput (text : JSString) : ChatState Toy.platform :=
  setPeerInput Toy.platform text (initial_state Toy.platform).

(** Alice connects to Bob, the key of that relationship is generated, a
    message is sent and delivered; Alice disconnects, connects to Carol
    and sends before the key derivation started by the new peer has
    settled. *)
Definition hasty_send : list Action :=
  [Mount;
   TypePeerInput (Toy.identity_text Toy.bob);
   ClickConnect;
   Settle 0 (Toy.entropy 2);
   TypeMessage (str "hi bob");
   ClickSend (Toy.entropy 3);
   Settle 0 (Toy.entropy 4);
   ClickDisconnect;
   TypePeerInput (Toy.identity_text carol);
   ClickConnect;
   TypeMessage (str "hi carol");
   ClickSend (Toy.entropy 5)].

(** The same, the send waiting for the derivation to settle. *)
Definition patient_send : list Action :=
  [Mount;
   TypePeerInput (Toy.identity_text Toy.bob);
   ClickConnect;
   Settle 0 (Toy.entropy 2);
   TypeMessage (str "hi bob");
   ClickSend (Toy.entropy 3);
   Settle 0 (Toy.entropy 4);
   ClickDisconnect;
   TypePeerInput (Toy.identity_text carol);
   ClickConnect;
   Settle 0 (Toy.entropy 6);
   TypeMessage (str "hi carol");
   ClickSend (Toy.entropy 5)].

(** Alice sends to Bob and replaces him by Carol before the delivery timer
    of that message has fired; the derivation for Carol settles, then the
    timer fires. *)
Definition late_delivery : list Action :=
  [Mount;
   TypePeerInput (Toy.identity_text Toy.bob);
   ClickConnect;
   Settle 0 (Toy.entropy 2);
   TypeMessage (str "hi bob");
   ClickSend (Toy.entropy 3);
   ClickDisconnect;
   TypePeerInput (Toy.identity_text carol);
   ClickConnect;
   Settle 1 (Toy.entropy 6);
   Settle 0 (Toy.entropy 4)].

(** The key generated from the random bytes of [Toy.entropy n]. *)
Definition generated_key (n : nat) : Toy.ToyKey :=
  {| Toy.key_usages := [encrypt; decrypt];
     Toy.key_material := List.map Z_of_byte (getRandomValues (Toy.entropy n) 32) |}.

Definition uses (s : Session Toy.platform) : list (JSON * Toy.ToyKey) :=
  List.map (fun u => (use_peer Toy.platform u, use_key Toy.platform u))
           (key_uses Toy.platform s).

End ToySession.

(** ** The fingerprint as the specification words it *)

(** Lowercase hexadecimal, two digits a byte. *)
Definition hex_encode (bs : ArrayBuffer) : JSString :=
  flat_map (fun b => [hex_digit (Z_of_byte b / 16); hex_digit (Z_of_byte b mod 16)]) bs.

Definition digest_of (W : WebPlatform) (publicKey : JsonWebKey) : ArrayBuffer :=
  subtle_digest W "SHA-256" (TextEncoder_encode (JSON_stringify W publicKey)).

(** [truncate(hex(SHA-256(canonicalJSON(publicKey))), 16) |> uppercase],
    the serialization being [JSON.stringify]. *)
Definition spec_fingerprint (W : WebPlatform) (publicKey : JsonWebKey) : JSString :=
  toUpperCase (firstn 16 (hex_encode (digest_of W publicKey))).

Definition is_upper_hex (c : Z) : Prop := 48 <= c <= 57 \/ 65 <= c <= 70.

(** ** What is assumed of the browser's cryptography *)

Section PlatformLaws.

Context (W : WebPlatform).

(** The salt the signer draws: [saltLength] bytes. *)
Definition salt_of (e : Entropy) : ArrayBuffer :=
  List.map (signer_salt e) (seq 0 (Z.to_nat (saltLength SIGN_ALGORITHM))).

(** The two halves of an identity's key pair import, and what the private
    half signs (with a salt of the configured length) the public half
    accepts. *)
Definition matching_pair (identity : UserIdentity) : Prop :=
  exists sk pk,
    import_sign_key W identity = Some sk
    /\ import_verify_key W (getPublicIdentity identity) = Some pk
    /\ forall salt data sg,
         List.length salt = Z.to_nat (saltLength SIGN_ALGORITHM) ->
         subtle_sign W SIGN_ALGORITHM sk salt data = Some sg ->
         subtle_verify W SIGN_ALGORITHM pk sg data = Some true.

(** AES-GCM decrypts, under the same key and nonce, what it encrypted. *)
Definition decrypts_own (key : CryptoKey W) : Prop :=
  forall nonce data ct,
    subtle_encrypt W "AES-GCM" nonce key data = Some ct ->
    subtle_decrypt W "AES-GCM" nonce key ct = Some data.


End PlatformLaws.

(** The base64 text of a buffer. *)
Definition b64 (buffer : ArrayBuffer) : JSString :=
  Base64.b64_encode (List.map Z_of_byte buffer).

(** Examples on the toy platform. *)
Module ToyEnvelopes.

(** An envelope whose plaintext bytes are the single byte 0xFF, which is
    not UTF-8. *)
Definition not_text : EncryptedMessage :=
  Toy.seal_bytes (Toy.entropy 1) [xff] Toy.alice Toy.K1.


End ToyEnvelopes.

(** Plaintexts on which the round trip fails. *)
Module ToyPlaintexts.

(** "hi" after a byte order mark. *)
Definition bom_hi : JSString := [0xFEFF; 104; 105].

(** A high surrogate on its own. *)
Definition lone_surrogate : JSString := [0xD83D].

End ToyPlaintexts.

(** ** Tampering in transit *)

(** The buffer with one bit flipped: bit [i mod 8] of byte [i / 8]. *)
Fixpoint flip_bit (buffer : ArrayBuffer) (i : nat) : ArrayBuffer :=
  match buffer with
  | [] => []
  | b :: rest =>
      if (i <? 8)%nat
      then byte_of_Z (Z.lxor (Z_of_byte b) (2 ^ Z.of_nat i)) :: rest
      else b :: flip_bit rest (i - 8)
  end.

(** The envelope with bit [i] of its ciphertext, respectively of its
    signature, flipped. *)
Definition flip_encryptedData (i : nat) (p : EncryptedMessage) : EncryptedMessage :=
  match base64ToArrayBuffer (encryptedData p) with
  | Ok ct => with_encryptedData (b64 (flip_bit ct i)) p
  | Throw _ => p
  end.

Definition flip_signature (i : nat) (p : EncryptedMessage) : EncryptedMessage :=
  match base64ToArrayBuffer (signature p) with
  | Ok sg => with_signature (b64 (flip_bit sg i)) p
  | Throw _ => p
  end.

(** The verifier accepts no one-bit change of a signed pair: neither of
    the data under the signature, nor of the signature over the data. *)
Definition rejects_bit_flips (W : WebPlatform) (pk : CryptoKey W)
    (data sg : ArrayBuffer) : Prop :=
  forall i : nat,
    ((i < 8 * List.length data)%nat ->
     subtle_verify W SIGN_ALGORITHM pk sg (flip_bit data i) = Some false)
    /\ ((i < 8 * List.length sg)%nat ->
        subtle_verify W SIGN_ALGORITHM pk (flip_bit sg i) data = Some false).

Definition rejects_bit_flips_upto (W : WebPlatform) (pk : CryptoKey W)
    (data sg : ArrayBuffer) : bool :=
  forallb (fun i =>
             match subtle_verify W SIGN_ALGORITHM pk sg (flip_bit data i) with
             | Some false => true
             | _ => false
             end)
          (seq 0 (8 * List.length data))
  && forallb (fun i =>
                match subtle_verify W SIGN_ALGORITHM pk (flip_bit sg i) data with
                | Some false => true
                | _ => false
                end)
             (seq 0 (8 * List.length sg)).




(** ** The UTF-8 bytes of a scalar value, but the last *)

Module Utf8Check.
Import Utf8.

(** The bytes of a scalar value of two bytes or more without the last
    one: they are those of the value without its six low bits. *)
Definition head_bytes (hi : Z) : list Z :=
  if hi <=? 0x1F then [Z.lor 0xC0 hi]
  else if hi <=? 0x3FF then
    [Z.lor 0xE0 (Z.shiftr hi 6); Z.lor 0x80 (Z.land hi 0x3F)]
  else
    [Z.lor 0xF0 (Z.shiftr hi 12);
     Z.lor 0x80 (Z.land (Z.shiftr hi 6) 0x3F);
     Z.lor 0x80 (Z.land hi 0x3F)].

(** After these bytes the decoder has emitted nothing and awaits one
    continuation byte more, any one, with [hi] as the code point so
    far. *)
Definition awaits_last (hi : Z) : bool :=
  match feed initial (List.map Z_of_byte (List.map byte_of_Z (head_bytes hi))) with
  | ([], st) =>
      (code_point st =? hi) && (bytes_seen st + 1 =? bytes_needed st)
      && negb (bytes_needed st =? 0)
      && (lower_boundary st =? 0x80) && (upper_boundary st =? 0xBF)
  | _ => false
  end.

Definition head_count : nat := Z.to_nat (0x110000 / 64).

End Utf8Check.

(** ** Text as it comes back from UTF-8 *)

(** [String.prototype.toWellFormed]: every unpaired surrogate replaced by
    U+FFFD. *)
Definition toWellFormed (s : JSString) : JSString :=
  flat_map Utf8.code_units (Utf8.to_scalar_values s).

(** The string without a leading U+FEFF. *)
Definition drop_bom (s : JSString) : JSString :=
  match s with
  | c :: rest => if c =? 0xFEFF then rest else s
  | [] => []
  end.

Definition is_code_unit (c : Z) : Prop := 0 <= c <= 0xFFFF.

(** A character of base64 text: the alphabet and the padding sign. *)
Definition is_base64_char (c : Z) : Prop :=
  65 <= c <= 90 \/ 97 <= c <= 122 \/ 48 <= c <= 57 \/ c = 43 \/ c = 47 \/ c = 61.

(** The text without its ASCII white space. *)
Definition without_whitespace (text : JSString) : JSString :=
  List.filter (fun c => negb (Base64.is_ascii_whitespace c)) text.

(** The base64 text of a buffer without the padding. *)
Definition b64_unpadded (buffer : ArrayBuffer) : JSString :=
  List.map Base64.b64_char (Base64.sextets (List.map Z_of_byte buffer)).

(** A character of the base64 alphabet: a letter, a digit, [+] or [/]. *)
Definition is_alphabet_char (c : Z) : bool :=
  ((65 <=? c) && (c <=? 90)) || ((97 <=? c) && (c <=? 122))
  || ((48 <=? c) && (c <=? 57)) || (c =? 43) || (c =? 47).

(** The texts [atob] takes, in words: once the ASCII white space is
    removed and, if the length is then a multiple of four, one or two [=]
    are removed from the end, the length is not one more than a multiple
    of four and every character is of the alphabet. *)
Definition forgiving_base64 (text : JSString) : bool :=
  let d := without_whitespace text in
  let d := if (List.length d mod 4 =? 0)%nat then Base64.strip_padding d else d in
  negb (List.length d mod 4 =? 1)%nat && forallb is_alphabet_char d.

(** The three fields of an envelope are such texts. *)
Definition fields_taken (payload : EncryptedMessage) : bool :=
  forgiving_base64 (iv payload) && forgiving_base64 (encryptedData payload)
  && forgiving_base64 (signature payload).

(** An envelope with white space in its fields and without their
    padding. *)
Definition loosely_written (payload : EncryptedMessage) : EncryptedMessage :=
  let loose text :=
    match List.filter (fun c => negb (c =? 61)) text with
    | c1 :: c2 :: rest => c1 :: 32 :: c2 :: 10 :: rest
    | short => short
    end in
  {| id := id payload; senderId := senderId payload;
     iv := loose (iv payload); encryptedData := loose (encryptedData payload);
     signature := loose (signature payload); timestamp := timestamp payload |}.

(** An identity without the private exponent in its private key, and a
    session key that may only decrypt: sealing is rejected for them. *)
Module ToyRejections.

Definition no_private_key : UserIdentity :=
  {| userId := str "4444"; username := str "dave";
     publicKey := Toy.rsa_public "dave"; privateKey := Toy.rsa_public "dave";
     publicKeyFingerprint := [] |}.

Definition decrypt_only : Toy.ToyKey :=
  {| Toy.key_usages := [decrypt]; Toy.key_material := str "first session key" |}.

(** A text with a lone surrogate between two letters, after a byte order
    mark. *)
Definition ragged : JSString := [0xFEFF; 104; 0xD83D; 105].

End ToyRejections.

(** The verification key of one identity accepts nothing the signing key
    of the other has signed. *)
Definition rejects_signatures_of (W : WebPlatform) (signer : UserIdentity)
    (claimed : PublicIdentity) : Prop :=
  exists pk,
    import_verify_key W claimed = Some pk
    /\ forall sk salt data sg,
         import_sign_key W signer = Some sk ->
         List.length salt = Z.to_nat (saltLength SIGN_ALGORITHM) ->
         subtle_sign W SIGN_ALGORITHM sk salt data = Some sg ->
         subtle_verify W SIGN_ALGORITHM pk sg data = Some false.

(* ================================================================= *)
(** ** [hooks/useLocalStorage.ts] *)

Section UseLocalStorage.

Context (W : WebPlatform).

(** [getStorageValue]: the entry parsed, as it is; the default when there
    is no entry or when it does not parse. *)
Definition getStorageValue (storage : gmap string JSString) (key : string)
    (defaultValue : JSON) : JSON :=
  match storage !! key with
  | Some saved =>
      match JSON_parse W saved with
      | Some v => v
      | None => defaultValue
      end
  | None => defaultValue
  end.

(** The effect of [useLocalStorage], run after the first render and after
    every change of the value. *)
Definition useLocalStorage_effect (key : string) (value : JSON)
    (storage : gmap string JSString) : gmap string JSString :=
  <[key := JSON_stringify W value]> storage.

End UseLocalStorage.

(* ================================================================= *)
(** ** [App.tsx] *)

(** A [UserIdentity] as the object [handleCreateIdentity] builds. *)
Definition UserIdentity_json (i : UserIdentity) : JSON :=
  JObj [(str "userId", JStr (userId i));
        (str "username", JStr (username i));
        (str "publicKey", publicKey i);
        (str "privateKey", privateKey i);
        (str "publicKeyFingerprint", JStr (publicKeyFingerprint i))].

Module App.
Section App.

Context (W : WebPlatform).

(** The two values kept by [useLocalStorage], and [localStorage]. *)
Record AppState : Type := {
  identity : JSON;
  theme : JSON;
  storage : gmap string JSString
}.

(** The first render and its effects. *)
Definition mount (storage0 : gmap string JSString) : AppState :=
  let identity0 := getStorageValue W storage0 "user-identity" JNull in
  let theme0 := getStorageValue W storage0 "theme" (JStr (str "dark")) in
  Build_AppState identity0 theme0
    (useLocalStorage_effect W "theme" theme0
       (useLocalStorage_effect W "user-identity" identity0 storage0)).

(** [identity ? <ChatInterface/> : <IdentitySetup/>] *)
Definition shows_chat (st : AppState) : bool := truthy (Some (identity st)).

Definition toggleTheme (st : AppState) : AppState :=
  let theme' :=
    if strict_equals_string (Some (theme st)) (str "light")
    then JStr (str "dark") else JStr (str "light") in
  Build_AppState (identity st) theme'
    (useLocalStorage_effect W "theme" theme' (storage st)).

Definition handleIdentityCreated (newIdentity : UserIdentity) (st : AppState)
  : AppState :=
  let value := UserIdentity_json newIdentity in
  Build_AppState value (theme st)
    (useLocalStorage_effect W "user-identity" value (storage st)).

(** [handleLogout], [confirmed] being the answer to [window.confirm].  The
    effect of [useLocalStorage] runs when the identity was not [null]
    already. *)
Definition handleLogout (confirmed : bool) (st : AppState) : AppState :=
  if confirmed then
    let storage' :=
      delete "chat-messages"%string
        (delete "peer-identity"%string
           (delete "user-identity"%string (storage st))) in
    Build_AppState JNull (theme st)
      match identity st with
      | JNull => storage'
      | _ => useLocalStorage_effect W "user-identity" JNull storage'
      end
  else st.

End App.
End App.

(** Alice's browser after she has created her identity and a session key
    has been stored. *)
Module ToyApp.

Definition signed_in : App.AppState :=
  App.handleIdentityCreated Toy.platform Toy.alice
    (App.mount Toy.platform
       {[ "shared-aes-key"%string := str "{}"; "chat-messages"%string := str "{}" ]}).

End ToyApp.

(* ================================================================= *)
(** ** Handing an identity to a peer *)

(** The object [getPublicIdentity] returns. *)
Definition PublicIdentity_json (p : PublicIdentity) : JSON :=
  JObj [(str "userId", JStr (peer_userId p));
        (str "username", JStr (peer_username p));
        (str "publicKey", peer_publicKey p);
        (str "publicKeyFingerprint", JStr (peer_publicKeyFingerprint p))].

(** The text of the QR code: [JSON.stringify(getPublicIdentity())]. *)
Definition qr_value (W : WebPlatform) (identity : UserIdentity) : JSString :=
  JSON_stringify W (PublicIdentity_json (getPublicIdentity identity)).

(** A parsed payload that [handleAddPeer] takes as a peer: the four fields
    are truthy and the [userId] is not the local one. *)
Definition is_foreign_peer (identity : UserIdentity) (v : JSON) : bool :=
  has_peer_fields v
  && match get_property v "userId" with
     | Ok uid => negb (strict_equals_string uid (userId identity))
     | Throw _ => false
     end.

(** Two browsers, each with random values of its own. *)
Module ToyExchange.

Definition entropy_of (uuid : string) (n : nat) : Entropy :=
  {| random_bytes := random_bytes (Toy.entropy n);
     signer_salt := signer_salt (Toy.entropy n);
     randomUUID := str uuid;
     Date_now := Date_now (Toy.entropy n) |}.

Definition here : Entropy := entropy_of "5555" 1.
Definition there : Entropy := entropy_of "6666" 2.

Definition created (e : Entropy) (name : string) : UserIdentity :=
  match handleCreateIdentity Toy.platform e (str name) with
  | Some identity => identity
  | None => Toy.identity_of "" name
  end.

Definition erin : UserIdentity := created here " erin ".
Definition frank : UserIdentity := created there "frank".

End ToyExchange.

(* ================================================================= *)
(** ** The conversation *)

(** [peer.userId], the value as it is, for a peer that passed the guard of
    [handleSendMessage]: the peer is truthy then, so the read does not
    throw; [None] is [undefined]. *)
Definition sender_of (p : JSON) : option JSON :=
  match get_property p "userId" with
  | Ok v => v
  | Throw _ => None
  end.

Section Conversation.

Context (W : WebPlatform).

(** The message [handleSendMessage] shows for what was sent. *)
Definition sent_message (identity : UserIdentity) (e : Entropy) (text : JSString)
  : Message :=
  {| msg_id := randomUUID e; msg_senderId := Some (JStr (userId identity));
     msg_text := text; msg_timestamp := Date_now e;
     msg_isLocalSender := true |}.

(** The message the delivery timer shows for what was opened. *)
Definition received_message (e' : Entropy) (p : JSON) (text : JSString)
    (sentAt : Z) : Message :=
  {| msg_id := randomUUID e'; msg_senderId := sender_of p;
     msg_text := str "(Simulated Decryption) " ++ text;
     msg_timestamp := sentAt; msg_isLocalSender := false |}.

(** The message the delivery timer shows, [outcome] being how
    [readEncryptedPayload] ended: the read of [peer.userId] is inside the
    [try] as well. *)
Definition delivery_message (e' : Entropy) (env : EncryptedMessage) (p : JSON)
    (outcome : Result JSString) : Message :=
  match (text <~ outcome ;;
         sender <~ get_property p "userId" ;;
         Ok (text, sender)) with
  | Ok (text, sender) =>
      {| msg_id := randomUUID e'; msg_senderId := sender;
         msg_text := str "(Simulated Decryption) " ++ text;
         msg_timestamp := timestamp env; msg_isLocalSender := false |}
  | Throw err =>
      system_message e'
        (warning_sign ++ str " Error receiving message: "
           ++ exception_message W err) false
  end.

(** The component before its first render, [useLocalStorage] having read
    [peer0] and [messages0], with [storage] in [localStorage]. *)
Definition mounted (peer0 : option JSON) (messages0 : list Message)
    (storage : gmap string JSString) : Session W :=
  {| ui := {| peer := peer0; peerInput := []; message := [];
              messages := messages0; sharedKey := None; error := [];
              isSending := false; localStorage := storage |};
     pending := []; key_uses := [] |}.

Definition is_mount (a : Action) : bool :=
  match a with Mount => true | _ => false end.

Definition is_import (t : Task W) : bool :=
  match t with ImportStoredKey _ _ => true | _ => false end.

(** The peer a pending delivery was sent to. *)
Definition task_peer (t : Task W) : option JSON :=
  match t with
  | SimulatedDelivery _ _ p _ => Some p
  | _ => None
  end.

End Conversation.

(** Alice in a conversation with Bob, a draft typed. *)
Module ToyConversation.

Definition talking (key : Toy.ToyKey) (draft : JSString) : Session Toy.platform :=
  with_ui Toy.platform
    (fun st =>
       setMessage Toy.platform draft
         (setSharedKey Toy.platform (Some key)
            (setPeer Toy.platform (Some (Toy.identity_json Toy.bob)) st)))
    (initial_session Toy.platform).

(** A draft with white space around it and a lone surrogate inside. *)
Definition draft : JSString := [32; 104; 0xD83D; 105; 32].

(** Alice connected to Carol while a message sent to Bob is still to be
    delivered. *)
Definition awaiting : Session Toy.platform :=
  {| ui := setPeer Toy.platform (Some (Toy.identity_json ToySession.carol))
             (initial_state Toy.platform);
     pending := [SimulatedDelivery Toy.platform Toy.hello
                   (Toy.identity_json Toy.bob) Toy.K1];
     key_uses := [] |}.

End ToyConversation.

Section Invariants.

Context (W : WebPlatform).

(** Every peer the component has to do with passed the check of
    [handleAddPeer]: the one connected, the one of each pending delivery,
    the one of each use of a key. *)
Definition peers_are_foreign (identity : UserIdentity) (s : Session W) : Prop :=
  (forall p, peer W (ui W s) = Some p -> is_foreign_peer identity p = true)
  /\ Forall (fun t => forall p, task_peer W t = Some p ->
                                is_foreign_peer identity p = true)
            (pending W s)
  /\ Forall (fun u => is_foreign_peer identity (use_peer W u) = true)
            (key_uses W s).

(** The session key in [localStorage], when there is one, is the export
    of the key in memory. *)
Definition stored_key_is_the_key_in_memory (s : Session W) : Prop :=
  forall text,
    localStorage W (ui W s) !! "shared-aes-key"%string = Some text ->
    exists key jwk,
      sharedKey W (ui W s) = Some key
      /\ exportAesKey W key = Some jwk
      /\ text = JSON_stringify W jwk.

End Invariants.

Section OwnKeys.

Context (W : WebPlatform).

(** A call to [crypto.subtle] made with the local user's keys and the
    session key [key] only: what is imported is the user's private key for
    signing or the user's public key for verifying, and what encrypts or
    decrypts is [key]. *)
Definition own_call (identity : UserIdentity) (key : CryptoKey W)
    (ev : Event (CryptoKey W)) : Prop :=
  match ev with
  | EvImportKey jwk usages =>
      (jwk = privateKey identity /\ usages = [sign])
      \/ (jwk = publicKey identity /\ usages = [verify])
  | EvEncrypt k _ _ => k = key
  | EvDecrypt k _ _ => k = key
  | EvSign _ _ => True
  | EvVerify _ _ _ _ => True
  end.

Definition uses_own_keys (identity : UserIdentity) (s : Session W) : Prop :=
  Forall (fun u => Forall (own_call identity (use_key W u)) (use_calls W u))
         (key_uses W s).

End OwnKeys.

(* ================================================================= *)
(** * Properties *)

(** ** Bytes and comparisons *)

Ltac zbool :=
  repeat match goal with
    | H : (_ && _) = true |- _ => apply andb_true_iff in H; destruct H
    | H : (_ && _) = false |- _ => apply andb_false_iff in H
    | H : (_ || _) = true |- _ => apply orb_true_iff in H
    | H : (_ || _) = false |- _ => apply orb_false_iff in H; destruct H
    | H : negb _ = true |- _ => apply negb_true_iff in H
    | H : negb _ = false |- _ => apply negb_false_iff in H
    | H : (_ <? _) = true |- _ => apply Z.ltb_lt in H
    | H : (_ <? _) = false |- _ => apply Z.ltb_ge in H
    | H : (_ <=? _) = true |- _ => apply Z.leb_le in H
    | H : (_ <=? _) = false |- _ => apply Z.leb_gt in H
    | H : (_ =? _) = true |- _ => apply Z.eqb_eq in H
    | H : (_ =? _) = false |- _ => apply Z.eqb_neq in H
    end.

Ltac zcases :=
  zbool;
  repeat (match goal with H : _ \/ _ |- _ => destruct H end; zbool).

Ltac zdiv := Z.div_mod_to_equations; lia.

Ltac case_inner :=
  repeat match goal with
    | |- context [match ?x with _ => _ end] =>
        lazymatch x with
        | context [match _ with _ => _ end] => fail
        | _ => destruct x eqn:?
        end
    end.

Ltac split_ifs :=
  repeat match goal with
    | |- context [if ?b then _ else _] =>
        lazymatch b with
        | context [if _ then _ else _] => fail
        | _ => destruct b eqn:?
        end
    end.

Lemma Z_of_byte_range (b : byte) : is_byte (Z_of_byte b).
Proof.
  unfold is_byte, Z_of_byte.
  pose proof (Byte.to_N_bounded b). lia.
Qed.

Lemma byte_of_Z_of_byte (b : byte) : byte_of_Z (Z_of_byte b) = b.
Proof. destruct b; reflexivity. Qed.

Lemma Z_of_byte_of_Z (z : Z) : is_byte z -> Z_of_byte (byte_of_Z z) = z.
Proof.
  intros Hz. unfold byte_of_Z, Z_of_byte.
  rewrite Z.mod_small by exact Hz.
  destruct (Byte.of_N (Z.to_N z)) as [b|] eqn:E.
  - apply Byte.to_of_N in E. rewrite E. unfold is_byte in Hz. lia.
  - apply Byte.of_N_None_iff in E. unfold is_byte in Hz. lia.
Qed.

Lemma map_byte_of_Z_of_byte (buf : ArrayBuffer) :
  List.map byte_of_Z (List.map Z_of_byte buf) = buf.
Proof.
  induction buf as [|b buf IH]; simpl; [reflexivity|].
  now rewrite byte_of_Z_of_byte, IH.
Qed.

Lemma Forall_Z_of_byte (buf : ArrayBuffer) :
  Forall is_byte (List.map Z_of_byte buf).
Proof.
  induction buf; simpl; constructor; auto using Z_of_byte_range.
Qed.

Lemma fold_left_snoc {A B} (f : A -> B) (l : list A) (acc : list B) :
  fold_left (fun binary b => binary ++ [f b]) l acc = acc ++ List.map f l.
Proof.
  revert acc. induction l as [|a l IH]; intros acc; simpl.
  - now rewrite app_nil_r.
  - rewrite IH, <- app_assoc. reflexivity.
Qed.

(** ** Base64: what [btoa] writes, [atob] reads back *)

Module Base64Facts.
Import Base64.

Lemma list_ind3 {A} (P : list A -> Prop) :
  P [] -> (forall a, P [a]) -> (forall a b, P [a; b]) ->
  (forall a b c l, P l -> P (a :: b :: c :: l)) ->
  forall l, P l.
Proof.
  intros H0 H1 H2 H3.
  fix IH 1. intros [|a [|b [|c l]]].
  - exact H0.
  - exact (H1 a).
  - exact (H2 a b).
  - exact (H3 a b c l (IH l)).
Qed.

Lemma b64_index_char (i : Z) : is_sextet i -> b64_index (b64_char i) = Some i.
Proof.
  unfold is_sextet, b64_index, b64_char. intros Hi.
  split_ifs; zcases; first [lia | f_equal; lia | exfalso; lia].
Qed.

Lemma b64_char_plain (i : Z) :
  is_sextet i -> is_ascii_whitespace (b64_char i) = false /\ b64_char i <> 61.
Proof.
  unfold is_sextet, is_ascii_whitespace, b64_char. intros Hi.
  split.
  - repeat (apply orb_false_iff; split); apply Z.eqb_neq; split_ifs; zcases; lia.
  - split_ifs; zcases; lia.
Qed.

Lemma sextets_range (bs : list Z) :
  Forall is_byte bs -> Forall is_sextet (sextets bs).
Proof.
  induction bs as [|a|a b|a b c l IH] using list_ind3; intros H; simpl.
  - constructor.
  - inversion_clear H. unfold is_byte, is_sextet in *.
    repeat (constructor; [zdiv|]). constructor.
  - inversion_clear H as [|? ? Ha H']. inversion_clear H' as [|? ? Hb _].
    unfold is_byte, is_sextet in *.
    repeat (constructor; [zdiv|]). constructor.
  - inversion_clear H as [|? ? Ha H']. inversion_clear H' as [|? ? Hb H''].
    inversion_clear H'' as [|? ? Hc Hl].
    unfold is_byte, is_sextet in *.
    repeat (constructor; [zdiv|]). exact (IH Hl).
Qed.

Lemma unsextets_sextets (bs : list Z) :
  Forall is_byte bs -> unsextets (sextets bs) = bs.
Proof.
  induction bs as [|a|a b|a b c l IH] using list_ind3; intros H.
  - reflexivity.
  - inversion_clear H. unfold is_byte in *. simpl. f_equal. zdiv.
  - inversion_clear H as [|? ? Ha H']. inversion_clear H' as [|? ? Hb _].
    unfold is_byte in *. simpl. repeat f_equal; zdiv.
  - inversion_clear H as [|? ? Ha H']. inversion_clear H' as [|? ? Hb H''].
    inversion_clear H'' as [|? ? Hc Hl].
    unfold is_byte in *.
    change (sextets (a :: b :: c :: l))
      with ([a / 4; a mod 4 * 16 + b / 16; b mod 16 * 4 + c / 64; c mod 64]
              ++ sextets l).
    cbn [app unsextets]. rewrite (IH Hl).
    repeat f_equal; zdiv.
Qed.

Lemma padding_step (n : nat) : padding (S (S (S n))) = padding n.
Proof.
  unfold padding.
  replace (S (S (S n))) with (n + 1 * 3)%nat by lia.
  now rewrite Nat.Div0.mod_add.
Qed.

Lemma mod4_step (n : nat) : ((4 + n) mod 4 = n mod 4)%nat.
Proof.
  replace (4 + n)%nat with (n + 1 * 4)%nat by lia.
  apply Nat.Div0.mod_add.
Qed.

Lemma length_sextets (bs : list Z) :
  ((List.length (sextets bs) + List.length (padding (List.length bs))) mod 4 = 0
   /\ List.length (sextets bs) mod 4 <> 1)%nat.
Proof.
  induction bs as [|a|a b|a b c l IH] using list_ind3;
    try (cbn; split; [reflexivity | discriminate]).
  change (sextets (a :: b :: c :: l))
    with ([a / 4; a mod 4 * 16 + b / 16; b mod 16 * 4 + c / 64; c mod 64]
            ++ sextets l).
  change (List.length (a :: b :: c :: l)) with (S (S (S (List.length l)))).
  rewrite padding_step, length_app.
  change (List.length [a / 4; a mod 4 * 16 + b / 16; b mod 16 * 4 + c / 64; c mod 64])
    with 4%nat.
  rewrite <- Nat.add_assoc, !mod4_step. exact IH.
Qed.

Lemma indexes_chars (sx : list Z) :
  Forall is_sextet sx -> indexes (List.map b64_char sx) = Some sx.
Proof.
  induction 1 as [|i sx Hi _ IH]; simpl; [reflexivity|].
  now rewrite (b64_index_char i Hi), IH.
Qed.

Lemma filter_plain (sx : list Z) (pad : list Z) :
  Forall is_sextet sx -> Forall (fun c => c = 61) pad ->
  List.filter (fun c => negb (is_ascii_whitespace c)) (List.map b64_char sx ++ pad)
  = List.map b64_char sx ++ pad.
Proof.
  intros Hs Hp. induction Hs as [|i sx Hi _ IH]; simpl.
  - induction Hp as [|c pad Hc _ IHp]; simpl; [reflexivity|].
    subst c. cbn. now rewrite IHp.
  - destruct (b64_char_plain i Hi) as [-> _]. simpl. now rewrite IH.
Qed.

Lemma strip_padding_chars (sx : list Z) (n : nat) :
  Forall is_sextet sx ->
  strip_padding (List.map b64_char sx ++ padding n) = List.map b64_char sx.
Proof.
  intros Hs. unfold strip_padding.
  assert (Hbody : match rev (List.map b64_char sx) with
                  | c :: _ => (c =? 61) = false
                  | [] => True
                  end).
  { destruct (rev (List.map b64_char sx)) as [|c r] eqn:E; [exact I|].
    assert (Hin : In c (List.map b64_char sx)).
    { apply in_rev. rewrite E. now left. }
    apply in_map_iff in Hin. destruct Hin as (i & <- & Hi).
    rewrite Forall_forall in Hs.
    apply Z.eqb_neq. apply b64_char_plain. apply Hs.
    apply list_elem_of_In. exact Hi. }
  rewrite rev_app_distr.
  unfold padding. destruct (n mod 3)%nat as [|[|[|k]]]; simpl.
  - rewrite app_nil_r.
    destruct (rev (List.map b64_char sx)) as [|c r] eqn:E; [reflexivity|].
    now rewrite Hbody.
  - now rewrite rev_involutive.
  - destruct (rev (List.map b64_char sx)) as [|c r] eqn:E.
    + rewrite <- (rev_involutive (List.map b64_char sx)), E. reflexivity.
    + rewrite Hbody. rewrite <- E. now rewrite rev_involutive.
  - rewrite app_nil_r.
    destruct (rev (List.map b64_char sx)) as [|c r] eqn:E; [reflexivity|].
    now rewrite Hbody.
Qed.

Lemma padding_is_pad (n : nat) : Forall (fun c => c = 61) (padding n).
Proof.
  unfold padding. destruct (n mod 3)%nat as [|[|[|k]]]; repeat constructor.
Qed.

Lemma atob_encode (bs : list Z) :
  Forall is_byte bs -> atob (b64_encode bs) = Ok bs.
Proof.
  intros Hb. unfold atob, b64_encode.
  pose proof (sextets_range bs Hb) as Hs.
  destruct (length_sextets bs) as [Hlen Hbody].
  rewrite (filter_plain _ _ Hs (padding_is_pad _)).
  rewrite length_app, length_map.
  apply Nat.eqb_eq in Hlen. rewrite Hlen.
  rewrite (strip_padding_chars _ _ Hs).
  rewrite length_map.
  apply Nat.eqb_neq in Hbody. rewrite Hbody.
  rewrite (indexes_chars _ Hs).
  now rewrite (unsextets_sextets bs Hb).
Qed.

Lemma btoa_bytes (bs : list Z) :
  Forall is_byte bs -> btoa bs = Ok (b64_encode bs).
Proof.
  intros Hb. unfold btoa.
  replace (forallb (fun c => (0 <=? c) && (c <=? 255)) bs) with true; [reflexivity|].
  symmetry. apply forallb_forall. intros c Hc.
  rewrite Forall_forall in Hb.
  assert (is_byte c) as Hcb by (apply Hb, list_elem_of_In, Hc).
  unfold is_byte in Hcb.
  apply andb_true_iff; split; [apply Z.leb_le | apply Z.leb_le]; lia.
Qed.

End Base64Facts.

(** [arrayBufferToBase64] never throws, and [base64ToArrayBuffer] gives the
    buffer back. *)
Lemma arrayBufferToBase64_ok (buffer : ArrayBuffer) :
  arrayBufferToBase64 buffer = Ok (Base64.b64_encode (List.map Z_of_byte buffer)).
Proof.
  unfold arrayBufferToBase64. rewrite fold_left_snoc. simpl.
  apply Base64Facts.btoa_bytes, Forall_Z_of_byte.
Qed.

Lemma base64_round_trip (buffer : ArrayBuffer) (text : JSString) :
  arrayBufferToBase64 buffer = Ok text ->
  base64ToArrayBuffer text = Ok buffer.
Proof.
  rewrite arrayBufferToBase64_ok. intros [= <-].
  unfold base64ToArrayBuffer.
  rewrite Base64Facts.atob_encode by apply Forall_Z_of_byte.
  now rewrite map_byte_of_Z_of_byte.
Qed.

(** ** [readEncryptedPayload]: verify, then decrypt *)

Section OpenFacts.

Context (W : WebPlatform).

Lemma readEncryptedPayload_run payload peerIdentity key :
  OpenRun W payload peerIdentity key
    (readEncryptedPayload W payload peerIdentity key).
Proof.
  unfold readEncryptedPayload.
  destruct (decoded payload) as [[[ct sg] nonce]|e] eqn:D.
  - unfold decoded, bindR in D.
    destruct (base64ToArrayBuffer (encryptedData payload)) as [ct'|] eqn:E1;
      [|discriminate].
    destruct (base64ToArrayBuffer (signature payload)) as [sg'|] eqn:E2;
      [|discriminate].
    destruct (base64ToArrayBuffer (iv payload)) as [nonce'|] eqn:E3;
      [|discriminate].
    injection D as -> -> ->.
    assert (D : decoded payload = Ok (ct, sg, nonce))
      by (unfold decoded, bindR; now rewrite E1, E2, E3).
    cbn [lift await app].
    unfold importPublicKey, call.
    destruct (importKey_rsa W (peer_publicKey peerIdentity)
                (rsa_name RSA_ALGORITHM) (hash RSA_ALGORITHM) [verify])
      as [pk|] eqn:EK.
    + cbn [await app]. unfold verifySignature, call.
      destruct (subtle_verify W SIGN_ALGORITHM pk sg ct) as [[|]|] eqn:EV;
        cbn [await app negb reject].
      * pose proof (RunVerified W payload peerIdentity key ct sg nonce pk D EK EV) as R.
        unfold decrypted_text in R. unfold decryptMessage, call.
        destruct (subtle_decrypt W "AES-GCM" nonce key ct); exact R.
      * eapply RunUnverified; eauto.
      * eapply RunVerifyRejected; eauto.
    + cbn [await]. eapply RunNoKey; eauto.
  - unfold decoded, bindR in D.
    destruct (base64ToArrayBuffer (encryptedData payload)) as [ct'|] eqn:E1.
    + destruct (base64ToArrayBuffer (signature payload)) as [sg'|] eqn:E2.
      * destruct (base64ToArrayBuffer (iv payload)) as [nonce'|] eqn:E3;
          [discriminate|].
        injection D as ->. cbn [lift await app].
        apply RunMalformed. unfold decoded, bindR. now rewrite E1, E2, E3.
      * injection D as ->. cbn [lift await app].
        apply RunMalformed. unfold decoded, bindR. now rewrite E1, E2.
    + injection D as ->. cbn [lift await app].
      apply RunMalformed. unfold decoded, bindR. now rewrite E1.
Qed.

Lemma open_unverified payload peerIdentity key ct sg nonce pk :
  decoded payload = Ok (ct, sg, nonce) ->
  import_verify_key W peerIdentity = Some pk ->
  subtle_verify W SIGN_ALGORITHM pk sg ct = Some false ->
  readEncryptedPayload W payload peerIdentity key
  = ([EvImportKey (peer_publicKey peerIdentity) [verify];
      EvVerify pk sg ct (Some false)],
     Throw signature_invalid).
Proof.
  intros D EK EV.
  destruct (readEncryptedPayload_run payload peerIdentity key)
    as [x D' | ct' sg' nonce' D' EK' | ct' sg' nonce' pk' D' EK' EV'
        | ct' sg' nonce' pk' D' EK' EV' | ct' sg' nonce' pk' D' EK' EV'];
    congruence.
Qed.

End OpenFacts.

(** Claim C2.  In every run of [readEncryptedPayload], for every envelope,
    claimed sender and session key: the signature over the decoded
    ciphertext is checked with the claimed sender's public key before
    anything else is done with the ciphertext; when the check says no, the
    run ends at once with the "signature is invalid" error and makes no
    decryption call; and a decryption call only ever follows a check that
    said yes for the very ciphertext that is decrypted. *)
Theorem verify_then_decrypt (W : WebPlatform) (payload : EncryptedMessage)
    (peerIdentity : PublicIdentity) (key : CryptoKey W) :
  let r := readEncryptedPayload W payload peerIdentity key in
  (forall ct sg nonce pk,
      decoded payload = Ok (ct, sg, nonce) ->
      import_verify_key W peerIdentity = Some pk ->
      subtle_verify W SIGN_ALGORITHM pk sg ct = Some false ->
      r = ([EvImportKey (peer_publicKey peerIdentity) [verify];
            EvVerify pk sg ct (Some false)],
           Throw signature_invalid))
  /\ (forall pk sg ct,
         In (EvVerify pk sg ct (Some false)) (calls r) ->
         settled r = Throw signature_invalid
         /\ existsb is_decrypt (calls r) = false)
  /\ (forall k nonce ct,
         In (EvDecrypt k nonce ct) (calls r) ->
         exists pk sg,
           import_verify_key W peerIdentity = Some pk
           /\ subtle_verify W SIGN_ALGORITHM pk sg ct = Some true
           /\ calls r = [EvImportKey (peer_publicKey peerIdentity) [verify];
                         EvVerify pk sg ct (Some true);
                         EvDecrypt k nonce ct]).
Proof.
  intros r. subst r.
  destruct (readEncryptedPayload_run W payload peerIdentity key)
    as [e D | ct sg nonce D EK | ct sg nonce pk D EK EV
        | ct sg nonce pk D EK EV | ct sg nonce pk D EK EV];
    cbn [calls settled fst snd]; (split; [|split]).
  all: try (intros ct' sg' nonce' pk' D' EK' EV'; congruence).
  all: intros x y z HIn; cbn in HIn;
    repeat (destruct HIn as [HIn|HIn]; try discriminate HIn);
    try contradiction.
  - split; reflexivity.
  - injection HIn as <- <- <-. exists pk, sg. auto.
Qed.

(** The same at an instance: Bob's key claimed for an envelope of Alice. *)
Example wrong_sender_rejected :
  readEncryptedPayload Toy.platform Toy.hello (getPublicIdentity Toy.bob) Toy.K1
  = ([EvImportKey (publicKey Toy.bob) [verify];
      EvVerify {| Toy.key_usages := [verify]; Toy.key_material := str "bob" |}
        (match base64ToArrayBuffer (signature Toy.hello) with
         | Ok b => b | Throw _ => [] end)
        (match base64ToArrayBuffer (encryptedData Toy.hello) with
         | Ok b => b | Throw _ => [] end)
        (Some false)],
     Throw signature_invalid).
Proof. vm_compute. reflexivity. Qed.

Lemma atob_throws_InvalidCharacterError (text : JSString) :
  is_Ok (Base64.atob text) = false ->
  base64ToArrayBuffer text = Throw InvalidCharacterError.
Proof.
  intros Ht. unfold base64ToArrayBuffer.
  destruct (Base64.atob text) as [b|e] eqn:E; [discriminate|].
  unfold Base64.atob in E.
  repeat match type of E with
         | (if ?c then _ else _) = _ => destruct c
         | match ?c with _ => _ end = _ => destruct c
         end; congruence.
Qed.

(** ** More on base64 *)

Module Base64More.
Import Base64 Base64Facts.

Lemma length_sextets_exact (bs : list Z) :
  (List.length (sextets bs) + List.length (padding (List.length bs))
   = 4 * ((List.length bs + 2) / 3))%nat.
Proof.
  induction bs as [|a|a b|a b c l IH] using list_ind3; try reflexivity.
  change (sextets (a :: b :: c :: l))
    with ([a / 4; a mod 4 * 16 + b / 16; b mod 16 * 4 + c / 64; c mod 64]
            ++ sextets l).
  change (List.length (a :: b :: c :: l)) with (S (S (S (List.length l)))).
  rewrite padding_step, length_app.
  change (List.length [a / 4; a mod 4 * 16 + b / 16; b mod 16 * 4 + c / 64; c mod 64])
    with 4%nat.
  replace (S (S (S (List.length l))) + 2)%nat with (List.length l + 2 + 1 * 3)%nat
    by lia.
  rewrite Nat.div_add by lia. lia.
Qed.

Lemma b64_char_alphabet (i : Z) : is_sextet i -> is_base64_char (b64_char i).
Proof.
  unfold is_sextet, is_base64_char, b64_char. intros Hi.
  split_ifs; zcases; lia.
Qed.

Lemma filter_filter_ws (text : JSString) :
  without_whitespace (without_whitespace text) = without_whitespace text.
Proof.
  unfold without_whitespace.
  induction text as [|c text IH]; [reflexivity|].
  cbn [List.filter]. destruct (negb (is_ascii_whitespace c)) eqn:E; [|exact IH].
  cbn [List.filter]. now rewrite E, IH.
Qed.

Lemma atob_ignores_whitespace (text : JSString) :
  atob text = atob (without_whitespace text).
Proof.
  unfold atob. fold (without_whitespace text).
  fold (without_whitespace (without_whitespace text)).
  now rewrite filter_filter_ws.
Qed.

Lemma strip_padding_plain (sx : list Z) :
  Forall is_sextet sx ->
  strip_padding (List.map b64_char sx) = List.map b64_char sx.
Proof.
  intros Hs.
  pose proof (strip_padding_chars sx 0 Hs) as H.
  change (padding 0) with (@nil Z) in H. now rewrite app_nil_r in H.
Qed.

Lemma atob_unpadded (bs : list Z) :
  Forall is_byte bs -> atob (List.map b64_char (sextets bs)) = Ok bs.
Proof.
  intros Hb. unfold atob.
  pose proof (sextets_range bs Hb) as Hs.
  destruct (length_sextets bs) as [_ Hbody].
  pose proof (filter_plain _ [] Hs ltac:(constructor)) as Hf.
  rewrite app_nil_r in Hf. rewrite Hf.
  assert (Hd : (if (List.length (List.map b64_char (sextets bs)) mod 4 =? 0)%nat
                then strip_padding (List.map b64_char (sextets bs))
                else List.map b64_char (sextets bs))
               = List.map b64_char (sextets bs)).
  { destruct (_ =? 0)%nat; [apply strip_padding_plain, Hs | reflexivity]. }
  rewrite Hd, length_map.
  apply Nat.eqb_neq in Hbody. rewrite Hbody.
  rewrite (indexes_chars _ Hs).
  now rewrite (unsextets_sextets bs Hb).
Qed.

End Base64More.

Lemma is_alphabet_char_index (c : Z) :
  is_alphabet_char c = match Base64.b64_index c with Some _ => true | None => false end.
Proof.
  unfold is_alphabet_char, Base64.b64_index.
  destruct ((65 <=? c) && (c <=? 90)); [reflexivity|].
  destruct ((97 <=? c) && (c <=? 122)); [reflexivity|].
  destruct ((48 <=? c) && (c <=? 57)); [reflexivity|].
  destruct (c =? 43); [reflexivity|].
  destruct (c =? 47); reflexivity.
Qed.

Lemma indexes_alphabet (d : JSString) :
  forallb is_alphabet_char d
  = match Base64.indexes d with Some _ => true | None => false end.
Proof.
  induction d as [|c d IH]; [reflexivity|].
  cbn [forallb Base64.indexes]. rewrite IH, is_alphabet_char_index.
  destruct (Base64.b64_index c); [|reflexivity].
  now destruct (Base64.indexes d).
Qed.

(** [atob] takes the texts described by [forgiving_base64], and no
    other. *)
Lemma atob_takes (text : JSString) :
  is_Ok (Base64.atob text) = forgiving_base64 text.
Proof.
  unfold Base64.atob, forgiving_base64, without_whitespace.
  set (d := if (_ =? 0)%nat then _ else _).
  rewrite indexes_alphabet.
  destruct (List.length d mod 4 =? 1)%nat; [reflexivity|].
  now destruct (Base64.indexes d).
Qed.

Lemma base64ToArrayBuffer_takes (text : JSString) :
  if forgiving_base64 text
  then exists buffer, base64ToArrayBuffer text = Ok buffer
  else base64ToArrayBuffer text = Throw InvalidCharacterError.
Proof.
  rewrite <- atob_takes.
  destruct (Base64.atob text) as [b|e] eqn:E; cbn [is_Ok].
  - unfold base64ToArrayBuffer. rewrite E. eauto.
  - apply atob_throws_InvalidCharacterError. now rewrite E.
Qed.

(** Claim C5, amended.  An envelope is refused as malformed exactly when
    [atob] does not take one of its three fields: when the field, its
    ASCII white space removed and, if its length is then a multiple of
    four, one or two [=] removed from its end, has a length of one more
    than a multiple of four or a character outside the base64 alphabet.
    It is then refused with [atob]'s [InvalidCharacterError] before any
    key is imported and before any verification or decryption.  Nothing
    else is looked at.  A field that is not standard padded base64 is
    decoded all the same when [atob] takes it: the text of some bytes
    with white space in it or without its padding decodes to those bytes.
    The length of the decoded nonce is not looked at: an envelope whose
    three fields [atob] takes is never refused as malformed, whatever
    they decode to, and the run goes on to import the sender's key. *)
Theorem malformed_base64_rejected_first (W : WebPlatform)
    (payload : EncryptedMessage) (peerIdentity : PublicIdentity)
    (key : CryptoKey W) :
  let r := readEncryptedPayload W payload peerIdentity key in
  (fields_taken payload = false -> r = ([], Throw InvalidCharacterError))
  /\ (fields_taken payload = true ->
      (exists ct sg nonce, decoded payload = Ok (ct, sg, nonce))
      /\ hd_error (calls r)
         = Some (EvImportKey (peer_publicKey peerIdentity) [verify])
      /\ settled r <> Throw InvalidCharacterError)
  /\ (forall (buffer : ArrayBuffer) (text : JSString),
         without_whitespace text = b64 buffer
         \/ without_whitespace text = b64_unpadded buffer ->
         forgiving_base64 text = true
         /\ base64ToArrayBuffer text = Ok buffer).
Proof.
  cbv zeta. unfold fields_taken.
  pose proof (base64ToArrayBuffer_takes (iv payload)) as Hiv.
  pose proof (base64ToArrayBuffer_takes (encryptedData payload)) as Hed.
  pose proof (base64ToArrayBuffer_takes (signature payload)) as Hsg.
  split; [|split].
  - intros H. unfold readEncryptedPayload.
    destruct (forgiving_base64 (encryptedData payload));
      [destruct Hed as [ct ->] | rewrite Hed; reflexivity].
    destruct (forgiving_base64 (signature payload));
      [destruct Hsg as [sg ->] | rewrite Hsg; reflexivity].
    destruct (forgiving_base64 (iv payload));
      [discriminate H | rewrite Hiv; reflexivity].
  - intros H.
    apply andb_true_iff in H as [H H3]. apply andb_true_iff in H as [H1 H2].
    rewrite H1 in Hiv. rewrite H2 in Hed. rewrite H3 in Hsg.
    destruct Hiv as [nonce Hiv], Hed as [ct Hed], Hsg as [sg Hsg].
    assert (D : decoded payload = Ok (ct, sg, nonce)).
    { unfold decoded, bindR. now rewrite Hed, Hsg, Hiv. }
    split; [eauto|].
    destruct (readEncryptedPayload_run W payload peerIdentity key)
      as [e D' | ct' sg' nonce' D' EK | ct' sg' nonce' pk D' EK EV
          | ct' sg' nonce' pk D' EK EV | ct' sg' nonce' pk D' EK EV];
      cbn [calls settled fst snd hd_error]; try congruence;
      split; try reflexivity; discriminate.
  - intros buffer text H.
    assert (Hdec : base64ToArrayBuffer text = Ok buffer).
    { unfold base64ToArrayBuffer.
      rewrite Base64More.atob_ignores_whitespace.
      destruct H as [-> | ->].
      - unfold b64. rewrite Base64Facts.atob_encode by apply Forall_Z_of_byte.
        now rewrite map_byte_of_Z_of_byte.
      - unfold b64_unpadded.
        rewrite Base64More.atob_unpadded by apply Forall_Z_of_byte.
        now rewrite map_byte_of_Z_of_byte. }
    split; [|exact Hdec].
    pose proof (base64ToArrayBuffer_takes text) as Htakes.
    destruct (forgiving_base64 text); [reflexivity|]. congruence.
Qed.

Lemma malformed_base64_rejected_first_witness :
  readEncryptedPayload Toy.platform (with_iv (str "@@@@") Toy.hello)
    (getPublicIdentity Toy.alice) Toy.K1
  = ([], Throw InvalidCharacterError).
Proof.
  apply (malformed_base64_rejected_first Toy.platform).
  vm_compute. reflexivity.
Defined.

(** An envelope written with white space in its fields and without their
    padding, which is not standard padded base64, is opened like the
    envelope it was written from. *)
Example loosely_written_envelope_is_opened :
  iv (loosely_written Toy.hello) <> iv Toy.hello
  /\ fields_taken (loosely_written Toy.hello) = true
  /\ decoded (loosely_written Toy.hello) = decoded Toy.hello
  /\ settled (readEncryptedPayload Toy.platform (loosely_written Toy.hello)
                (getPublicIdentity Toy.alice) Toy.K1)
     = Ok (str "hello").
Proof. vm_compute. repeat split; try reflexivity. discriminate. Qed.

(** Bits of the last character that belong to no byte are dropped, not
    checked: two texts decode to the same byte, one of them standard. *)
Example spare_bits_are_not_checked :
  base64ToArrayBuffer (str "QR==") = Ok [x41]
  /\ base64ToArrayBuffer (str "QQ==") = Ok [x41]
  /\ b64 [x41] = str "QQ==".
Proof. vm_compute. repeat split; reflexivity. Qed.

(** Claim C5 as stated fails: the nonce ["AAAA"] decodes to three bytes, not
    twelve, and the envelope is not refused as malformed; the signature is
    verified and the decryption is attempted. *)
Lemma nonce_length_is_not_checked :
  let p := with_iv (str "AAAA") Toy.hello in
  let r := readEncryptedPayload Toy.platform p (getPublicIdentity Toy.alice) Toy.K1 in
  base64ToArrayBuffer (iv p) = Ok [x00; x00; x00]
  /\ existsb is_verify (calls r) = true
  /\ existsb is_decrypt (calls r) = true
  /\ settled r = Ok decryption_warning.
Proof. vm_compute. repeat split; reflexivity. Qed.

(** ** [handleAddPeer] *)

Section AddPeerFacts.

Context (W : WebPlatform).

Lemma jsstr_eqb_refl (s : JSString) : jsstr_eqb s s = true.
Proof. unfold jsstr_eqb. now apply bool_decide_eq_true. Qed.

Lemma jsstr_eqb_eq (s t : JSString) : jsstr_eqb s t = true -> s = t.
Proof. unfold jsstr_eqb. now intros H%bool_decide_eq_true. Qed.

(** [handleAddPeer] does not touch the session key in memory, the draft
    message or the sending flag, whatever the input. *)
Lemma handleAddPeer_keeps_sharedKey (identity : UserIdentity) (st : ChatState W) :
  sharedKey W (handleAddPeer W identity st) = sharedKey W st.
Proof.
  unfold handleAddPeer, handleAddPeer_try, bindR.
  case_inner; reflexivity.
Qed.

(** When [handleAddPeer] sets a peer, the stored key is gone. *)
Lemma handleAddPeer_discards_stored_key (identity : UserIdentity)
    (st : ChatState W) :
  peer W (handleAddPeer W identity st) <> peer W st ->
  localStorage W (handleAddPeer W identity st) !! "shared-aes-key"%string = None
  /\ messages W (handleAddPeer W identity st) = [].
Proof.
  unfold handleAddPeer, handleAddPeer_try, bindR.
  case_inner; cbn; intros H; try congruence.
  split; [apply lookup_delete_eq | reflexivity].
Qed.

(** The peer that [handleAddPeer] sets is an object. *)
Lemma handleAddPeer_sets_object (identity : UserIdentity) (st : ChatState W) :
  peer W (handleAddPeer W identity st) <> peer W st ->
  truthy (peer W (handleAddPeer W identity st)) = true.
Proof.
  unfold handleAddPeer, handleAddPeer_try, bindR.
  case_inner; cbn; try congruence.
  intros _.
  match goal with
  | H : get_property ?v "userId" = Ok ?u, T : negb (truthy ?u) = false |- _ =>
      destruct v; cbn in H; try discriminate H;
      try (injection H as <-; discriminate T)
  end.
  reflexivity.
Qed.

End AddPeerFacts.

(** Claim C10.  When the pasted payload parses, has the four fields, and
    its [userId] is the local identity's, [handleAddPeer] sets the error
    text to "You can't add yourself as a peer." and changes nothing else:
    the connected peer, the message list, the session key in memory and
    the stored one, the input, the draft and the sending flag are as
    before. *)
Theorem self_peer_rejected (W : WebPlatform) (identity : UserIdentity)
    (st : ChatState W) (parsedPeer : JSON) :
  JSON_parse W (peerInput W st) = Some parsedPeer ->
  has_peer_fields parsedPeer = true ->
  get_property parsedPeer "userId" = Ok (Some (JStr (userId identity))) ->
  let st' := handleAddPeer W identity st in
  error W st' = self_peer_error
  /\ peer W st' = peer W st
  /\ messages W st' = messages W st
  /\ sharedKey W st' = sharedKey W st
  /\ localStorage W st' = localStorage W st
  /\ peerInput W st' = peerInput W st
  /\ message W st' = message W st
  /\ isSending W st' = isSending W st.
Proof.
  intros Hparse Hfields Huid st'. subst st'.
  unfold handleAddPeer, handleAddPeer_try, bindR.
  cbn [peerInput setError]. rewrite Hparse.
  unfold has_peer_fields in Hfields. rewrite Huid in *.
  destruct (get_property parsedPeer "username") as [uname|]; [|discriminate].
  destruct (get_property parsedPeer "publicKey") as [pk|]; [|discriminate].
  destruct (get_property parsedPeer "publicKeyFingerprint") as [fp|];
    [|discriminate].
  apply andb_true_iff in Hfields as [Hfields Hfp].
  apply andb_true_iff in Hfields as [Hfields Hpk].
  apply andb_true_iff in Hfields as [Hu Hname].
  rewrite Hu, Hname, Hpk, Hfp. cbn [negb strict_equals_string].
  rewrite jsstr_eqb_refl. cbn. repeat split; reflexivity.
Qed.

Lemma self_peer_rejected_witness :
  let st := ToySession.with_peerInput (Toy.identity_text Toy.alice) in
  let st' := handleAddPeer Toy.platform Toy.alice st in
  error _ st' = self_peer_error
  /\ peer _ st' = peer _ st
  /\ messages _ st' = messages _ st
  /\ sharedKey _ st' = sharedKey _ st
  /\ localStorage _ st' = localStorage _ st
  /\ peerInput _ st' = peerInput _ st
  /\ message _ st' = message _ st
  /\ isSending _ st' = isSending _ st.
Proof.
  apply (self_peer_rejected Toy.platform Toy.alice
           (ToySession.with_peerInput (Toy.identity_text Toy.alice))
           (Toy.identity_json Toy.alice)).
  - vm_compute. reflexivity.
  - vm_compute. reflexivity.
  - vm_compute. reflexivity.
Defined.

(** ** The session key across a change of peer *)

Section SessionKeyFacts.

Context (W : WebPlatform).

(** There is one slot for the session key, and a click on "Connect to
    Peer" that sets a peer leaves nothing stored and starts the derivation
    of a fresh key, but leaves the slot as it was. *)
Lemma connect_starts_fresh_derivation (identity : UserIdentity) (s : Session W) :
  peer W (ui W s) = None ->
  peer W (ui W (step W identity ClickConnect s)) <> None ->
  localStorage W (ui W (step W identity ClickConnect s)) !! "shared-aes-key"%string
  = None
  /\ pending W (step W identity ClickConnect s)
     = pending W s ++ [GenerateSharedSecret W]
  /\ sharedKey W (ui W (step W identity ClickConnect s)) = sharedKey W (ui W s).
Proof.
  intros Hnone. unfold step. rewrite Hnone. cbn [truthy orb].
  destruct (Nat.eqb _ 0); [intros H; now rewrite Hnone in H|].
  cbn [with_ui ui pending spawn].
  intros Hset.
  assert (Hne : peer W (handleAddPeer W identity (ui W s)) <> peer W (ui W s))
    by now rewrite Hnone.
  destruct (handleAddPeer_discards_stored_key W identity (ui W s) Hne) as [Hls _].
  split; [exact Hls|]. split; [|apply handleAddPeer_keeps_sharedKey].
  f_equal. unfold peer_effect, deriveAndSetSharedKey_begin.
  unfold JSString in *. rewrite Hls.
  now rewrite (handleAddPeer_sets_object W identity (ui W s) Hne).
Qed.

(** When that derivation settles, the slot holds the key generated then,
    and the same key is stored. *)
Lemma derivation_installs_generated_key (identity : UserIdentity) (e : Entropy)
    (s : Session W) (newKey : CryptoKey W) (jwk : JsonWebKey) :
  generateSharedSecret W e = Some newKey ->
  exportAesKey W newKey = Some jwk ->
  sharedKey W (ui W (settle W identity e (GenerateSharedSecret W) s)) = Some newKey
  /\ localStorage W (ui W (settle W identity e (GenerateSharedSecret W) s))
       !! "shared-aes-key"%string
     = Some (JSON_stringify W jwk).
Proof.
  intros Hgen Hexp. unfold settle. rewrite Hgen, Hexp.
  cbn [with_ui ui setSharedKey sharedKey localStorage localStorage_setItem].
  split; [reflexivity|]. apply lookup_insert_eq.
Qed.

End SessionKeyFacts.

(** Claim C9 at the failing run.  After Bob has been replaced by Carol the
    stored key is gone and a derivation of a fresh key is pending, but the
    key in memory is still the one generated for Bob, and the send that
    comes before the derivation settles seals with it: the same key is
    used with Bob and with Carol. *)
Theorem stale_key_sealed_for_new_peer :
  let s := run_actions Toy.platform Toy.alice ToySession.hasty_send
             (initial_session Toy.platform) in
  ToySession.uses s
  = [(Toy.identity_json Toy.bob, ToySession.generated_key 2);
     (Toy.identity_json Toy.bob, ToySession.generated_key 2);
     (Toy.identity_json ToySession.carol, ToySession.generated_key 2)]
  /\ peer _ (ui _ s) = Some (Toy.identity_json ToySession.carol)
  /\ sharedKey _ (ui _ s) = Some (ToySession.generated_key 2)
  /\ localStorage _ (ui _ s) !! "shared-aes-key"%string = None
  /\ existsb (is_generate Toy.platform) (pending _ s) = true.
Proof. vm_compute. repeat split; reflexivity. Qed.

(** When the send waits for the derivation, Carol gets a key of her own. *)
Example fresh_key_after_derivation :
  ToySession.uses
    (run_actions Toy.platform Toy.alice ToySession.patient_send
       (initial_session Toy.platform))
  = [(Toy.identity_json Toy.bob, ToySession.generated_key 2);
     (Toy.identity_json Toy.bob, ToySession.generated_key 2);
     (Toy.identity_json ToySession.carol, ToySession.generated_key 6)].
Proof. vm_compute. reflexivity. Qed.

(** The timer of a message sent to Bob fires after Carol has taken his
    place and has her own key: the message is opened with Bob's key and
    put into the conversation with Carol. *)
Example late_delivery_after_peer_change :
  let s := run_actions Toy.platform Toy.alice ToySession.late_delivery
             (initial_session Toy.platform) in
  ToySession.uses s
  = [(Toy.identity_json Toy.bob, ToySession.generated_key 2);
     (Toy.identity_json Toy.bob, ToySession.generated_key 2)]
  /\ peer _ (ui _ s) = Some (Toy.identity_json ToySession.carol)
  /\ sharedKey _ (ui _ s) = Some (ToySession.generated_key 6)
  /\ List.map msg_text (messages _ (ui _ s))
     = [str "(Simulated Decryption) hi bob"].
Proof. vm_compute. repeat split; reflexivity. Qed.

(** ** The fingerprint *)

Lemma pad_toString16 (b : byte) :
  padStart 2 48 (toString16 (Z_of_byte b))
  = [hex_digit (Z_of_byte b / 16); hex_digit (Z_of_byte b mod 16)].
Proof. destruct b; reflexivity. Qed.

Lemma concat_hex (buf : ArrayBuffer) :
  concat (List.map (fun b => padStart 2 48 (toString16 b)) (List.map Z_of_byte buf))
  = hex_encode buf.
Proof.
  induction buf as [|b buf IH]; [reflexivity|].
  cbn [List.map concat hex_encode flat_map].
  rewrite pad_toString16, IH. reflexivity.
Qed.

Lemma firstn_hex_encode (n : nat) (buf : ArrayBuffer) :
  firstn (2 * n) (hex_encode buf) = hex_encode (firstn n buf).
Proof.
  revert buf. induction n as [|n IH]; intros buf; [reflexivity|].
  destruct buf as [|b buf]; [reflexivity|].
  replace (2 * S n)%nat with (S (S (2 * n))) by lia.
  cbn [hex_encode flat_map app firstn]. f_equal. f_equal. apply IH.
Qed.

Lemma length_hex_encode (buf : ArrayBuffer) :
  List.length (hex_encode buf) = (2 * List.length buf)%nat.
Proof.
  induction buf as [|b buf IH]; [reflexivity|].
  cbn [hex_encode flat_map app List.length]. fold (hex_encode buf). lia.
Qed.

Lemma upper_hex_digit (b : byte) :
  is_upper_hex (if (97 <=? hex_digit (Z_of_byte b / 16))
                   && (hex_digit (Z_of_byte b / 16) <=? 122)
                then hex_digit (Z_of_byte b / 16) - 32
                else hex_digit (Z_of_byte b / 16))
  /\ is_upper_hex (if (97 <=? hex_digit (Z_of_byte b mod 16))
                      && (hex_digit (Z_of_byte b mod 16) <=? 122)
                   then hex_digit (Z_of_byte b mod 16) - 32
                   else hex_digit (Z_of_byte b mod 16)).
Proof.
  destruct b; vm_compute; split;
    first [left; split; discriminate | right; split; discriminate].
Qed.

Lemma upper_hex_encode (buf : ArrayBuffer) :
  Forall is_upper_hex (toUpperCase (hex_encode buf)).
Proof.
  induction buf as [|b buf IH]; [constructor|].
  cbn [hex_encode flat_map app toUpperCase List.map].
  destruct (upper_hex_digit b) as [Hh Hl].
  constructor; [exact Hh|]. constructor; [exact Hl|]. exact IH.
Qed.

Lemma hex_digits_of_byte_inj (a b : byte) :
  toUpperCase [hex_digit (Z_of_byte a / 16); hex_digit (Z_of_byte a mod 16)]
  = toUpperCase [hex_digit (Z_of_byte b / 16); hex_digit (Z_of_byte b mod 16)] ->
  a = b.
Proof.
  intros H.
  rewrite <- (byte_of_Z_of_byte a), <- (byte_of_Z_of_byte b). f_equal.
  pose proof (Z_of_byte_range a) as Ha. pose proof (Z_of_byte_range b) as Hb.
  unfold is_byte in *.
  assert (Hd : forall x y, 0 <= x < 16 -> 0 <= y < 16 ->
                (if (97 <=? hex_digit x) && (hex_digit x <=? 122)
                 then hex_digit x - 32 else hex_digit x)
                = (if (97 <=? hex_digit y) && (hex_digit y <=? 122)
                   then hex_digit y - 32 else hex_digit y) -> x = y).
  { intros x y Hx Hy. unfold hex_digit. split_ifs; zcases; lia. }
  cbn [toUpperCase List.map] in H. injection H as H1 H2.
  apply Hd in H1; [|zdiv|zdiv]. apply Hd in H2; [|zdiv|zdiv].
  zdiv.
Qed.

Lemma upper_hex_encode_inj (l1 l2 : ArrayBuffer) :
  toUpperCase (hex_encode l1) = toUpperCase (hex_encode l2) -> l1 = l2.
Proof.
  revert l2. induction l1 as [|a l1 IH]; intros [|b l2] H;
    try reflexivity; try discriminate H.
  cbn [hex_encode flat_map app toUpperCase List.map] in H.
  injection H as H1 H2 H3.
  f_equal.
  - apply hex_digits_of_byte_inj. cbn [toUpperCase List.map]. congruence.
  - apply IH. exact H3.
Qed.

Lemma fingerprint_refines_spec (W : WebPlatform) (publicKey : JsonWebKey) :
  generatePublicKeyFingerprint W publicKey = spec_fingerprint W publicKey.
Proof.
  unfold generatePublicKeyFingerprint, spec_fingerprint, digest_of, substring.
  rewrite concat_hex. reflexivity.
Qed.

(** The fingerprint kept in a new identity is the one of its public key. *)
Lemma created_identity_fingerprint (W : WebPlatform) (e : Entropy)
    (name : JSString) (identity : UserIdentity) :
  handleCreateIdentity W e name = Some identity ->
  publicKeyFingerprint identity
  = generatePublicKeyFingerprint W (publicKey identity).
Proof.
  unfold handleCreateIdentity. case_inner; try discriminate.
  now intros [= <-].
Qed.

(** Claim C7.  With a digest of 32 bytes (SHA-256), the fingerprint of a
    public key is the uppercase of the first 16 characters of the
    lowercase hex of the SHA-256 of the key's JSON text; it has 16
    characters, each one of 0-9 and A-F; it is a function of the key; and
    two keys have the same fingerprint exactly when the first eight bytes
    of their digests are the same. *)
Theorem fingerprint_is_truncated_digest (W : WebPlatform) :
  (forall data, List.length (subtle_digest W "SHA-256" data) = 32%nat) ->
  forall publicKey : JsonWebKey,
    generatePublicKeyFingerprint W publicKey = spec_fingerprint W publicKey
    /\ List.length (generatePublicKeyFingerprint W publicKey) = 16%nat
    /\ Forall is_upper_hex (generatePublicKeyFingerprint W publicKey)
    /\ (forall other : JsonWebKey,
           generatePublicKeyFingerprint W other
           = generatePublicKeyFingerprint W publicKey
           <-> firstn 8 (digest_of W other) = firstn 8 (digest_of W publicKey)).
Proof.
  intros Hlen publicKey.
  assert (E : forall k, generatePublicKeyFingerprint W k
                        = toUpperCase (hex_encode (firstn 8 (digest_of W k)))).
  { intros k. rewrite fingerprint_refines_spec. unfold spec_fingerprint.
    now rewrite (firstn_hex_encode 8). }
  split; [apply fingerprint_refines_spec|].
  split.
  { rewrite E. unfold toUpperCase.
    rewrite length_map, length_hex_encode, length_firstn.
    unfold digest_of. rewrite Hlen. reflexivity. }
  split; [rewrite E; apply upper_hex_encode|].
  intros other. rewrite !E. split.
  - apply upper_hex_encode_inj.
  - now intros ->.
Qed.

Lemma toy_digest_length (data : ArrayBuffer) :
  List.length (subtle_digest Toy.platform "SHA-256" data) = 32%nat.
Proof.
  change (subtle_digest Toy.platform "SHA-256" data)
    with (Toy.subtle_digest "SHA-256" data).
  unfold Toy.subtle_digest. now rewrite length_map, length_seq.
Qed.

Lemma fingerprint_is_truncated_digest_witness :
  generatePublicKeyFingerprint Toy.platform (publicKey Toy.alice)
  = spec_fingerprint Toy.platform (publicKey Toy.alice)
  /\ List.length (generatePublicKeyFingerprint Toy.platform (publicKey Toy.alice))
     = 16%nat
  /\ Forall is_upper_hex
       (generatePublicKeyFingerprint Toy.platform (publicKey Toy.alice))
  /\ (forall other : JsonWebKey,
         generatePublicKeyFingerprint Toy.platform other
         = generatePublicKeyFingerprint Toy.platform (publicKey Toy.alice)
         <-> firstn 8 (digest_of Toy.platform other)
             = firstn 8 (digest_of Toy.platform (publicKey Toy.alice))).
Proof.
  exact (fingerprint_is_truncated_digest Toy.platform toy_digest_length
           (publicKey Toy.alice)).
Defined.

Example fingerprint_of_alice :
  generatePublicKeyFingerprint Toy.platform (publicKey Toy.alice)
  = str "9F20A122A324A526".
Proof. vm_compute. reflexivity. Qed.

(** ** [createEncryptedPayload]: what a sealed envelope holds *)

Section SealFacts.

Context (W : WebPlatform).

Lemma base64ToArrayBuffer_b64 (buffer : ArrayBuffer) :
  base64ToArrayBuffer (b64 buffer) = Ok buffer.
Proof. apply base64_round_trip, arrayBufferToBase64_ok. Qed.

Lemma seal_inversion (e : Entropy) (text : JSString) (identity : UserIdentity)
    (key : CryptoKey W) (env : EncryptedMessage) :
  settled (createEncryptedPayload W e text identity key) = Ok env ->
  exists ct sk sg,
    subtle_encrypt W "AES-GCM" (getRandomValues e 12) key (TextEncoder_encode text)
    = Some ct
    /\ import_sign_key W identity = Some sk
    /\ subtle_sign W SIGN_ALGORITHM sk (salt_of e) ct = Some sg
    /\ env = {| id := randomUUID e; senderId := userId identity;
                iv := b64 (getRandomValues e 12);
                encryptedData := b64 ct;
                signature := b64 sg;
                timestamp := Date_now e |}.
Proof.
  unfold createEncryptedPayload, encryptMessage, importPrivateKey, signData,
    call, import_sign_key, salt_of.
  destruct (subtle_encrypt W "AES-GCM" (getRandomValues e 12) key
              (TextEncoder_encode text)) as [ct|]; [|discriminate].
  cbn [await resolve app].
  destruct (importKey_rsa W (privateKey identity) (rsa_name RSA_ALGORITHM)
              (hash RSA_ALGORITHM) [sign]) as [sk|] eqn:EK; [|discriminate].
  cbn [await app].
  destruct (subtle_sign W SIGN_ALGORITHM sk
              (List.map (signer_salt e)
                 (seq 0 (Z.to_nat (saltLength SIGN_ALGORITHM)))) ct)
    as [sg|] eqn:ES; [|discriminate].
  rewrite !arrayBufferToBase64_ok.
  cbn [await lift resolve app settled snd].
  intros [= <-]. exists ct, sk, sg. repeat split; auto.
Qed.

Lemma length_salt_of (e : Entropy) :
  List.length (salt_of e) = Z.to_nat (saltLength SIGN_ALGORITHM).
Proof. unfold salt_of. now rewrite length_map, length_seq. Qed.

(** What [readEncryptedPayload] does with the envelope of a
    [createEncryptedPayload] that resolved, the sender being the claimed
    one. *)
Lemma open_sealed (e : Entropy) (text : JSString) (identity : UserIdentity)
    (key key' : CryptoKey W) (env : EncryptedMessage) :
  matching_pair W identity ->
  settled (createEncryptedPayload W e text identity key) = Ok env ->
  exists pk sg ct,
    subtle_encrypt W "AES-GCM" (getRandomValues e 12) key (TextEncoder_encode text)
    = Some ct
    /\ readEncryptedPayload W env (getPublicIdentity identity) key'
       = ([EvImportKey (publicKey identity) [verify];
           EvVerify pk sg ct (Some true);
           EvDecrypt key' (getRandomValues e 12) ct],
          Ok (decrypted_text W key' (getRandomValues e 12) ct)).
Proof.
  intros (sk & pk & Hsk & Hpk & Hsig) Hseal.
  destruct (seal_inversion _ _ _ _ _ Hseal) as (ct & sk' & sg & Henc & Hsk' & Hsg & ->).
  rewrite Hsk in Hsk'. injection Hsk' as <-.
  exists pk, sg, ct. split; [exact Henc|].
  pose proof (Hsig _ _ _ (length_salt_of e) Hsg) as Hver.
  destruct (readEncryptedPayload_run W
              {| id := randomUUID e; senderId := userId identity;
                 iv := b64 (getRandomValues e 12); encryptedData := b64 ct;
                 signature := b64 sg; timestamp := Date_now e |}
              (getPublicIdentity identity) key')
    as [x D | ct' sg' nonce' D EK | ct' sg' nonce' pk' D EK EV
        | ct' sg' nonce' pk' D EK EV | ct' sg' nonce' pk' D EK EV];
    unfold decoded, bindR in D; cbn [encryptedData signature iv] in D;
    rewrite !base64ToArrayBuffer_b64 in D; try discriminate D;
    injection D as <- <- <-; try congruence.
  rewrite Hpk in EK. injection EK as <-. reflexivity.
Qed.

End SealFacts.

(** ** The toy platform is lawful *)

Lemma toy_alice_matching_pair : matching_pair Toy.platform Toy.alice.
Proof.
  exists {| Toy.key_usages := [sign]; Toy.key_material := str "alice" |},
         {| Toy.key_usages := [verify]; Toy.key_material := str "alice" |}.
  split; [vm_compute; reflexivity|]. split; [vm_compute; reflexivity|].
  intros salt data sg Hlen.
  change (subtle_sign Toy.platform) with Toy.subtle_sign.
  change (subtle_verify Toy.platform) with Toy.subtle_verify.
  unfold Toy.subtle_sign, Toy.subtle_verify.
  cbn [Toy.allows Toy.key_usages existsb Toy.usage_eqb orb].
  intros [= <-]. f_equal.
  rewrite <- Hlen, firstn_app, Nat.sub_diag, firstn_all.
  cbn [firstn]. rewrite app_nil_r.
  unfold bytes_eqb. rewrite jsstr_eqb_refl, andb_true_r.
  apply Nat.leb_le. rewrite length_app. lia.
Qed.

Lemma toy_mask_K1 (data : ArrayBuffer) :
  Toy.mask Toy.K1 (Toy.mask Toy.K1 data) = data.
Proof.
  unfold Toy.mask. rewrite map_map.
  induction data as [|b data IH]; [reflexivity|].
  cbn [List.map]. rewrite IH. f_equal. destruct b; reflexivity.
Qed.

Lemma toy_length_tag (k : Toy.ToyKey) (nonce : ArrayBuffer) :
  List.length (Toy.tag k nonce) = 16%nat.
Proof. unfold Toy.tag. now rewrite length_map, length_seq. Qed.

Lemma toy_K1_decrypts_own : decrypts_own Toy.platform Toy.K1.
Proof.
  intros nonce data ct.
  change (subtle_encrypt Toy.platform) with Toy.subtle_encrypt.
  change (subtle_decrypt Toy.platform) with Toy.subtle_decrypt.
  unfold Toy.subtle_encrypt, Toy.subtle_decrypt.
  change (Toy.allows encrypt Toy.K1) with true.
  change (Toy.allows decrypt Toy.K1) with true.
  cbn [andb]. intros [= <-].
  assert (Hn : (List.length (Toy.mask Toy.K1 data ++ Toy.tag Toy.K1 nonce) - 16
                = List.length (Toy.mask Toy.K1 data))%nat)
    by (rewrite length_app, toy_length_tag; lia).
  rewrite Hn.
  rewrite skipn_app, Nat.sub_diag, skipn_all. cbn [skipn app].
  rewrite firstn_app, Nat.sub_diag, firstn_all. cbn [firstn]. rewrite app_nil_r.
  unfold bytes_eqb. rewrite jsstr_eqb_refl.
  replace (16 <=? _)%nat with true.
  - cbn. now rewrite toy_mask_K1.
  - symmetry. apply Nat.leb_le. rewrite length_app, toy_length_tag. lia.
Qed.



(** ** A wrong session key *)




(** ** Bytes that are not text *)

(** Claim C6, amended.  When the signature is accepted and the decryption
    succeeds, [readEncryptedPayload] returns the UTF-8 decoding of the
    decrypted bytes, whatever they are: bytes that are not UTF-8 are
    decoded with U+FFFD in their place and no error is raised. *)
Theorem opened_text_is_lenient_decoding (W : WebPlatform)
    (payload : EncryptedMessage) (peerIdentity : PublicIdentity)
    (key : CryptoKey W) (ct sg nonce buf : ArrayBuffer) (pk : CryptoKey W) :
  decoded payload = Ok (ct, sg, nonce) ->
  import_verify_key W peerIdentity = Some pk ->
  subtle_verify W SIGN_ALGORITHM pk sg ct = Some true ->
  subtle_decrypt W "AES-GCM" nonce key ct = Some buf ->
  settled (readEncryptedPayload W payload peerIdentity key)
  = Ok (TextDecoder_decode buf).
Proof.
  intros D EK EV ED.
  destruct (readEncryptedPayload_run W payload peerIdentity key)
    as [x D' | ct' sg' nonce' D' EK' | ct' sg' nonce' pk' D' EK' EV'
        | ct' sg' nonce' pk' D' EK' EV' | ct' sg' nonce' pk' D' EK' EV'];
    rewrite D in D'; try discriminate D'; injection D' as <- <- <-;
    rewrite EK in EK'; try discriminate EK'; injection EK' as <-;
    try congruence.
  cbn [settled snd]. unfold decrypted_text. now rewrite ED.
Qed.

Lemma opened_text_is_lenient_decoding_witness :
  settled (readEncryptedPayload Toy.platform ToyEnvelopes.not_text
             (getPublicIdentity Toy.alice) Toy.K1)
  = Ok (TextDecoder_decode [xff]).
Proof.
  apply (opened_text_is_lenient_decoding Toy.platform ToyEnvelopes.not_text
           (getPublicIdentity Toy.alice) Toy.K1
           (Toy.mask Toy.K1 [xff] ++ Toy.tag Toy.K1 (getRandomValues (Toy.entropy 1) 12))
           (salt_of (Toy.entropy 1)
              ++ Toy.name_bytes {| Toy.key_usages := [sign];
                                   Toy.key_material := str "alice" |}
              ++ (Toy.mask Toy.K1 [xff]
                    ++ Toy.tag Toy.K1 (getRandomValues (Toy.entropy 1) 12))
              ++ salt_of (Toy.entropy 1))
           (getRandomValues (Toy.entropy 1) 12)
           [xff]
           {| Toy.key_usages := [verify]; Toy.key_material := str "alice" |}).
  - vm_compute. reflexivity.
  - vm_compute. reflexivity.
  - vm_compute. reflexivity.
  - vm_compute. reflexivity.
Defined.

(** Claim C6 as stated fails: the decrypted bytes are the single byte 0xFF,
    which is not valid UTF-8, and the call does not fail: it returns the
    one-character string U+FFFD. *)
Lemma invalid_bytes_are_not_an_error :
  (exists ct sg nonce,
      decoded ToyEnvelopes.not_text = Ok (ct, sg, nonce)
      /\ subtle_decrypt Toy.platform "AES-GCM" nonce Toy.K1 ct = Some [xff])
  /\ settled (readEncryptedPayload Toy.platform ToyEnvelopes.not_text
                (getPublicIdentity Toy.alice) Toy.K1)
     = Ok [0xFFFD].
Proof.
  split.
  - eexists _, _, _. split; vm_compute; reflexivity.
  - vm_compute. reflexivity.
Qed.

(** ** UTF-8: what [TextEncoder] writes, [TextDecoder] reads back *)

Module Utf8Facts.
Import Utf8.

Lemma forall_from_spec (n : nat) (f : Z -> bool) (start : Z) :
  forall_from n f start = true ->
  forall c, start <= c < start + Z.of_nat n -> f c = true.
Proof.
  revert start. induction n as [|n IH]; intros start H c Hc; [lia|].
  cbn [forall_from] in H. apply andb_true_iff in H as [H0 H1].
  destruct (Z.eq_dec c start) as [->|Hne]; [exact H0|].
  apply (IH (start + 1) H1). lia.
Qed.

Import Utf8Check.

(** Checked by running the encoder and the decoder on the 128 code points
    of one byte. *)
Lemma every_ascii_decodes_back :
  forall_from 128 decodes_back 0 = true.
Proof. vm_compute. reflexivity. Qed.

(** Checked by running the decoder on the leading bytes of every scalar
    value of two bytes or more. *)
Lemma every_head_awaits_last :
  forall_from head_count
    (fun hi => implb ((2 <=? hi) && is_scalar (hi * 64)) (awaits_last hi)) 0
  = true.
Proof. vm_cast_no_check (eq_refl true). Qed.

Lemma lor_shiftl_low (a lo : Z) :
  0 <= lo < 64 -> Z.lor (Z.shiftl a 6) lo = a * 64 + lo.
Proof.
  intros Hlo.
  assert (Hdisjoint : Z.land (Z.shiftl a 6) lo = 0).
  { apply Z.bits_inj'. intros n Hn. rewrite Z.land_spec, Z.bits_0.
    destruct (Z.ltb_spec n 6) as [Hlt|Hge].
    - now rewrite Z.shiftl_spec_low.
    - rewrite <- (Z.mod_small lo (2 ^ 6)) by (change (2 ^ 6) with 64; lia).
      rewrite Z.mod_pow2_bits_high by lia. apply andb_false_r. }
  rewrite <- Z.lxor_lor by exact Hdisjoint.
  rewrite <- Z.add_nocarry_lxor by exact Hdisjoint.
  rewrite Z.shiftl_mul_pow2 by lia. reflexivity.
Qed.

Lemma land_low (c : Z) : Z.land c 0x3F = c mod 64.
Proof. change 0x3F with (Z.ones 6). now rewrite Z.land_ones by lia. Qed.

(** The last byte of a sequence, through the decoder. *)
Lemma handler_last (st : decoder) (lo : Z) :
  0 <= lo < 64 ->
  bytes_seen st + 1 = bytes_needed st ->
  bytes_needed st <> 0 ->
  lower_boundary st = 0x80 ->
  upper_boundary st = 0xBF ->
  handler st (0x80 + lo) = ([code_point st * 64 + lo], initial).
Proof.
  intros Hlo Hseen Hneeded Hlower Hupper. unfold handler.
  apply Z.eqb_neq in Hneeded. rewrite Hneeded, Hlower, Hupper.
  replace (0x80 + lo <? 0x80) with false by (symmetry; apply Z.ltb_ge; lia).
  replace (0xBF <? 0x80 + lo) with false by (symmetry; apply Z.ltb_ge; lia).
  cbn [orb]. rewrite Hseen, Z.eqb_refl.
  rewrite land_low.
  replace ((0x80 + lo) mod 64) with lo by zdiv.
  now rewrite lor_shiftl_low.
Qed.

Lemma encode_scalar_split (c : Z) :
  0x80 <= c < 0x110000 ->
  encode_scalar c = head_bytes (c / 64) ++ [0x80 + c mod 64].
Proof.
  intros Hc. unfold encode_scalar, head_bytes.
  assert (Hlast : Z.lor 0x80 (Z.land c 0x3F) = 0x80 + c mod 64).
  { rewrite land_low. change 0x80 with (Z.shiftl 2 6).
    rewrite lor_shiftl_low by zdiv. reflexivity. }
  assert (H6 : Z.shiftr c 6 = c / 64)
    by (now rewrite Z.shiftr_div_pow2 by lia).
  assert (H12 : Z.shiftr c 12 = Z.shiftr (c / 64) 6).
  { rewrite <- H6, Z.shiftr_shiftr by lia. reflexivity. }
  assert (H18 : Z.shiftr c 18 = Z.shiftr (c / 64) 12).
  { rewrite <- H6, Z.shiftr_shiftr by lia. reflexivity. }
  rewrite Hlast, H6, H12, H18.
  replace (c <=? 0x7F) with false by (symmetry; apply Z.leb_gt; lia).
  replace (c / 64 <=? 0x1F) with (c <=? 0x7FF)
    by (destruct (Z.leb_spec c 0x7FF), (Z.leb_spec (c / 64) 0x1F);
        try reflexivity; zdiv).
  replace (c / 64 <=? 0x3FF) with (c <=? 0xFFFF)
    by (destruct (Z.leb_spec c 0xFFFF), (Z.leb_spec (c / 64) 0x3FF);
        try reflexivity; zdiv).
  destruct (c <=? 0x7FF); [reflexivity|].
  destruct (c <=? 0xFFFF); reflexivity.
Qed.

Lemma feed_app (st : decoder) (bs1 bs2 : list Z) :
  feed st (bs1 ++ bs2)
  = (fst (feed st bs1) ++ fst (feed (snd (feed st bs1)) bs2),
     snd (feed (snd (feed st bs1)) bs2)).
Proof.
  revert st. induction bs1 as [|b bs1 IH]; intros st.
  - cbn [app feed fst snd]. now destruct (feed st bs2).
  - cbn [app feed]. destruct (handler st b) as [out st'].
    rewrite IH. destruct (feed st' bs1) as [out' st'']. cbn [fst snd].
    now rewrite app_assoc.
Qed.

Lemma scalar_decodes_back (c : Z) :
  is_scalar c = true ->
  feed initial (List.map Z_of_byte (List.map byte_of_Z (encode_scalar c)))
  = ([c], initial).
Proof.
  intros Hc.
  assert (Hrange : 0 <= c < 0x110000) by (unfold is_scalar in Hc; zcases; lia).
  destruct (Z.lt_ge_cases c 128) as [Hascii | Hmore].
  - (* one byte *)
    pose proof (forall_from_spec _ _ _ every_ascii_decodes_back c
                  ltac:(change (Z.of_nat 128) with 128; lia)) as H.
    unfold decodes_back in H.
    destruct (feed initial _) as [[|c' [|? ?]] st]; try discriminate H.
    apply andb_true_iff in H as [H1 H2]. apply Z.eqb_eq in H1. subst c'.
    f_equal. unfold decoder_eqb in H2.
    destruct st as [a b d l u]. cbn in H2.
    repeat (apply andb_true_iff in H2 as [H2 ?]).
    zbool. cbn in *. unfold initial. congruence.
  - (* the leading bytes, then the last one *)
    assert (Hhi : 0 <= c / 64 < 0 + Z.of_nat head_count).
    { unfold head_count. rewrite Z2Nat.id by (vm_compute; discriminate).
      change (0x110000 / 64) with 17408. zdiv. }
    pose proof (forall_from_spec _ _ _ every_head_awaits_last (c / 64) Hhi) as H.
    cbn beta in H.
    replace (2 <=? c / 64) with true in H by (symmetry; apply Z.leb_le; zdiv).
    replace (is_scalar (c / 64 * 64)) with true in H.
    2:{ symmetry. unfold is_scalar in Hc |- *. zcases;
          (apply orb_true_iff;
           first [ left; apply andb_true_iff;
                   split; [apply Z.leb_le | apply Z.ltb_lt]; zdiv
                 | right; apply andb_true_iff;
                   split; [apply Z.leb_le | apply Z.ltb_lt]; zdiv ]). }
    cbn [andb implb] in H. unfold awaits_last in H.
    rewrite encode_scalar_split by lia.
    rewrite !map_app, feed_app.
    destruct (feed initial (List.map Z_of_byte (List.map byte_of_Z (head_bytes (c / 64)))))
      as [[|? ?] st]; [|discriminate H].
    repeat (apply andb_true_iff in H as [H ?]). zbool.
    cbn [fst snd List.map app feed].
    rewrite Z_of_byte_of_Z by (unfold is_byte; zdiv).
    rewrite handler_last; try assumption; [|zdiv].
    cbn [fst snd app]. repeat f_equal.
    match goal with Hcp : code_point st = _ |- _ => rewrite Hcp end. zdiv.
Qed.

Lemma run_app (st : decoder) (bs1 bs2 : list Z) :
  run st (bs1 ++ bs2) = fst (feed st bs1) ++ run (snd (feed st bs1)) bs2.
Proof.
  revert st. induction bs1 as [|b bs1 IH]; intros st; [reflexivity|].
  cbn [app run feed]. destruct (handler st b) as [out st'].
  rewrite IH. destruct (feed st' bs1) as [out' st'']. cbn [fst snd].
  now rewrite app_assoc.
Qed.

Lemma run_encoded (cs : list Z) :
  forallb is_scalar cs = true ->
  run initial (List.map Z_of_byte (List.map byte_of_Z (flat_map encode_scalar cs)))
  = cs.
Proof.
  induction cs as [|c cs IH]; intros H; [reflexivity|].
  cbn [forallb] in H. apply andb_true_iff in H as [Hc Hcs].
  cbn [flat_map]. rewrite !map_app, run_app.
  rewrite (scalar_decodes_back c Hc). cbn [fst snd app].
  now rewrite (IH Hcs).
Qed.

Lemma code_units_pair (c d : Z) :
  is_lead c = true -> is_trail d = true ->
  code_units (0x10000 + (c - 0xD800) * 1024 + (d - 0xDC00)) = [c; d]
  /\ is_scalar (0x10000 + (c - 0xD800) * 1024 + (d - 0xDC00)) = true
  /\ 0x10000 + (c - 0xD800) * 1024 + (d - 0xDC00) <> 0xFEFF.
Proof.
  unfold is_lead, is_trail, code_units, is_scalar. intros Hc Hd. zbool.
  replace (0x10000 + (c - 0xD800) * 1024 + (d - 0xDC00) <? 0x10000) with false
    by (symmetry; apply Z.ltb_ge; lia).
  replace (0x10000 + (c - 0xD800) * 1024 + (d - 0xDC00) - 0x10000)
    with ((c - 0xD800) * 1024 + (d - 0xDC00)) by lia.
  rewrite Z.shiftr_div_pow2 by lia.
  change 0x3FF with (Z.ones 10). rewrite Z.land_ones by lia.
  change (2 ^ 10) with 1024.
  split; [|split].
  - f_equal; [|f_equal]; zdiv.
  - apply orb_true_iff. right. apply andb_true_iff.
    split; [apply Z.leb_le | apply Z.ltb_lt]; lia.
  - lia.
Qed.

(** A well-formed string is the code units of its scalar values. *)
Lemma well_formed_scalars (n : nat) (s : JSString) :
  (List.length s <= n)%nat ->
  isWellFormed s = true ->
  flat_map code_units (to_scalar_values s) = s
  /\ forallb is_scalar (to_scalar_values s) = true
  /\ (hd 0 s <> 0xFEFF -> strip_bom (to_scalar_values s) = to_scalar_values s).
Proof.
  revert s. induction n as [|n IH]; intros s Hn Hs.
  { destruct s; [repeat split; auto | cbn in Hn; lia]. }
  destruct s as [|c rest]; [repeat split; auto|].
  cbn [isWellFormed] in Hs.
  apply andb_true_iff in Hs as [Hrange Hs].
  cbn [to_scalar_values hd].
  destruct (is_lead c) eqn:Hlead.
  - destruct rest as [|d rest']; [discriminate|].
    apply andb_true_iff in Hs as [Htrail Hs]. rewrite Htrail.
    destruct (code_units_pair c d Hlead Htrail) as (Hcu & Hsc & Hbom).
    destruct (IH rest') as (IH1 & IH2 & _); [cbn in Hn; lia | exact Hs |].
    cbn [flat_map forallb strip_bom]. rewrite Hcu, IH1, Hsc, IH2.
    repeat split; auto.
    intros _. apply Z.eqb_neq in Hbom. now rewrite Hbom.
  - apply andb_true_iff in Hs as [Htrail Hs].
    apply negb_true_iff in Htrail. rewrite Htrail.
    destruct (IH rest) as (IH1 & IH2 & _); [cbn in Hn; lia | exact Hs |].
    assert (Hsc : is_scalar c = true /\ code_units c = [c]).
    { unfold is_lead, is_trail, is_scalar, code_units in *. zcases.
      all: split;
        [ apply orb_true_iff;
          first [ left; apply andb_true_iff;
                  split; [apply Z.leb_le | apply Z.ltb_lt]; lia
                | right; apply andb_true_iff;
                  split; [apply Z.leb_le | apply Z.ltb_lt]; lia ]
        | replace (c <? 0x10000) with true by (symmetry; apply Z.ltb_lt; lia);
          reflexivity ]. }
    destruct Hsc as [Hsc Hcu].
    cbn [flat_map forallb strip_bom]. rewrite Hcu, IH1, Hsc, IH2.
    repeat split; auto.
    intros Hbom. apply Z.eqb_neq in Hbom. now rewrite Hbom.
Qed.

End Utf8Facts.

(** A well-formed string that does not begin with a byte order mark comes
    back from [TextEncoder] and [TextDecoder] as it went in. *)
Lemma text_round_trip (s : JSString) :
  Utf8.isWellFormed s = true ->
  hd 0 s <> 0xFEFF ->
  TextDecoder_decode (TextEncoder_encode s) = s.
Proof.
  intros Hs Hbom.
  destruct (Utf8Facts.well_formed_scalars (List.length s) s (le_n _) Hs)
    as (H1 & H2 & H3).
  unfold TextDecoder_decode, TextEncoder_encode.
  rewrite (Utf8Facts.run_encoded _ H2), (H3 Hbom). exact H1.
Qed.

(** ** Sealing and opening *)

(** Claim C1, amended.  For every identity whose key pair matches, every
    session key that decrypts what it encrypted, and every plaintext that
    is well-formed UTF-16 (no unpaired surrogate) and does not begin with
    U+FEFF: opening the envelope that sealing resolved to, with the
    identity's public part as the claimed sender and the same session key,
    returns the plaintext. *)
Theorem seal_open_round_trip (W : WebPlatform) (e : Entropy) (P : JSString)
    (I : UserIdentity) (K : CryptoKey W) (env : EncryptedMessage) :
  matching_pair W I ->
  decrypts_own W K ->
  Utf8.isWellFormed P = true ->
  hd 0 P <> 0xFEFF ->
  settled (createEncryptedPayload W e P I K) = Ok env ->
  settled (readEncryptedPayload W env (getPublicIdentity I) K) = Ok P.
Proof.
  intros Hpair Hdec Hwf Hbom Hseal.
  destruct (open_sealed W e P I K K env Hpair Hseal) as (pk & sg & ct & Henc & Hopen).
  rewrite Hopen. cbn [settled snd]. unfold decrypted_text.
  rewrite (Hdec _ _ _ Henc). f_equal. now apply text_round_trip.
Qed.

Lemma seal_open_round_trip_witness :
  settled (readEncryptedPayload Toy.platform Toy.hello
             (getPublicIdentity Toy.alice) Toy.K1)
  = Ok (str "hello").
Proof.
  apply (seal_open_round_trip Toy.platform (Toy.entropy 1) (str "hello")
           Toy.alice Toy.K1 Toy.hello).
  - exact toy_alice_matching_pair.
  - exact toy_K1_decrypts_own.
  - vm_compute. reflexivity.
  - vm_compute. discriminate.
  - vm_compute. reflexivity.
Defined.

(** Claim C1 as stated fails: sealing resolves for the plaintext "hi" after
    a byte order mark and for a lone high surrogate, and opening returns
    "hi" without the mark, respectively U+FFFD, not the plaintext. *)
Lemma round_trip_loses_bom_and_lone_surrogates :
  settled (createEncryptedPayload Toy.platform (Toy.entropy 1)
             ToyPlaintexts.bom_hi Toy.alice Toy.K1)
  = Ok (Toy.seal (Toy.entropy 1) ToyPlaintexts.bom_hi Toy.alice Toy.K1)
  /\ settled (readEncryptedPayload Toy.platform
                (Toy.seal (Toy.entropy 1) ToyPlaintexts.bom_hi Toy.alice Toy.K1)
                (getPublicIdentity Toy.alice) Toy.K1)
     = Ok [104; 105]
  /\ settled (createEncryptedPayload Toy.platform (Toy.entropy 1)
                ToyPlaintexts.lone_surrogate Toy.alice Toy.K1)
     = Ok (Toy.seal (Toy.entropy 1) ToyPlaintexts.lone_surrogate Toy.alice Toy.K1)
  /\ settled (readEncryptedPayload Toy.platform
                (Toy.seal (Toy.entropy 1) ToyPlaintexts.lone_surrogate
                   Toy.alice Toy.K1)
                (getPublicIdentity Toy.alice) Toy.K1)
     = Ok [0xFFFD].
Proof. vm_compute. repeat split; reflexivity. Qed.

(** ** Tampering *)

Lemma flip_bit_changes (buffer : ArrayBuffer) (i : nat) :
  (i < 8 * List.length buffer)%nat -> flip_bit buffer i <> buffer.
Proof.
  revert i. induction buffer as [|b rest IH]; intros i Hi; [cbn in Hi; lia|].
  cbn [flip_bit]. destruct (i <? 8)%nat eqn:E.
  - apply Nat.ltb_lt in E. intros [= H].
    do 8 (destruct i as [|i]; [destruct b; discriminate H|]). lia.
  - apply Nat.ltb_ge in E. intros [= H]. revert H. apply IH.
    cbn [List.length] in Hi. lia.
Qed.

Lemma rejects_bit_flips_checked (W : WebPlatform) (pk : CryptoKey W)
    (data sg : ArrayBuffer) :
  rejects_bit_flips_upto W pk data sg = true -> rejects_bit_flips W pk data sg.
Proof.
  unfold rejects_bit_flips_upto. intros H i.
  apply andb_true_iff in H as [H1 H2].
  rewrite forallb_forall in H1, H2.
  split; intros Hi.
  - specialize (H1 i). destruct (subtle_verify _ _ _ _ _) as [[|]|];
      try reflexivity; exfalso;
      (assert (true = false) by (symmetry; apply H1, in_seq; lia)); discriminate.
  - specialize (H2 i). destruct (subtle_verify _ _ _ _ _) as [[|]|];
      try reflexivity; exfalso;
      (assert (true = false) by (symmetry; apply H2, in_seq; lia)); discriminate.
Qed.

(** Claim C3.  Take the envelope that sealing resolved to; its fields
    decode to a ciphertext [ct], a signature [sg] and a nonce.  Let [pk]
    be the sender's verification key and let the verifier accept no
    one-bit change of the signed pair.  Then for every bit of the
    ciphertext and every bit of the signature, opening the envelope with
    that bit flipped, the right sender claimed and the right session key
    given, ends with the "signature is invalid" error right after the
    verification: no decryption is attempted and no plaintext, right or
    wrong, is returned. *)
Theorem tampering_is_detected (W : WebPlatform) (e : Entropy) (P : JSString)
    (I : UserIdentity) (K : CryptoKey W) (env : EncryptedMessage) :
  settled (createEncryptedPayload W e P I K) = Ok env ->
  exists ct sg nonce,
    decoded env = Ok (ct, sg, nonce)
    /\ forall pk,
         import_verify_key W (getPublicIdentity I) = Some pk ->
         rejects_bit_flips W pk ct sg ->
         forall i : nat,
           ((i < 8 * List.length ct)%nat ->
            readEncryptedPayload W (flip_encryptedData i env)
              (getPublicIdentity I) K
            = ([EvImportKey (publicKey I) [verify];
                EvVerify pk sg (flip_bit ct i) (Some false)],
               Throw signature_invalid))
           /\ ((i < 8 * List.length sg)%nat ->
               readEncryptedPayload W (flip_signature i env)
                 (getPublicIdentity I) K
               = ([EvImportKey (publicKey I) [verify];
                   EvVerify pk (flip_bit sg i) ct (Some false)],
                  Throw signature_invalid)).
Proof.
  intros Hseal.
  destruct (seal_inversion W _ _ _ _ _ Hseal) as (ct & sk & sg & _ & _ & _ & ->).
  exists ct, sg, (getRandomValues e 12).
  assert (E1 : forall x y z t, base64ToArrayBuffer
                 (encryptedData {| id := t; senderId := x; iv := y;
                                   encryptedData := b64 ct; signature := z;
                                   timestamp := 0 |}) = Ok ct)
    by (intros; apply base64ToArrayBuffer_b64).
  split.
  { unfold decoded, bindR. cbn [encryptedData signature iv].
    now rewrite !base64ToArrayBuffer_b64. }
  intros pk Hpk Hrej i. destruct (Hrej i) as [Hct Hsg].
  split; intros Hi.
  - apply (open_unverified W _ (getPublicIdentity I) K
             (flip_bit ct i) sg (getRandomValues e 12) pk);
      [|exact Hpk|exact (Hct Hi)].
    unfold flip_encryptedData, decoded, bindR.
    cbn [with_encryptedData encryptedData signature iv].
    rewrite !base64ToArrayBuffer_b64.
    cbn [with_encryptedData encryptedData signature iv].
    now rewrite !base64ToArrayBuffer_b64.
  - apply (open_unverified W _ (getPublicIdentity I) K
             ct (flip_bit sg i) (getRandomValues e 12) pk);
      [|exact Hpk|exact (Hsg Hi)].
    unfold flip_signature, decoded, bindR.
    cbn [with_signature encryptedData signature iv].
    rewrite !base64ToArrayBuffer_b64.
    cbn [with_signature encryptedData signature iv].
    now rewrite !base64ToArrayBuffer_b64.
Qed.

(** On the toy platform the verifier accepts no one-bit change of the
    signed pair of the envelope [Toy.hello]: checked bit by bit. *)
Lemma toy_hello_rejects_bit_flips (ct sg nonce : ArrayBuffer) :
  decoded Toy.hello = Ok (ct, sg, nonce) ->
  rejects_bit_flips Toy.platform
    {| Toy.key_usages := [verify]; Toy.key_material := str "alice" |} ct sg.
Proof.
  intros D. vm_compute in D. injection D as <- <- <-.
  apply rejects_bit_flips_checked. vm_compute. reflexivity.
Qed.

Lemma tampering_is_detected_witness :
  forallb (fun i =>
             match settled (readEncryptedPayload Toy.platform
                              (flip_encryptedData i Toy.hello)
                              (getPublicIdentity Toy.alice) Toy.K1),
                   settled (readEncryptedPayload Toy.platform
                              (flip_signature i Toy.hello)
                              (getPublicIdentity Toy.alice) Toy.K1) with
             | Throw (JsError m1), Throw (JsError m2) =>
                 jsstr_eqb m1 (str "Message signature is invalid! The sender's identity could not be verified.")
                 && jsstr_eqb m2 (str "Message signature is invalid! The sender's identity could not be verified.")
             | _, _ => false
             end)
          (seq 0 168)
  = true.
Proof.
  destruct (tampering_is_detected Toy.platform (Toy.entropy 1) (str "hello")
              Toy.alice Toy.K1 Toy.hello) as (ct & sg & nonce & D & H).
  { vm_compute. reflexivity. }
  specialize (H {| Toy.key_usages := [verify]; Toy.key_material := str "alice" |}).
  specialize (H ltac:(vm_compute; reflexivity)
                (toy_hello_rejects_bit_flips ct sg nonce D)).
  vm_compute in D. injection D as <- <- <-.
  apply forallb_forall. intros i Hi. apply in_seq in Hi.
  destruct (H i) as [H1 H2].
  rewrite H1, H2.
  - reflexivity.
  - cbn [List.length]. lia.
  - cbn [List.length]. lia.
Defined.

(** The bits flipped above are bits of the decoded bytes.  A bit flipped in
    the base64 text itself can leave the alphabet, and the envelope is then
    refused by [atob] before the signature is looked at: here the first
    character of the signature text, "A", becomes "@". *)
Example bit_flip_in_base64_text :
  hd 0 (signature Toy.hello) = 65
  /\ readEncryptedPayload Toy.platform
       (with_signature (Z.lxor 65 1 :: tl (signature Toy.hello)) Toy.hello)
       (getPublicIdentity Toy.alice) Toy.K1
     = ([], Throw InvalidCharacterError).
Proof. vm_compute. split; reflexivity. Qed.

(** ** RSA-PSS binds its salt *)

Module RsaPssFacts.
Import RsaPss.







Section Scheme.

Variable Hash : ArrayBuffer -> ArrayBuffer.
Variable hLen : nat.
Variable MGF : ArrayBuffer -> nat -> ArrayBuffer.
Variable emLen : nat.
Variable unused_bits : nat.

Hypothesis length_MGF : forall seed n, List.length (MGF seed n) = n.




End Scheme.

End RsaPssFacts.

(** ** Salted signatures *)


(** Under the other name the salt plays no part: the signature of the
    same data is the same whatever is drawn. *)
Lemma pkcs1_signature_ignores_salt
    (Hash : ArrayBuffer -> ArrayBuffer) (hLen : nat)
    (MGF : ArrayBuffer -> nat -> ArrayBuffer) (emLen unused_bits : nat)
    (RSASP1 : ArrayBuffer -> ArrayBuffer) (alg : RsaPssParams)
    (salt1 salt2 data : ArrayBuffer) :
  pss_name alg = "RSASSA-PKCS1-v1_5"%string ->
  RsaPss.rsa_sign Hash hLen MGF emLen unused_bits RSASP1 alg salt1 data
  = RsaPss.rsa_sign Hash hLen MGF emLen unused_bits RSASP1 alg salt2 data.
Proof.
  intros Hname. unfold RsaPss.rsa_sign. rewrite Hname. reflexivity.
Qed.







(** Asked for RSASSA-PKCS1-v1_5 instead, the same browser gives the same
    signature in both runs. *)
Example signing_under_the_other_name_is_not_salted :
  ToyPss.subtle_sign ToyPss.PKCS1_ALGORITHM ToyPss.alice_sign_key
    (salt_of (Toy.entropy 1)) [x01; x02; x03]
  = ToyPss.subtle_sign ToyPss.PKCS1_ALGORITHM ToyPss.alice_sign_key
      (salt_of (Toy.entropy 2)) [x01; x02; x03]
  /\ is_Some (ToyPss.subtle_sign ToyPss.PKCS1_ALGORITHM ToyPss.alice_sign_key
                (salt_of (Toy.entropy 1)) [x01; x02; x03]).
Proof. vm_compute. split; [reflexivity | eauto]. Qed.

(** On that platform what the private half signs the public half accepts,
    and a flipped bit is refused. *)
Example pss_signature_verifies :
  match ToyPss.subtle_sign SIGN_ALGORITHM ToyPss.alice_sign_key
          (salt_of (Toy.entropy 1)) [x01; x02; x03] with
  | Some sg =>
      ToyPss.subtle_verify SIGN_ALGORITHM ToyPss.alice_verify_key sg [x01; x02; x03]
      = Some true
      /\ ToyPss.subtle_verify SIGN_ALGORITHM ToyPss.alice_verify_key
           (flip_bit sg 100) [x01; x02; x03]
         = Some false
      /\ List.length sg = 256%nat
  | None => False
  end.
Proof. vm_compute. repeat split; reflexivity. Qed.

(* ================================================================= *)
(** * Further properties of the code *)

(** X1.  Every buffer has a base64 text ([arrayBufferToBase64] does not
    throw), and [base64ToArrayBuffer] gives the buffer back from it. *)
Theorem base64_decode_encode (buffer : ArrayBuffer) :
  exists text,
    arrayBufferToBase64 buffer = Ok text
    /\ base64ToArrayBuffer text = Ok buffer.
Proof.
  exists (b64 buffer). split.
  - apply arrayBufferToBase64_ok.
  - apply base64ToArrayBuffer_b64.
Qed.

(** X2.  The base64 text of a buffer of [n] bytes has [4 * ceil(n / 3)]
    characters, each a letter, a digit, [+], [/] or the padding [=]. *)
Theorem base64_text_shape (buffer : ArrayBuffer) (text : JSString) :
  arrayBufferToBase64 buffer = Ok text ->
  List.length text = (4 * ((List.length buffer + 2) / 3))%nat
  /\ Forall is_base64_char text.
Proof.
  rewrite arrayBufferToBase64_ok. intros [= <-].
  unfold Base64.b64_encode. split.
  - rewrite length_app, length_map, Base64More.length_sextets_exact.
    now rewrite length_map.
  - apply Forall_app. split.
    + pose proof (Base64Facts.sextets_range _ (Forall_Z_of_byte buffer)) as Hs.
      induction Hs as [|i sx Hi _ IH]; cbn [List.map]; constructor;
        [now apply Base64More.b64_char_alphabet | exact IH].
    + eapply Forall_impl; [apply Base64Facts.padding_is_pad|].
      intros c ->. unfold is_base64_char. lia.
Qed.

Lemma base64_text_shape_witness :
  List.length (b64 [x01; x02; x03; x04]) = (4 * ((4 + 2) / 3))%nat
  /\ Forall is_base64_char (b64 [x01; x02; x03; x04]).
Proof.
  apply (base64_text_shape [x01; x02; x03; x04]). reflexivity.
Defined.

(** X3.  [base64ToArrayBuffer] is lenient: it reads a buffer back from its
    base64 text with or without the padding, and with ASCII white space
    (tab, line feed, form feed, carriage return, space) anywhere in it. *)
Theorem base64_decoding_is_lenient (buffer : ArrayBuffer) (text : JSString) :
  without_whitespace text = b64 buffer
  \/ without_whitespace text = b64_unpadded buffer ->
  base64ToArrayBuffer text = Ok buffer.
Proof.
  intros H. unfold base64ToArrayBuffer.
  rewrite Base64More.atob_ignores_whitespace.
  destruct H as [-> | ->].
  - unfold b64. rewrite Base64Facts.atob_encode by apply Forall_Z_of_byte.
    now rewrite map_byte_of_Z_of_byte.
  - unfold b64_unpadded.
    rewrite Base64More.atob_unpadded by apply Forall_Z_of_byte.
    now rewrite map_byte_of_Z_of_byte.
Qed.

Lemma base64_decoding_is_lenient_witness :
  base64ToArrayBuffer (str "aGVs bG8") = Ok [x68; x65; x6c; x6c; x6f].
Proof.
  apply (base64_decoding_is_lenient [x68; x65; x6c; x6c; x6f]).
  right. vm_compute. reflexivity.
Defined.

(** ** Text through [encryptMessage] and [decryptMessage] *)

Module TextFacts.
Import Utf8.

Lemma scalars_of_code_units (n : nat) (s : JSString) :
  (List.length s <= n)%nat ->
  Forall is_code_unit s ->
  forallb is_scalar (to_scalar_values s) = true.
Proof.
  revert s. induction n as [|n IH]; intros s Hn Hs.
  { destruct s; [reflexivity | cbn in Hn; lia]. }
  destruct s as [|c rest]; [reflexivity|].
  inversion_clear Hs as [|? ? Hc Hrest].
  cbn [to_scalar_values].
  assert (Hfffd : is_scalar 0xFFFD = true) by reflexivity.
  destruct (is_lead c) eqn:Hlead.
  - destruct rest as [|d rest']; [reflexivity|].
    destruct (is_trail d) eqn:Htrail.
    + destruct (Utf8Facts.code_units_pair c d Hlead Htrail) as (_ & Hsc & _).
      cbn [forallb]. rewrite Hsc. cbn [andb].
      inversion_clear Hrest. apply IH; [cbn in Hn; lia | assumption].
    + cbn [forallb]. rewrite Hfffd. cbn [andb].
      apply IH; [cbn in Hn |- *; lia | exact Hrest].
  - destruct (is_trail c) eqn:Htrail.
    + cbn [forallb]. rewrite Hfffd. cbn [andb].
      apply IH; [cbn in Hn; lia | exact Hrest].
    + cbn [forallb].
      replace (is_scalar c) with true.
      * cbn [andb]. apply IH; [cbn in Hn; lia | exact Hrest].
      * symmetry. unfold is_lead, is_trail, is_scalar, is_code_unit in *.
        zcases;
          (apply orb_true_iff;
           first [ left; apply andb_true_iff;
                   split; [apply Z.leb_le | apply Z.ltb_lt]; lia
                 | right; apply andb_true_iff;
                   split; [apply Z.leb_le | apply Z.ltb_lt]; lia ]).
Qed.

Lemma hd_code_units (c : Z) :
  is_scalar c = true -> c <> 0xFEFF ->
  exists u rest, code_units c = u :: rest /\ u <> 0xFEFF.
Proof.
  unfold code_units. intros Hc Hne.
  destruct (c <? 0x10000) eqn:E; [eauto|].
  eexists _, _. split; [reflexivity|].
  unfold is_scalar in Hc. zcases; try lia.
  rewrite Z.shiftr_div_pow2 by lia. change (2 ^ 10) with 1024.
  intros Hu. assert (0 <= (c - 65536) / 1024 < 1088) by zdiv. lia.
Qed.

Lemma strip_bom_code_units (cs : list Z) :
  forallb is_scalar cs = true ->
  flat_map code_units (strip_bom cs) = drop_bom (flat_map code_units cs).
Proof.
  destruct cs as [|c cs]; [reflexivity|]. intros H.
  cbn [forallb] in H. apply andb_true_iff in H as [Hc _].
  cbn [strip_bom flat_map]. destruct (c =? 0xFEFF) eqn:E.
  - apply Z.eqb_eq in E. subst c. reflexivity.
  - apply Z.eqb_neq in E.
    destruct (hd_code_units c Hc E) as (u & rest & Hu & Hne).
    cbn [flat_map]. rewrite Hu. cbn [app drop_bom].
    apply Z.eqb_neq in Hne. now rewrite Hne.
Qed.

End TextFacts.

(** What [TextDecoder] reads from what [TextEncoder] wrote. *)
Lemma text_through_utf8 (s : JSString) :
  Forall is_code_unit s ->
  TextDecoder_decode (TextEncoder_encode s) = drop_bom (toWellFormed s).
Proof.
  intros Hs.
  pose proof (TextFacts.scalars_of_code_units _ s (le_n _) Hs) as Hsc.
  unfold TextDecoder_decode, TextEncoder_encode, toWellFormed.
  rewrite (Utf8Facts.run_encoded _ Hsc).
  now apply TextFacts.strip_bom_code_units.
Qed.

(** X4.  Under a key that decrypts what it encrypted, [decryptMessage]
    gives back from the nonce and ciphertext of [encryptMessage] the text
    as UTF-8 carries it: every unpaired surrogate replaced by U+FFFD, and
    a leading U+FEFF dropped; the nonce has 12 bytes. *)
Theorem encrypt_then_decrypt_text (W : WebPlatform) (e : Entropy)
    (text : JSString) (key : CryptoKey W) (nonce ct : ArrayBuffer) :
  decrypts_own W key ->
  Forall is_code_unit text ->
  settled (encryptMessage W e text key) = Ok (nonce, ct) ->
  List.length nonce = 12%nat
  /\ decryptMessage W ct nonce key
     = ([EvDecrypt key nonce ct], Ok (drop_bom (toWellFormed text))).
Proof.
  intros Hdec Htext. unfold encryptMessage, call.
  destruct (subtle_encrypt W "AES-GCM" (getRandomValues e 12) key
              (TextEncoder_encode text)) as [ct'|] eqn:Henc; [|discriminate].
  cbn [await resolve app settled snd]. intros [= <- <-].
  split.
  - unfold getRandomValues. now rewrite length_map, length_seq.
  - unfold decryptMessage, call. rewrite (Hdec _ _ _ Henc).
    now rewrite text_through_utf8.
Qed.

Lemma encrypt_then_decrypt_text_witness :
  List.length (getRandomValues (Toy.entropy 1) 12) = 12%nat
  /\ decryptMessage Toy.platform
       (Toy.mask Toy.K1 (TextEncoder_encode ToyRejections.ragged)
          ++ Toy.tag Toy.K1 (getRandomValues (Toy.entropy 1) 12))
       (getRandomValues (Toy.entropy 1) 12) Toy.K1
     = ([EvDecrypt Toy.K1 (getRandomValues (Toy.entropy 1) 12)
           (Toy.mask Toy.K1 (TextEncoder_encode ToyRejections.ragged)
              ++ Toy.tag Toy.K1 (getRandomValues (Toy.entropy 1) 12))],
        Ok (drop_bom (toWellFormed ToyRejections.ragged))).
Proof.
  apply (encrypt_then_decrypt_text Toy.platform (Toy.entropy 1)
           ToyRejections.ragged Toy.K1).
  - exact toy_K1_decrypts_own.
  - unfold ToyRejections.ragged, is_code_unit. repeat constructor; lia.
  - vm_compute. reflexivity.
Defined.

Example ragged_text_comes_back_repaired :
  drop_bom (toWellFormed ToyRejections.ragged) = [104; 0xFFFD; 105].
Proof. reflexivity. Qed.

(** X5.  Sealing then opening, for any text: with a key pair that
    verifies what it signs and a session key that decrypts what it
    encrypts, opening the sealed envelope with the same key returns the
    text with every unpaired surrogate replaced by U+FFFD and a leading
    U+FEFF dropped, and nothing else changed. *)
Theorem sealed_text_opens_repaired (W : WebPlatform) (e : Entropy)
    (text : JSString) (identity : UserIdentity) (key : CryptoKey W)
    (env : EncryptedMessage) :
  matching_pair W identity ->
  decrypts_own W key ->
  Forall is_code_unit text ->
  settled (createEncryptedPayload W e text identity key) = Ok env ->
  settled (readEncryptedPayload W env (getPublicIdentity identity) key)
  = Ok (drop_bom (toWellFormed text)).
Proof.
  intros Hpair Hdec Htext Hseal.
  destruct (open_sealed W e text identity key key env Hpair Hseal)
    as (pk & sg & ct & Henc & Hopen).
  rewrite Hopen. cbn [settled snd]. unfold decrypted_text.
  rewrite (Hdec _ _ _ Henc). f_equal. now apply text_through_utf8.
Qed.

Lemma sealed_text_opens_repaired_witness :
  settled (readEncryptedPayload Toy.platform
             (Toy.seal (Toy.entropy 1) ToyRejections.ragged Toy.alice Toy.K1)
             (getPublicIdentity Toy.alice) Toy.K1)
  = Ok (drop_bom (toWellFormed ToyRejections.ragged)).
Proof.
  apply (sealed_text_opens_repaired Toy.platform (Toy.entropy 1)
           ToyRejections.ragged Toy.alice Toy.K1).
  - exact toy_alice_matching_pair.
  - exact toy_K1_decrypts_own.
  - unfold ToyRejections.ragged, is_code_unit. repeat constructor; lia.
  - vm_compute. reflexivity.
Defined.

(** ** How [readEncryptedPayload] and [createEncryptedPayload] end *)

(** X6.  [readEncryptedPayload] rejects in four ways only: a field that is
    not base64, a sender key that does not import, a verification the
    browser refuses to run, and a signature that does not verify; in none
    of them is a decryption attempted.  A failed decryption is never an
    exception: when the call resolves, the signature was accepted, the
    decryption was attempted, and the result is the decoded plaintext or
    the warning text. *)
Theorem open_failure_modes (W : WebPlatform) (payload : EncryptedMessage)
    (peerIdentity : PublicIdentity) (key : CryptoKey W) :
  let r := readEncryptedPayload W payload peerIdentity key in
  (forall err,
      settled r = Throw err ->
      (err = InvalidCharacterError \/ err = OperationError "importKey"
       \/ err = OperationError "verify" \/ err = signature_invalid)
      /\ existsb is_decrypt (calls r) = false)
  /\ (forall text,
         settled r = Ok text ->
         exists pk ct sg nonce,
           calls r = [EvImportKey (peer_publicKey peerIdentity) [verify];
                      EvVerify pk sg ct (Some true);
                      EvDecrypt key nonce ct]
           /\ (text = decryption_warning
               \/ exists buf,
                    subtle_decrypt W "AES-GCM" nonce key ct = Some buf
                    /\ text = TextDecoder_decode buf)).
Proof.
  intros r. subst r.
  destruct (readEncryptedPayload_run W payload peerIdentity key)
    as [x D | ct sg nonce D EK | ct sg nonce pk D EK EV
        | ct sg nonce pk D EK EV | ct sg nonce pk D EK EV];
    cbn [calls settled fst snd]; split; try discriminate.
  - intros err [= <-]. split; [|reflexivity].
    left. unfold decoded, bindR in D.
    assert (A : forall t y, base64ToArrayBuffer t = Throw y -> y = InvalidCharacterError).
    { intros t y. destruct (Base64.atob t) as [b|z] eqn:E.
      - unfold base64ToArrayBuffer. now rewrite E.
      - assert (Ht : is_Ok (Base64.atob t) = false) by now rewrite E.
        rewrite (atob_throws_InvalidCharacterError t Ht). now intros [= <-]. }
    destruct (base64ToArrayBuffer (encryptedData payload)) eqn:E1;
      [|injection D as <-; eapply A; eauto].
    destruct (base64ToArrayBuffer (signature payload)) eqn:E2;
      [|injection D as <-; eapply A; eauto].
    destruct (base64ToArrayBuffer (iv payload)) eqn:E3;
      [discriminate|injection D as <-; eapply A; eauto].
  - intros err [= <-]. split; [auto|reflexivity].
  - intros err [= <-]. split; [auto|reflexivity].
  - intros err [= <-]. split; [auto 6|reflexivity].
  - intros text [= <-]. exists pk, ct, sg, nonce. split; [reflexivity|].
    unfold decrypted_text.
    destruct (subtle_decrypt W "AES-GCM" nonce key ct) as [buf|]; eauto.
Qed.

Section SealMore.

Context (W : WebPlatform).

(** Every run of [createEncryptedPayload] is one of four. *)
Lemma createEncryptedPayload_run (e : Entropy) (text : JSString)
    (identity : UserIdentity) (key : CryptoKey W) :
  let nonce := getRandomValues e 12 in
  let data := TextEncoder_encode text in
  match subtle_encrypt W "AES-GCM" nonce key data with
  | None =>
      createEncryptedPayload W e text identity key
      = ([EvEncrypt key nonce data], Throw (OperationError "encrypt"))
  | Some ct =>
      match import_sign_key W identity with
      | None =>
          createEncryptedPayload W e text identity key
          = ([EvEncrypt key nonce data; EvImportKey (privateKey identity) [sign]],
             Throw (OperationError "importKey"))
      | Some sk =>
          match subtle_sign W SIGN_ALGORITHM sk (salt_of e) ct with
          | None =>
              createEncryptedPayload W e text identity key
              = ([EvEncrypt key nonce data;
                  EvImportKey (privateKey identity) [sign];
                  EvSign sk ct],
                 Throw (OperationError "sign"))
          | Some sg =>
              createEncryptedPayload W e text identity key
              = ([EvEncrypt key nonce data;
                  EvImportKey (privateKey identity) [sign];
                  EvSign sk ct],
                 Ok {| id := randomUUID e; senderId := userId identity;
                       iv := b64 nonce; encryptedData := b64 ct;
                       signature := b64 sg; timestamp := Date_now e |})
          end
      end
  end.
Proof.
  cbv zeta.
  unfold createEncryptedPayload, encryptMessage, importPrivateKey, signData,
    call, import_sign_key, salt_of.
  destruct (subtle_encrypt W "AES-GCM" (getRandomValues e 12) key
              (TextEncoder_encode text)) as [ct|]; [|reflexivity].
  cbn [await resolve app].
  destruct (importKey_rsa W (privateKey identity) (rsa_name RSA_ALGORITHM)
              (hash RSA_ALGORITHM) [sign]) as [sk|] eqn:EK;
    change (importKey_rsa W (privateKey identity) "RSA-PSS" "SHA-256" [sign])
      with (importKey_rsa W (privateKey identity) (rsa_name RSA_ALGORITHM)
              (hash RSA_ALGORITHM) [sign]);
    rewrite EK; [|reflexivity].
  cbn [await app].
  destruct (subtle_sign W SIGN_ALGORITHM sk
              (List.map (signer_salt e)
                 (seq 0 (Z.to_nat (saltLength SIGN_ALGORITHM)))) ct)
    as [sg|] eqn:ES; [|reflexivity].
  rewrite !arrayBufferToBase64_ok. reflexivity.
Qed.

End SealMore.



(** X8.  [createEncryptedPayload] rejects only when the browser rejects the
    encryption, the import of the private key or the signature, with that
    operation's error and without making the calls that would follow; the
    base64 encoding of the fields never fails, and no envelope comes out
    of a rejected run. *)
Theorem seal_rejections (W : WebPlatform) (e : Entropy) (text : JSString)
    (identity : UserIdentity) (key : CryptoKey W) (err : Exception) :
  settled (createEncryptedPayload W e text identity key) = Throw err ->
  let log := calls (createEncryptedPayload W e text identity key) in
  let nonce := getRandomValues e 12 in
  let data := TextEncoder_encode text in
  (err = OperationError "encrypt" /\ log = [EvEncrypt key nonce data])
  \/ (err = OperationError "importKey"
      /\ log = [EvEncrypt key nonce data; EvImportKey (privateKey identity) [sign]])
  \/ (err = OperationError "sign"
      /\ exists sk ct,
           log = [EvEncrypt key nonce data;
                  EvImportKey (privateKey identity) [sign];
                  EvSign sk ct]).
Proof.
  pose proof (createEncryptedPayload_run W e text identity key) as R.
  cbv zeta in R |- *.
  destruct (subtle_encrypt W "AES-GCM" (getRandomValues e 12) key
              (TextEncoder_encode text)) as [ct|] eqn:Henc.
  - destruct (import_sign_key W identity) as [sk|].
    + destruct (subtle_sign W SIGN_ALGORITHM sk (salt_of e) ct) as [sg|] eqn:Hsg;
        rewrite R; cbn [settled calls fst snd]; [discriminate|].
      intros [= <-]. right. right. eauto.
    + rewrite R. cbn [settled calls fst snd]. intros [= <-]. right. left. auto.
  - rewrite R. cbn [settled calls fst snd]. intros [= <-]. left. auto.
Qed.

Lemma seal_rejections_witness :
  let log := calls (createEncryptedPayload Toy.platform (Toy.entropy 1)
                      (str "hello") ToyRejections.no_private_key Toy.K1) in
  let nonce := getRandomValues (Toy.entropy 1) 12 in
  let data := TextEncoder_encode (str "hello") in
  (OperationError "importKey" = OperationError "encrypt"
   /\ log = [EvEncrypt Toy.K1 nonce data])
  \/ (OperationError "importKey" = OperationError "importKey"
      /\ log = [EvEncrypt Toy.K1 nonce data;
                EvImportKey (privateKey ToyRejections.no_private_key) [sign]])
  \/ (OperationError "importKey" = OperationError "sign"
      /\ exists sk ct,
           log = [EvEncrypt Toy.K1 nonce data;
                  EvImportKey (privateKey ToyRejections.no_private_key) [sign];
                  EvSign sk ct]).
Proof.
  apply (seal_rejections Toy.platform (Toy.entropy 1) (str "hello")
           ToyRejections.no_private_key Toy.K1 (OperationError "importKey")).
  vm_compute. reflexivity.
Defined.

Example seal_rejected_without_encrypt_usage :
  createEncryptedPayload Toy.platform (Toy.entropy 1) (str "hello") Toy.alice
    ToyRejections.decrypt_only
  = ([EvEncrypt ToyRejections.decrypt_only (getRandomValues (Toy.entropy 1) 12)
        (TextEncoder_encode (str "hello"))],
     Throw (OperationError "encrypt")).
Proof. vm_compute. reflexivity. Qed.

(** ** A sender who is not the signer *)

Lemma toy_bob_rejects_alice :
  rejects_signatures_of Toy.platform Toy.alice (getPublicIdentity Toy.bob).
Proof.
  exists {| Toy.key_usages := [verify]; Toy.key_material := str "bob" |}.
  split; [vm_compute; reflexivity|].
  intros sk salt data sg Hsk Hsalt.
  assert (Hk : Some sk
               = Some {| Toy.key_usages := [sign]; Toy.key_material := str "alice" |})
    by (rewrite <- Hsk; reflexivity).
  injection Hk as ->. clear Hsk.
  change (subtle_sign Toy.platform) with Toy.subtle_sign.
  change (subtle_verify Toy.platform) with Toy.subtle_verify.
  unfold Toy.subtle_sign, Toy.subtle_verify.
  cbn [Toy.allows Toy.key_usages existsb Toy.usage_eqb orb].
  intros Hsg. apply (inj Some) in Hsg. subst sg. f_equal.
  set (n := Z.to_nat (saltLength SIGN_ALGORITHM)) in *.
  destruct (n <=? _)%nat eqn:Hlen; [|reflexivity]. cbn [andb].
  apply Nat.leb_le in Hlen.
  unfold bytes_eqb, jsstr_eqb. apply bool_decide_eq_false. intros H.
  apply (f_equal (List.map byte_of_Z)) in H.
  rewrite !map_byte_of_Z_of_byte in H.
  (* the two sides differ in length: the names have five and three letters *)
  apply (f_equal (@List.length byte)) in H.
  rewrite !length_app, length_firstn in H.
  rewrite !length_app in Hlen, H.
  change (List.length (Toy.name_bytes
            {| Toy.key_usages := [sign]; Toy.key_material := str "alice" |}))
    with 5%nat in *.
  change (List.length (Toy.name_bytes
            {| Toy.key_usages := [verify]; Toy.key_material := str "bob" |}))
    with 3%nat in *.
  lia.
Qed.

(** X9.  Opening a sealed envelope while claiming a sender whose key
    accepts nothing the real signer has signed ends with the "signature is
    invalid" error after the verification, whatever the session key, and
    no decryption is attempted. *)
Theorem wrong_sender_is_rejected (W : WebPlatform) (e : Entropy)
    (text : JSString) (signer : UserIdentity) (claimed : PublicIdentity)
    (key key' : CryptoKey W) (env : EncryptedMessage) :
  rejects_signatures_of W signer claimed ->
  settled (createEncryptedPayload W e text signer key) = Ok env ->
  exists pk sg ct,
    readEncryptedPayload W env claimed key'
    = ([EvImportKey (peer_publicKey claimed) [verify];
        EvVerify pk sg ct (Some false)],
       Throw signature_invalid).
Proof.
  intros (pk & Hpk & Hrej) Hseal.
  destruct (seal_inversion W _ _ _ _ _ Hseal) as (ct & sk & sg & _ & Hsk & Hsg & ->).
  exists pk, sg, ct.
  apply (open_unverified W _ claimed key' ct sg (getRandomValues e 12) pk).
  - unfold decoded, bindR. cbn [encryptedData signature iv].
    now rewrite !base64ToArrayBuffer_b64.
  - exact Hpk.
  - exact (Hrej sk _ _ _ Hsk (length_salt_of e) Hsg).
Qed.

Lemma wrong_sender_is_rejected_witness :
  exists pk sg ct,
    readEncryptedPayload Toy.platform Toy.hello (getPublicIdentity Toy.bob) Toy.K2
    = ([EvImportKey (peer_publicKey (getPublicIdentity Toy.bob)) [verify];
        EvVerify pk sg ct (Some false)],
       Throw signature_invalid).
Proof.
  apply (wrong_sender_is_rejected Toy.platform (Toy.entropy 1) (str "hello")
           Toy.alice (getPublicIdentity Toy.bob) Toy.K1 Toy.K2 Toy.hello).
  - exact toy_bob_rejects_alice.
  - vm_compute. reflexivity.
Defined.

(** ** Stored values *)

(** X10.  What [useLocalStorage] has written for a key, [getStorageValue]
    reads back as the same value when the browser parses what it printed,
    whatever the default; the values under other keys are read as before;
    and an entry that does not parse, or no entry, reads as the default. *)
Theorem stored_value_read_back (W : WebPlatform)
    (storage : gmap string JSString) (key : string) (value d : JSON) :
  JSON_parse W (JSON_stringify W value) = Some value ->
  getStorageValue W (useLocalStorage_effect W key value storage) key d = value
  /\ (forall key' d',
         key' <> key ->
         getStorageValue W (useLocalStorage_effect W key value storage) key' d'
         = getStorageValue W storage key' d')
  /\ (forall text,
         JSON_parse W text = None ->
         getStorageValue W (<[key := text]> storage) key d = d)
  /\ getStorageValue W (delete key storage) key d = d.
Proof.
  intros Hparse. unfold getStorageValue, useLocalStorage_effect.
  repeat split.
  - now rewrite lookup_insert_eq, Hparse.
  - intros key' d' Hne. now rewrite lookup_insert_ne by congruence.
  - intros text Hbad. now rewrite lookup_insert_eq, Hbad.
  - now rewrite lookup_delete_eq.
Qed.

Lemma stored_value_read_back_witness :
  getStorageValue Toy.platform
    (useLocalStorage_effect Toy.platform "peer-identity"
       (Toy.identity_json Toy.bob) ∅) "peer-identity" JNull
  = Toy.identity_json Toy.bob
  /\ (forall key' d',
         key' <> "peer-identity"%string ->
         getStorageValue Toy.platform
           (useLocalStorage_effect Toy.platform "peer-identity"
              (Toy.identity_json Toy.bob) ∅) key' d'
         = getStorageValue Toy.platform ∅ key' d')
  /\ (forall text,
         JSON_parse Toy.platform text = None ->
         getStorageValue Toy.platform (<["peer-identity"%string := text]> ∅)
           "peer-identity" JNull = JNull)
  /\ getStorageValue Toy.platform (delete "peer-identity"%string ∅)
       "peer-identity" JNull = JNull.
Proof.
  apply (stored_value_read_back Toy.platform ∅ "peer-identity"
           (Toy.identity_json Toy.bob) JNull).
  vm_compute. reflexivity.
Defined.

(** ** [App]: logging out, the theme, the identity *)

(** X11.  A confirmed [handleLogout] sets the identity to [null], leaves
    no entry for the peer and the messages, and writes the text of [null]
    under ['user-identity']; every other entry of [localStorage] stays,
    the session key under ['shared-aes-key'] among them.  A declined one
    changes nothing. *)
Theorem logout_keeps_the_session_key (W : WebPlatform) (st : App.AppState) :
  App.shows_chat st = true ->
  let st' := App.handleLogout W true st in
  App.identity st' = JNull
  /\ App.shows_chat st' = false
  /\ App.storage st' !! "user-identity"%string = Some (JSON_stringify W JNull)
  /\ App.storage st' !! "peer-identity"%string = None
  /\ App.storage st' !! "chat-messages"%string = None
  /\ App.storage st' !! "shared-aes-key"%string
     = App.storage st !! "shared-aes-key"%string
  /\ (forall key,
         key <> "user-identity"%string -> key <> "peer-identity"%string ->
         key <> "chat-messages"%string ->
         App.storage st' !! key = App.storage st !! key)
  /\ App.handleLogout W false st = st.
Proof.
  unfold App.shows_chat. intros Hshown.
  assert (Hst : App.storage (App.handleLogout W true st)
                = <["user-identity"%string := JSON_stringify W JNull]>
                    (delete "chat-messages"%string
                       (delete "peer-identity"%string
                          (delete "user-identity"%string (App.storage st))))).
  { unfold App.handleLogout, useLocalStorage_effect. cbn [App.storage].
    destruct (App.identity st); try reflexivity. discriminate Hshown. }
  assert (Hframe : forall key,
             key <> "user-identity"%string -> key <> "peer-identity"%string ->
             key <> "chat-messages"%string ->
             App.storage (App.handleLogout W true st) !! key
             = App.storage st !! key).
  { intros key H1 H2 H3. rewrite Hst.
    rewrite lookup_insert_ne by congruence.
    now rewrite !lookup_delete_ne by congruence. }
  cbv zeta. repeat split.
  - rewrite Hst. apply lookup_insert_eq.
  - rewrite Hst. rewrite lookup_insert_ne by discriminate.
    rewrite lookup_delete_ne by discriminate. apply lookup_delete_eq.
  - rewrite Hst. rewrite lookup_insert_ne by discriminate.
    apply lookup_delete_eq.
  - apply Hframe; discriminate.
  - exact Hframe.
Qed.

Lemma logout_keeps_the_session_key_witness :
  let st' := App.handleLogout Toy.platform true ToyApp.signed_in in
  App.identity st' = JNull
  /\ App.shows_chat st' = false
  /\ App.storage st' !! "user-identity"%string
     = Some (JSON_stringify Toy.platform JNull)
  /\ App.storage st' !! "peer-identity"%string = None
  /\ App.storage st' !! "chat-messages"%string = None
  /\ App.storage st' !! "shared-aes-key"%string
     = App.storage ToyApp.signed_in !! "shared-aes-key"%string
  /\ (forall key,
         key <> "user-identity"%string -> key <> "peer-identity"%string ->
         key <> "chat-messages"%string ->
         App.storage st' !! key = App.storage ToyApp.signed_in !! key)
  /\ App.handleLogout Toy.platform false ToyApp.signed_in = ToyApp.signed_in.
Proof.
  apply (logout_keeps_the_session_key Toy.platform ToyApp.signed_in).
  reflexivity.
Defined.

Example session_key_is_still_stored_after_logout :
  App.storage (App.handleLogout Toy.platform true ToyApp.signed_in)
    !! "shared-aes-key"%string = Some (str "{}").
Proof. vm_compute. reflexivity. Qed.

(** X12.  The identity handed to [handleIdentityCreated] is written to
    [localStorage] whole, private key included, and a later first render
    reads it back and shows the chat, when the browser parses what it
    printed; the theme is not touched. *)
Theorem identity_survives_reload (W : WebPlatform) (newIdentity : UserIdentity)
    (st : App.AppState) :
  JSON_parse W (JSON_stringify W (UserIdentity_json newIdentity))
  = Some (UserIdentity_json newIdentity) ->
  let st' := App.handleIdentityCreated W newIdentity st in
  App.storage st' !! "user-identity"%string
  = Some (JSON_stringify W (UserIdentity_json newIdentity))
  /\ App.identity (App.mount W (App.storage st')) = UserIdentity_json newIdentity
  /\ get_property (App.identity (App.mount W (App.storage st'))) "privateKey"
     = Ok (Some (privateKey newIdentity))
  /\ App.shows_chat (App.mount W (App.storage st')) = true
  /\ App.theme st' = App.theme st.
Proof.
  intros Hparse. cbv zeta.
  assert (Hst : App.storage (App.handleIdentityCreated W newIdentity st)
                  !! "user-identity"%string
                = Some (JSON_stringify W (UserIdentity_json newIdentity))).
  { unfold App.handleIdentityCreated, useLocalStorage_effect. cbn [App.storage].
    apply lookup_insert_eq. }
  assert (Hid : App.identity (App.mount W (App.storage
                   (App.handleIdentityCreated W newIdentity st)))
                = UserIdentity_json newIdentity).
  { unfold App.mount. cbn [App.identity]. unfold getStorageValue.
    now rewrite Hst, Hparse. }
  repeat split; try assumption.
  - rewrite Hid. reflexivity.
  - unfold App.shows_chat. rewrite Hid. reflexivity.
Qed.

Lemma identity_survives_reload_witness :
  let st' := App.handleIdentityCreated Toy.platform Toy.alice
               (App.mount Toy.platform ∅) in
  App.storage st' !! "user-identity"%string
  = Some (JSON_stringify Toy.platform (UserIdentity_json Toy.alice))
  /\ App.identity (App.mount Toy.platform (App.storage st'))
     = UserIdentity_json Toy.alice
  /\ get_property (App.identity (App.mount Toy.platform (App.storage st')))
       "privateKey"
     = Ok (Some (privateKey Toy.alice))
  /\ App.shows_chat (App.mount Toy.platform (App.storage st')) = true
  /\ App.theme st' = App.theme (App.mount Toy.platform ∅).
Proof.
  apply (identity_survives_reload Toy.platform Toy.alice
           (App.mount Toy.platform ∅)).
  vm_compute. reflexivity.
Defined.

(** X13.  After [toggleTheme] the theme is ['light'] or ['dark'], whatever
    was stored before: ['light'] becomes ['dark'], and anything else,
    ['dark'] or not, becomes ['light'].  Toggling twice more comes back to
    it; and a later first render reads it back when the browser parses the
    two strings as it printed them.  With nothing stored, the first render
    takes ['dark']. *)
Theorem theme_toggles_and_survives_reload (W : WebPlatform) (st : App.AppState) :
  JSON_parse W (JSON_stringify W (JStr (str "light"))) = Some (JStr (str "light")) ->
  JSON_parse W (JSON_stringify W (JStr (str "dark"))) = Some (JStr (str "dark")) ->
  let st' := App.toggleTheme W st in
  (App.theme st' = JStr (str "light") \/ App.theme st' = JStr (str "dark"))
  /\ (App.theme st = JStr (str "light") -> App.theme st' = JStr (str "dark"))
  /\ (App.theme st <> JStr (str "light") -> App.theme st' = JStr (str "light"))
  /\ App.theme (App.toggleTheme W (App.toggleTheme W st')) = App.theme st'
  /\ App.theme (App.mount W (App.storage st')) = App.theme st'
  /\ App.identity st' = App.identity st
  /\ App.storage st' !! "theme"%string = Some (JSON_stringify W (App.theme st'))
  /\ App.theme (App.mount W ∅) = JStr (str "dark").
Proof.
  intros Hlight Hdark. cbv zeta.
  assert (Hread : App.theme (App.mount W (App.storage (App.toggleTheme W st)))
                  = App.theme (App.toggleTheme W st)).
  { unfold App.mount, App.toggleTheme, useLocalStorage_effect, getStorageValue.
    cbn [App.theme App.storage]. rewrite lookup_insert_eq.
    destruct (strict_equals_string _ _); [now rewrite Hdark | now rewrite Hlight]. }
  repeat split; try assumption.
  - unfold App.toggleTheme. cbn [App.theme].
    destruct (strict_equals_string _ _); auto.
  - intros H. unfold App.toggleTheme. cbn [App.theme]. now rewrite H.
  - intros H. unfold App.toggleTheme. cbn [App.theme].
    destruct (strict_equals_string (Some (App.theme st)) (str "light")) eqn:E;
      [|reflexivity].
    exfalso. apply H. unfold strict_equals_string in E.
    destruct (App.theme st); try discriminate E.
    now rewrite (jsstr_eqb_eq _ _ E).
  - unfold App.toggleTheme. cbn [App.theme].
    destruct (strict_equals_string (Some (App.theme st)) (str "light"));
      reflexivity.
  - unfold App.toggleTheme, useLocalStorage_effect. cbn [App.storage App.theme].
    apply lookup_insert_eq.
Qed.

Lemma theme_toggles_and_survives_reload_witness :
  let st' := App.toggleTheme Toy.platform (App.mount Toy.platform ∅) in
  (App.theme st' = JStr (str "light") \/ App.theme st' = JStr (str "dark"))
  /\ (App.theme (App.mount Toy.platform ∅) = JStr (str "light")
      -> App.theme st' = JStr (str "dark"))
  /\ (App.theme (App.mount Toy.platform ∅) <> JStr (str "light")
      -> App.theme st' = JStr (str "light"))
  /\ App.theme (App.toggleTheme Toy.platform (App.toggleTheme Toy.platform st'))
     = App.theme st'
  /\ App.theme (App.mount Toy.platform (App.storage st')) = App.theme st'
  /\ App.identity st' = App.identity (App.mount Toy.platform ∅)
  /\ App.storage st' !! "theme"%string
     = Some (JSON_stringify Toy.platform (App.theme st'))
  /\ App.theme (App.mount Toy.platform ∅) = JStr (str "dark").
Proof.
  apply (theme_toggles_and_survives_reload Toy.platform (App.mount Toy.platform ∅));
    vm_compute; reflexivity.
Defined.

(** ** [IdentitySetup]: the identity created *)

Lemma handleCreateIdentity_inversion (W : WebPlatform) (e : Entropy)
    (name : JSString) (identity : UserIdentity) :
  handleCreateIdentity W e name = Some identity ->
  trim name <> []
  /\ exists pub priv pubJwk privJwk,
       generateRsaKeyPair W e = Some (pub, priv)
       /\ exportKey W pub = Some pubJwk
       /\ exportKey W priv = Some privJwk
       /\ identity = {| userId := randomUUID e; username := name;
                        publicKey := pubJwk; privateKey := privJwk;
                        publicKeyFingerprint :=
                          generatePublicKeyFingerprint W pubJwk |}.
Proof.
  unfold handleCreateIdentity.
  destruct (trim name) as [|c rest]; [discriminate|].
  destruct (generateRsaKeyPair W e) as [[pub priv]|]; [|discriminate].
  destruct (exportKey W pub) as [pubJwk|] eqn:Hpub; [|discriminate].
  destruct (exportKey W priv) as [privJwk|] eqn:Hpriv; [|discriminate].
  intros [= <-]. split; [discriminate|].
  exists pub, priv, pubJwk, privJwk. auto.
Qed.

Lemma fingerprint_length (W : WebPlatform) (publicKey : JsonWebKey) :
  List.length (subtle_digest W "SHA-256"
                 (TextEncoder_encode (JSON_stringify W publicKey))) = 32%nat ->
  List.length (generatePublicKeyFingerprint W publicKey) = 16%nat.
Proof.
  intros Hlen. rewrite fingerprint_refines_spec. unfold spec_fingerprint.
  rewrite (firstn_hex_encode 8). unfold toUpperCase.
  rewrite length_map, length_hex_encode, length_firstn.
  unfold digest_of. rewrite Hlen. reflexivity.
Qed.

Lemma fingerprint_upper_hex (W : WebPlatform) (publicKey : JsonWebKey) :
  Forall is_upper_hex (generatePublicKeyFingerprint W publicKey).
Proof.
  rewrite fingerprint_refines_spec. unfold spec_fingerprint.
  rewrite (firstn_hex_encode 8). apply upper_hex_encode.
Qed.

(** X14.  [handleCreateIdentity] hands over nothing for a user name that
    is blank.  The identity it hands over keeps the name as typed, white
    space around it included; its [userId] is the fresh UUID; its two keys
    are the exports of the two halves of one generated pair; and its
    fingerprint is the one of its public key: 16 characters of 0-9 and
    A-F, when the digest has 32 bytes. *)
Theorem created_identity_shape (W : WebPlatform) (e : Entropy) (name : JSString) :
  (forall data, List.length (subtle_digest W "SHA-256" data) = 32%nat) ->
  (trim name = [] -> handleCreateIdentity W e name = None)
  /\ forall identity,
       handleCreateIdentity W e name = Some identity ->
       trim name <> []
       /\ username identity = name
       /\ userId identity = randomUUID e
       /\ (exists pub priv,
              generateRsaKeyPair W e = Some (pub, priv)
              /\ exportKey W pub = Some (publicKey identity)
              /\ exportKey W priv = Some (privateKey identity))
       /\ publicKeyFingerprint identity
          = generatePublicKeyFingerprint W (publicKey identity)
       /\ List.length (publicKeyFingerprint identity) = 16%nat
       /\ Forall is_upper_hex (publicKeyFingerprint identity).
Proof.
  intros Hlen. split.
  { intros Hblank. unfold handleCreateIdentity. now rewrite Hblank. }
  intros identity Hcreated.
  destruct (handleCreateIdentity_inversion W e name identity Hcreated)
    as (Hname & pub & priv & pubJwk & privJwk & Hgen & Hpub & Hpriv & ->).
  cbn [username userId publicKey privateKey publicKeyFingerprint].
  repeat split; auto.
  - exists pub, priv. auto.
  - apply fingerprint_length, Hlen.
  - apply fingerprint_upper_hex.
Qed.

Lemma created_identity_shape_witness :
  (trim (str " alice ") = []
   -> handleCreateIdentity Toy.platform ToyExchange.here (str " alice ") = None)
  /\ forall identity,
       handleCreateIdentity Toy.platform ToyExchange.here (str " alice ")
       = Some identity ->
       trim (str " alice ") <> []
       /\ username identity = str " alice "
       /\ userId identity = randomUUID ToyExchange.here
       /\ (exists pub priv,
              generateRsaKeyPair Toy.platform ToyExchange.here = Some (pub, priv)
              /\ exportKey Toy.platform pub = Some (publicKey identity)
              /\ exportKey Toy.platform priv = Some (privateKey identity))
       /\ publicKeyFingerprint identity
          = generatePublicKeyFingerprint Toy.platform (publicKey identity)
       /\ List.length (publicKeyFingerprint identity) = 16%nat
       /\ Forall is_upper_hex (publicKeyFingerprint identity).
Proof.
  exact (created_identity_shape Toy.platform ToyExchange.here (str " alice ")
           toy_digest_length).
Defined.

Example an_identity_is_created :
  is_Some (handleCreateIdentity Toy.platform ToyExchange.here (str " alice ")).
Proof. vm_compute. eauto. Qed.

(** ** [handleAddPeer]: what is taken as a peer *)

Section AddPeerFacts.

Context (W : WebPlatform).

Lemma has_peer_fields_object (v : JSON) :
  has_peer_fields v = true -> exists members, v = JObj members.
Proof.
  unfold has_peer_fields.
  destruct v; cbn [get_property truthy andb]; try discriminate. eauto.
Qed.

(** The three ways [handleAddPeer] ends. *)
Lemma handleAddPeer_cases (identity : UserIdentity) (st : ChatState W) :
  (exists p,
      JSON_parse W (peerInput W st) = Some p
      /\ is_foreign_peer identity p = true
      /\ handleAddPeer W identity st
         = localStorage_removeItem W "shared-aes-key"
             (setMessages W [] (setPeerInput W [] (setPeer W (Some p)
                (setError W [] st)))))
  \/ (exists p,
         JSON_parse W (peerInput W st) = Some p
         /\ has_peer_fields p = true
         /\ is_foreign_peer identity p = false
         /\ handleAddPeer W identity st = setError W self_peer_error st)
  \/ ((JSON_parse W (peerInput W st) = None
       \/ exists p, JSON_parse W (peerInput W st) = Some p
                    /\ has_peer_fields p = false)
      /\ handleAddPeer W identity st = setError W invalid_peer_error st).
Proof.
  unfold handleAddPeer, handleAddPeer_try, bindR.
  cbn [peerInput setError].
  destruct (JSON_parse W (peerInput W st)) as [p|] eqn:Hparse;
    [|right; right; split; [now left | reflexivity]].
  destruct (get_property p "userId") as [uid|err] eqn:Huid.
  2:{ right; right. split; [right; exists p; split; [reflexivity|] | reflexivity].
      unfold has_peer_fields. now rewrite Huid. }
  assert (Hother : forall name, exists u, get_property p name = Ok u).
  { intros name. destruct p; cbn in Huid |- *; try discriminate; eauto. }
  destruct (Hother "username") as [uname Hun].
  destruct (Hother "publicKey") as [pk Hpk].
  destruct (Hother "publicKeyFingerprint") as [fp Hfp].
  rewrite Hun, Hpk, Hfp.
  assert (Hfields : has_peer_fields p
                    = truthy uid && truthy uname && truthy pk && truthy fp).
  { unfold has_peer_fields. now rewrite Huid, Hun, Hpk, Hfp. }
  assert (Hforeign : is_foreign_peer identity p
                     = has_peer_fields p
                       && negb (strict_equals_string uid (userId identity))).
  { unfold is_foreign_peer. now rewrite Huid. }
  assert (Hinvalid : has_peer_fields p = false ->
            JSON_parse W (peerInput W st) = None
            \/ exists p0, JSON_parse W (peerInput W st) = Some p0
                          /\ has_peer_fields p0 = false).
  { intros Hno. right. exists p. now rewrite Hparse. }
  rewrite Hparse in Hinvalid.
  destruct (truthy uid); cbn [negb andb] in *;
    [|right; right; split; [now apply Hinvalid | reflexivity]].
  destruct (truthy uname); cbn [negb andb] in *;
    [|right; right; split; [now apply Hinvalid | reflexivity]].
  destruct (truthy pk); cbn [negb andb] in *;
    [|right; right; split; [now apply Hinvalid | reflexivity]].
  destruct (truthy fp); cbn [negb andb] in *;
    [|right; right; split; [now apply Hinvalid | reflexivity]].
  rewrite Hfields in Hforeign. cbn [andb] in Hforeign.
  destruct (strict_equals_string uid (userId identity)); cbn [negb] in Hforeign.
  - right; left. exists p. repeat split; auto.
  - left. exists p. repeat split; auto.
Qed.

End AddPeerFacts.

(** X15.  [handleAddPeer] ends in one of three ways, by what the text in
    the field parses to.  A value with the four fields truthy and a
    [userId] other than the local one becomes the peer: the field and the
    messages are emptied, the error cleared and the stored session key
    removed.  A value with the four fields and the local [userId] sets the
    "can't add yourself" error only.  Anything else (no JSON, [null], a
    field missing or falsy) sets the "invalid format" error only.  The key
    in memory, the draft and the sending flag are never touched. *)
Theorem handleAddPeer_outcomes (W : WebPlatform) (identity : UserIdentity)
    (st : ChatState W) :
  let st' := handleAddPeer W identity st in
  ((exists p,
       JSON_parse W (peerInput W st) = Some p
       /\ is_foreign_peer identity p = true
       /\ st' = localStorage_removeItem W "shared-aes-key"
                  (setMessages W [] (setPeerInput W [] (setPeer W (Some p)
                     (setError W [] st)))))
   \/ (exists p,
          JSON_parse W (peerInput W st) = Some p
          /\ has_peer_fields p = true
          /\ is_foreign_peer identity p = false
          /\ st' = setError W self_peer_error st)
   \/ ((JSON_parse W (peerInput W st) = None
        \/ exists p, JSON_parse W (peerInput W st) = Some p
                     /\ has_peer_fields p = false)
       /\ st' = setError W invalid_peer_error st))
  /\ sharedKey W st' = sharedKey W st
  /\ message W st' = message W st
  /\ isSending W st' = isSending W st.
Proof.
  cbv zeta. split; [apply handleAddPeer_cases|].
  destruct (handleAddPeer_cases W identity st)
    as [(p & _ & _ & ->) | [(p & _ & _ & _ & ->) | (_ & ->)]];
    repeat split; reflexivity.
Qed.

(** X16.  An identity made by [handleCreateIdentity] in another browser
    is taken as a peer: when the text in the field parses to the public
    identity of the other user (the text of their QR code, when the
    browser parses what it printed), the two [userId]s differ, the other
    UUID is not empty and the exported public key is an object,
    [handleAddPeer] connects to exactly that public identity. *)
Theorem created_identity_is_accepted (W : WebPlatform) (e1 e2 : Entropy)
    (name1 name2 : JSString) (me other : UserIdentity) (st : ChatState W) :
  (forall data, List.length (subtle_digest W "SHA-256" data) = 32%nat) ->
  handleCreateIdentity W e1 name1 = Some me ->
  handleCreateIdentity W e2 name2 = Some other ->
  randomUUID e2 <> [] ->
  randomUUID e2 <> randomUUID e1 ->
  truthy (Some (publicKey other)) = true ->
  JSON_parse W (peerInput W st)
  = Some (PublicIdentity_json (getPublicIdentity other)) ->
  let st' := handleAddPeer W me st in
  peer W st' = Some (PublicIdentity_json (getPublicIdentity other))
  /\ error W st' = []
  /\ peerInput W st' = []
  /\ messages W st' = []
  /\ localStorage W st' !! "shared-aes-key"%string = None.
Proof.
  intros Hlen Hme Hother Huuid Hdiff Hkey Hparse. cbv zeta.
  destruct (handleCreateIdentity_inversion W e1 name1 me Hme)
    as (_ & pub1 & priv1 & pubJwk1 & privJwk1 & _ & _ & _ & Eme).
  destruct (handleCreateIdentity_inversion W e2 name2 other Hother)
    as (Hname & pub & priv & pubJwk & privJwk & _ & _ & _ & Eother).
  assert (Hforeign : is_foreign_peer me
                       (PublicIdentity_json (getPublicIdentity other)) = true).
  { unfold is_foreign_peer, has_peer_fields, PublicIdentity_json, getPublicIdentity.
    cbn [get_property lookup_member peer_userId peer_username peer_publicKey
           peer_publicKeyFingerprint].
    rewrite !jsstr_eqb_refl.
    repeat match goal with
      | |- context [jsstr_eqb (str ?a) (str ?b)] =>
          change (jsstr_eqb (str a) (str b)) with false
      end.
    cbv iota. unfold JsonWebKey in *. rewrite Hkey.
    cbn [truthy strict_equals_string].
    assert (Hfp : List.length (publicKeyFingerprint other) = 16%nat).
    { subst other. cbn [publicKeyFingerprint]. apply fingerprint_length, Hlen. }
    assert (Hun : username other <> []).
    { subst other. cbn [username]. intros ->. now apply Hname. }
    assert (Huid : userId other = randomUUID e2) by (now subst other).
    assert (Hmine : userId me = randomUUID e1) by (now subst me).
    rewrite Hfp, Huid, Hmine.
    destruct (randomUUID e2) as [|c u] eqn:E2; [contradiction|].
    destruct (username other) as [|c' u']; [contradiction|].
    cbn [List.length Nat.eqb negb andb].
    unfold jsstr_eqb. rewrite bool_decide_eq_false_2 by exact Hdiff.
    reflexivity. }
  destruct (handleAddPeer_cases W me st)
    as [(p & Hp & _ & ->) | [(p & Hp & _ & Hn & _) | ([Hp | (p & Hp & Hn)] & _)]];
    rewrite Hparse in Hp.
  - injection Hp as <-.
    cbn [peer error peerInput messages localStorage localStorage_removeItem
           setMessages setPeerInput setPeer setError].
    repeat split; try reflexivity. apply lookup_delete_eq.
  - injection Hp as <-. congruence.
  - discriminate.
  - injection Hp as <-. unfold is_foreign_peer in Hforeign.
    rewrite Hn in Hforeign. discriminate.
Qed.

Lemma created_identity_is_accepted_witness :
  let st' := handleAddPeer Toy.platform ToyExchange.erin
               (ToySession.with_peerInput
                  (qr_value Toy.platform ToyExchange.frank)) in
  peer Toy.platform st'
  = Some (PublicIdentity_json (getPublicIdentity ToyExchange.frank))
  /\ error Toy.platform st' = []
  /\ peerInput Toy.platform st' = []
  /\ messages Toy.platform st' = []
  /\ localStorage Toy.platform st' !! "shared-aes-key"%string = None.
Proof.
  apply (created_identity_is_accepted Toy.platform ToyExchange.here
           ToyExchange.there (str " erin ") (str "frank")).
  - exact toy_digest_length.
  - vm_compute. reflexivity.
  - vm_compute. reflexivity.
  - discriminate.
  - discriminate.
  - reflexivity.
  - vm_compute. reflexivity.
Defined.

(** ** Sending and the simulated delivery *)

Module TrimFacts.

Lemma trimStart_suffix (s : JSString) :
  exists ws, s = ws ++ trimStart s.
Proof.
  induction s as [|c s [ws IH]]; [now exists []|].
  cbn [trimStart]. destruct (is_js_whitespace c).
  - exists (c :: ws). cbn [app]. now f_equal.
  - now exists [].
Qed.

Lemma trimStart_head (s : JSString) (c : Z) (r : JSString) :
  trimStart s = c :: r -> is_js_whitespace c = false.
Proof.
  induction s as [|d s IH]; [discriminate|].
  cbn [trimStart]. destruct (is_js_whitespace d) eqn:E; [exact IH|].
  now intros [= <- _].
Qed.

Lemma trim_head (s : JSString) (c : Z) (r : JSString) :
  trim s = c :: r -> is_js_whitespace c = false.
Proof.
  unfold trim. intros H.
  destruct (trimStart_suffix (rev (trimStart s))) as [ws Hws].
  apply (f_equal (@rev Z)) in Hws.
  rewrite rev_involutive, rev_app_distr, H in Hws.
  cbn [app] in Hws. exact (trimStart_head _ _ _ Hws).
Qed.

Lemma Forall_trimStart (P : Z -> Prop) (s : JSString) :
  Forall P s -> Forall P (trimStart s).
Proof.
  induction 1 as [|c s Hc Hs IH]; [constructor|].
  cbn [trimStart]. destruct (is_js_whitespace c); [exact IH | now constructor].
Qed.

Lemma Forall_trim (P : Z -> Prop) (s : JSString) :
  Forall P s -> Forall P (trim s).
Proof.
  intros H. unfold trim.
  apply Forall_rev, Forall_trimStart, Forall_rev, Forall_trimStart, H.
Qed.

(** A text that does not begin with U+FEFF loses nothing but its lone
    surrogates on the way through UTF-8. *)
Lemma well_formed_keeps_head (c : Z) (r : JSString) :
  c <> 0xFEFF -> Forall is_code_unit (c :: r) ->
  drop_bom (toWellFormed (c :: r)) = toWellFormed (c :: r).
Proof.
  intros Hne Hall. inversion_clear Hall as [|? ? Hc Hr].
  unfold toWellFormed. cbn [Utf8.to_scalar_values].
  destruct (Utf8.is_lead c) eqn:Hlead.
  - destruct r as [|d r']; [reflexivity|].
    destruct (Utf8.is_trail d) eqn:Htrail; [|reflexivity].
    destruct (Utf8Facts.code_units_pair c d Hlead Htrail) as (Hcu & _).
    cbn [flat_map]. rewrite Hcu. cbn [app drop_bom].
    apply Z.eqb_neq in Hne. now rewrite Hne.
  - destruct (Utf8.is_trail c) eqn:Htrail; [reflexivity|].
    cbn [flat_map]. unfold Utf8.code_units at 1 3.
    unfold is_code_unit in Hc.
    replace (c <? 0x10000) with true by (symmetry; apply Z.ltb_lt; lia).
    cbn [app drop_bom]. apply Z.eqb_neq in Hne. now rewrite Hne.
Qed.

Lemma trimmed_text_through_utf8 (s : JSString) :
  Forall is_code_unit s ->
  TextDecoder_decode (TextEncoder_encode (trim s)) = toWellFormed (trim s).
Proof.
  intros Hs. rewrite text_through_utf8 by now apply Forall_trim.
  destruct (trim s) as [|c r] eqn:E; [reflexivity|].
  apply well_formed_keeps_head.
  - intros ->. now pose proof (trim_head _ _ _ E).
  - rewrite <- E. now apply Forall_trim.
Qed.

End TrimFacts.

Section SendFacts.

Context (W : WebPlatform).

(** [handleSendMessage] returns at once, or seals the trimmed draft. *)
Lemma handleSendMessage_cases (identity : UserIdentity) (e : Entropy)
    (s : Session W) :
  (handleSendMessage W identity e s = s
   /\ (trim (message W (ui W s)) = [] \/ truthy (peer W (ui W s)) = false
       \/ sharedKey W (ui W s) = None))
  \/ exists p key,
       peer W (ui W s) = Some p
       /\ truthy (Some p) = true
       /\ sharedKey W (ui W s) = Some key
       /\ trim (message W (ui W s)) <> []
       /\ handleSendMessage W identity e s
          = let text := trim (message W (ui W s)) in
            let r := createEncryptedPayload W e text identity key in
            let use := {| use_peer := p; use_key := key; use_calls := calls r |} in
            match settled r with
            | Ok env =>
                {| ui := setIsSending W false
                           (setMessage W []
                              (setMessages W
                                 (messages W (ui W s)
                                    ++ [{| msg_id := id env;
                                           msg_senderId :=
                                             Some (JStr (userId identity));
                                           msg_text := text;
                                           msg_timestamp := timestamp env;
                                           msg_isLocalSender := true |}])
                                 (setIsSending W true (ui W s))));
                   pending := pending W s ++ [SimulatedDelivery W env p key];
                   key_uses := key_uses W s ++ [use] |}
            | Throw err =>
                {| ui := setIsSending W false
                           (setMessages W
                              (messages W (ui W s)
                                 ++ [system_message e
                                       (warning_sign ++ str " Error sending message: "
                                          ++ exception_message W err) true])
                              (setIsSending W true (ui W s)));
                   pending := pending W s;
                   key_uses := key_uses W s ++ [use] |}
            end.
Proof.
  unfold handleSendMessage.
  destruct (trim (message W (ui W s))) as [|c text] eqn:Htext; [left; auto|].
  destruct (peer W (ui W s)) as [p|] eqn:Hpeer; [|left; auto].
  destruct (sharedKey W (ui W s)) as [key|] eqn:Hkey; [|left; auto].
  destruct (truthy (Some p)) eqn:Htruthy; [|left; auto].
  right. exists p, key.
  split; [reflexivity|]. split; [exact Htruthy|]. split; [reflexivity|].
  split; [discriminate|].
  cbv zeta.
  destruct (settled (createEncryptedPayload W e (c :: text) identity key));
    reflexivity.
Qed.

End SendFacts.


(** X18.  When the sealing is rejected, and it is rejected by the browser
    only (in its encryption, its import of the private key or its
    signature), [handleSendMessage] shows one system message: "Error
    sending message: " followed by the message of the browser's
    exception, in the browser's wording.  It keeps the draft as it was
    typed, starts no delivery and turns the sending flag off again. *)
Theorem rejected_send_keeps_the_draft (W : WebPlatform) (identity : UserIdentity)
    (e : Entropy) (s : Session W) (p : JSON) (key : CryptoKey W)
    (err : Exception) :
  peer W (ui W s) = Some p ->
  truthy (Some p) = true ->
  sharedKey W (ui W s) = Some key ->
  settled (createEncryptedPayload W e (trim (message W (ui W s))) identity key)
  = Throw err ->
  trim (message W (ui W s)) <> [] ->
  let s' := handleSendMessage W identity e s in
  (exists op, err = OperationError op)
  /\ messages W (ui W s')
     = messages W (ui W s)
         ++ [system_message e
               (warning_sign ++ str " Error sending message: "
                  ++ Error_message W err)
               true]
  /\ message W (ui W s') = message W (ui W s)
  /\ pending W s' = pending W s
  /\ isSending W (ui W s') = false.
Proof.
  intros Hp Htruthy Hkey Hseal Htext. cbv zeta.
  assert (Hop : exists op, err = OperationError op).
  { pose proof (createEncryptedPayload_run W e (trim (message W (ui W s)))
                  identity key) as R.
    cbv zeta in R.
    destruct (subtle_encrypt W "AES-GCM" (getRandomValues e 12) key
                (TextEncoder_encode (trim (message W (ui W s))))) as [ct|];
      [destruct (import_sign_key W identity) as [sk|];
       [destruct (subtle_sign W SIGN_ALGORITHM sk (salt_of e) ct) as [sg|]|]|];
      rewrite R in Hseal; cbn [settled snd] in Hseal;
      try discriminate Hseal; injection Hseal as <-; eauto. }
  split; [exact Hop|].
  destruct (handleSendMessage_cases W identity e s)
    as [[_ [H | [H | H]]] | (p' & key' & Hp' & _ & Hkey' & _ & ->)].
  - contradiction.
  - rewrite Hp, Htruthy in H. discriminate.
  - congruence.
  - rewrite Hp in Hp'. injection Hp' as <-.
    rewrite Hkey in Hkey'. injection Hkey' as <-.
    cbv zeta. rewrite Hseal.
    destruct Hop as [op ->]. repeat split; reflexivity.
Qed.

Lemma rejected_send_keeps_the_draft_witness :
  let s := ToyConversation.talking ToyRejections.decrypt_only (str " hello ") in
  let s' := handleSendMessage Toy.platform Toy.alice (Toy.entropy 1) s in
  (exists op, OperationError "encrypt" = OperationError op)
  /\ messages Toy.platform (ui Toy.platform s')
     = messages Toy.platform (ui Toy.platform s)
         ++ [system_message (Toy.entropy 1)
               (warning_sign ++ str " Error sending message: "
                  ++ Error_message Toy.platform (OperationError "encrypt"))
               true]
  /\ message Toy.platform (ui Toy.platform s')
     = message Toy.platform (ui Toy.platform s)
  /\ pending Toy.platform s' = pending Toy.platform s
  /\ isSending Toy.platform (ui Toy.platform s') = false.
Proof.
  apply (rejected_send_keeps_the_draft Toy.platform Toy.alice (Toy.entropy 1)
           (ToyConversation.talking ToyRejections.decrypt_only (str " hello "))
           (Toy.identity_json Toy.bob) ToyRejections.decrypt_only
           (OperationError "encrypt")).
  - reflexivity.
  - reflexivity.
  - reflexivity.
  - vm_compute. reflexivity.
  - vm_compute. discriminate.
Defined.

Section DeliveryFacts.

Context (W : WebPlatform).

(** The timer of a delivery fires. *)
Lemma settle_delivery (identity : UserIdentity) (e' : Entropy)
    (env : EncryptedMessage) (p : JSON) (key : CryptoKey W) (s : Session W) :
  let r := readEncryptedPayload W env (getPublicIdentity identity) key in
  settle W identity e' (SimulatedDelivery W env p key) s
  = {| ui := setMessages W
               (messages W (ui W s)
                  ++ [delivery_message W e' env p (settled r)])
               (ui W s);
       pending := pending W s;
       key_uses := key_uses W s
                     ++ [{| use_peer := p; use_key := key; use_calls := calls r |}] |}.
Proof.
  cbv zeta. unfold settle, delivery_message.
  destruct (_ <~ settled (readEncryptedPayload W env (getPublicIdentity identity) key) ;; _)
    as [[text sender]|err]; reflexivity.
Qed.

(** A peer that passed the guard of [handleSendMessage] is not [null]:
    reading its [userId] does not throw. *)
Lemma delivery_message_truthy (e' : Entropy) (env : EncryptedMessage) (p : JSON)
    (outcome : Result JSString) :
  truthy (Some p) = true ->
  delivery_message W e' env p outcome
  = match outcome with
    | Ok text => received_message e' p text (timestamp env)
    | Throw err =>
        system_message e'
          (warning_sign ++ str " Error receiving message: "
             ++ exception_message W err) false
    end.
Proof.
  intros Htruthy. unfold delivery_message, received_message, sender_of, bindR.
  destruct outcome as [text|err]; [|reflexivity].
  destruct p; try reflexivity. discriminate Htruthy.
Qed.

Lemma delivery_message_not_local (e' : Entropy) (env : EncryptedMessage)
    (p : JSON) (outcome : Result JSString) :
  msg_isLocalSender (delivery_message W e' env p outcome) = false.
Proof.
  unfold delivery_message.
  destruct (_ <~ outcome ;; _) as [[text sender]|err]; reflexivity.
Qed.

Lemma settle_last (identity : UserIdentity) (e' : Entropy) (t : Task W)
    (u : ChatState W) (tasks : list (Task W)) (uses : list (KeyUse W)) :
  step W identity (Settle (List.length tasks) e')
    {| ui := u; pending := tasks ++ [t]; key_uses := uses |}
  = settle W identity e' t {| ui := u; pending := tasks; key_uses := uses |}.
Proof.
  unfold step. cbn [pending ui key_uses].
  rewrite lookup_app_r by lia. rewrite Nat.sub_diag. cbn [lookup list_lookup].
  rewrite take_app_length.
  rewrite drop_app_ge by lia.
  replace (S (List.length tasks) - List.length tasks)%nat with 1%nat by lia.
  cbn [drop]. now rewrite app_nil_r.
Qed.

End DeliveryFacts.

(** X19.  The loop the component simulates: with a key pair that verifies
    what it signs and a session key that decrypts what it encrypts, a
    click on Send followed by the delivery timer adds two messages to the
    conversation, the trimmed draft as sent by the local user and, as
    received from the peer, "(Simulated Decryption) " followed by the
    trimmed draft with every unpaired surrogate replaced by U+FFFD, with
    the time of sending; the draft is emptied and nothing is left
    pending. *)
Theorem sent_message_is_echoed (W : WebPlatform) (identity : UserIdentity)
    (e e' : Entropy) (s : Session W) (p : JSON) (key : CryptoKey W) :
  matching_pair W identity ->
  decrypts_own W key ->
  peer W (ui W s) = Some p ->
  truthy (Some p) = true ->
  sharedKey W (ui W s) = Some key ->
  Forall is_code_unit (message W (ui W s)) ->
  trim (message W (ui W s)) <> [] ->
  is_Ok (settled (createEncryptedPayload W e (trim (message W (ui W s)))
                    identity key)) = true ->
  let text := trim (message W (ui W s)) in
  let s1 := step W identity (ClickSend e) s in
  let s2 := step W identity (Settle (List.length (pending W s)) e') s1 in
  messages W (ui W s2)
  = messages W (ui W s)
      ++ [sent_message identity e text;
          received_message e' p (toWellFormed text) (Date_now e)]
  /\ message W (ui W s2) = []
  /\ pending W s2 = pending W s
  /\ isSending W (ui W s2) = false.
Proof.
  intros Hpair Hdec Hp Htruthy Hkey Hunits Htext Hsealed. cbv zeta.
  assert (Hclick : step W identity (ClickSend e) s
                   = handleSendMessage W identity e s)
    by (unfold step; now rewrite Hp, Htruthy).
  rewrite Hclick. clear Hclick.
  destruct (handleSendMessage_cases W identity e s)
    as [[_ [H | [H | H]]] | (p' & key' & Hp' & _ & Hkey' & _ & Hsend)].
  { contradiction. }
  { rewrite Hp, Htruthy in H. discriminate. }
  { congruence. }
  rewrite Hp in Hp'. injection Hp' as <-.
  rewrite Hkey in Hkey'. injection Hkey' as <-.
  cbv zeta in Hsend.
  destruct (settled (createEncryptedPayload W e (trim (message W (ui W s)))
                       identity key)) as [env|] eqn:Hseal; [|discriminate].
  destruct (open_sealed W e _ identity key key env Hpair Hseal)
    as (pk & sg & ct & Henc & Hopen).
  destruct (seal_inversion W _ _ _ _ _ Hseal) as (ct' & sk' & sg' & _ & _ & _ & Henv).
  rewrite Hsend.
  rewrite settle_last.
  rewrite settle_delivery, (delivery_message_truthy W _ _ _ _ Htruthy).
  rewrite Hopen.
  cbn [settled snd ui pending messages message isSending
         setIsSending setMessage setMessages].
  unfold decrypted_text. rewrite (Hdec _ _ _ Henc).
  rewrite (TrimFacts.trimmed_text_through_utf8 _ Hunits).
  rewrite <- app_assoc. cbn [app].
  rewrite Henv. cbn [id timestamp].
  repeat split; reflexivity.
Qed.

Lemma sent_message_is_echoed_witness :
  let s := ToyConversation.talking Toy.K1 ToyConversation.draft in
  let text := trim (message Toy.platform (ui Toy.platform s)) in
  let s1 := step Toy.platform Toy.alice (ClickSend (Toy.entropy 3)) s in
  let s2 := step Toy.platform Toy.alice
              (Settle (List.length (pending Toy.platform s)) (Toy.entropy 4)) s1 in
  messages Toy.platform (ui Toy.platform s2)
  = messages Toy.platform (ui Toy.platform s)
      ++ [sent_message Toy.alice (Toy.entropy 3) text;
          received_message (Toy.entropy 4) (Toy.identity_json Toy.bob)
            (toWellFormed text) (Date_now (Toy.entropy 3))]
  /\ message Toy.platform (ui Toy.platform s2) = []
  /\ pending Toy.platform s2 = pending Toy.platform s
  /\ isSending Toy.platform (ui Toy.platform s2) = false.
Proof.
  apply (sent_message_is_echoed Toy.platform Toy.alice (Toy.entropy 3)
           (Toy.entropy 4)
           (ToyConversation.talking Toy.K1 ToyConversation.draft)
           (Toy.identity_json Toy.bob) Toy.K1).
  - exact toy_alice_matching_pair.
  - exact toy_K1_decrypts_own.
  - reflexivity.
  - reflexivity.
  - reflexivity.
  - unfold ToyConversation.draft, is_code_unit. cbn. repeat constructor; lia.
  - vm_compute. discriminate.
  - vm_compute. reflexivity.
Defined.

Example echo_of_a_ragged_draft :
  List.map msg_text
    (messages Toy.platform
       (ui Toy.platform
          (run_actions Toy.platform Toy.alice
             [ClickSend (Toy.entropy 3); Settle 0 (Toy.entropy 4)]
             (ToyConversation.talking Toy.K1 ToyConversation.draft))))
  = [[104; 0xD83D; 105];
     str "(Simulated Decryption) " ++ [104; 0xFFFD; 105]].
Proof. vm_compute. reflexivity. Qed.

(** X20.  A delivery lands in whatever conversation is open when its
    timer fires: it adds exactly one message, not the local sender's, to
    the messages shown then, and changes nothing else of the state of the
    component nor the entry ['shared-aes-key'] of [localStorage], the
    peer and the session key of that moment playing no part.  The message
    carries as its sender the [userId] of the peer the message was sent
    to, whatever value that is, the time of sending, and what
    [readEncryptedPayload] returned under the key of the time of sending.
    When that call is rejected, it is a system message instead, "Error
    receiving message: " followed by the message of the exception: the
    text the code gave to its own [Error], the browser's wording for an
    exception of the browser. *)
Theorem delivery_lands_in_the_open_conversation (W : WebPlatform)
    (identity : UserIdentity) (e' : Entropy) (s : Session W) (i : nat)
    (env : EncryptedMessage) (p : JSON) (key : CryptoKey W) :
  pending W s !! i = Some (SimulatedDelivery W env p key) ->
  truthy (Some p) = true ->
  let r := readEncryptedPayload W env (getPublicIdentity identity) key in
  let s' := step W identity (Settle i e') s in
  (exists m,
      messages W (ui W s') = messages W (ui W s) ++ [m]
      /\ msg_isLocalSender m = false
      /\ match settled r with
         | Ok text =>
             m = {| msg_id := randomUUID e';
                    msg_senderId := sender_of p;
                    msg_text := str "(Simulated Decryption) " ++ text;
                    msg_timestamp := timestamp env;
                    msg_isLocalSender := false |}
             /\ get_property p "userId" = Ok (sender_of p)
         | Throw (JsError text) =>
             m = system_message e'
                   (warning_sign ++ str " Error receiving message: " ++ text)
                   false
         | Throw err =>
             m = system_message e'
                   (warning_sign ++ str " Error receiving message: "
                      ++ Error_message W err) false
         end)
  /\ peer W (ui W s') = peer W (ui W s)
  /\ sharedKey W (ui W s') = sharedKey W (ui W s)
  /\ localStorage W (ui W s') !! "shared-aes-key"%string
     = localStorage W (ui W s) !! "shared-aes-key"%string
  /\ peerInput W (ui W s') = peerInput W (ui W s)
  /\ message W (ui W s') = message W (ui W s)
  /\ error W (ui W s') = error W (ui W s)
  /\ isSending W (ui W s') = isSending W (ui W s)
  /\ pending W s' = take i (pending W s) ++ drop (S i) (pending W s)
  /\ List.length (pending W s') = Nat.pred (List.length (pending W s)).
Proof.
  intros Hi Htruthy. cbv zeta. unfold step. rewrite Hi.
  rewrite settle_delivery, (delivery_message_truthy W _ _ _ _ Htruthy).
  cbn [ui pending messages setMessages peer sharedKey localStorage peerInput
         message error isSending].
  split; [|repeat split].
  - eexists. split; [reflexivity|].
    destruct (settled (readEncryptedPayload W env (getPublicIdentity identity) key))
      as [text|err].
    + split; [reflexivity|]. split; [reflexivity|].
      unfold sender_of. destruct p; try reflexivity. discriminate Htruthy.
    + split; [reflexivity|]. destruct err; reflexivity.
  - pose proof (lookup_lt_Some _ _ _ Hi) as Hlt.
    rewrite length_app, length_take, length_drop. lia.
Qed.

Lemma delivery_lands_in_the_open_conversation_witness :
  let s := ToyConversation.awaiting in
  let p := Toy.identity_json Toy.bob in
  let r := readEncryptedPayload Toy.platform Toy.hello
             (getPublicIdentity Toy.alice) Toy.K1 in
  let s' := step Toy.platform Toy.alice (Settle 0 (Toy.entropy 4)) s in
  (exists m,
      messages Toy.platform (ui Toy.platform s')
      = messages Toy.platform (ui Toy.platform s) ++ [m]
      /\ msg_isLocalSender m = false
      /\ match settled r with
         | Ok text =>
             m = {| msg_id := randomUUID (Toy.entropy 4);
                    msg_senderId := sender_of p;
                    msg_text := str "(Simulated Decryption) " ++ text;
                    msg_timestamp := timestamp Toy.hello;
                    msg_isLocalSender := false |}
             /\ get_property p "userId" = Ok (sender_of p)
         | Throw (JsError text) =>
             m = system_message (Toy.entropy 4)
                   (warning_sign ++ str " Error receiving message: " ++ text)
                   false
         | Throw err =>
             m = system_message (Toy.entropy 4)
                   (warning_sign ++ str " Error receiving message: "
                      ++ Error_message Toy.platform err) false
         end)
  /\ peer Toy.platform (ui Toy.platform s') = peer Toy.platform (ui Toy.platform s)
  /\ sharedKey Toy.platform (ui Toy.platform s')
     = sharedKey Toy.platform (ui Toy.platform s)
  /\ localStorage Toy.platform (ui Toy.platform s') !! "shared-aes-key"%string
     = localStorage Toy.platform (ui Toy.platform s) !! "shared-aes-key"%string
  /\ peerInput Toy.platform (ui Toy.platform s')
     = peerInput Toy.platform (ui Toy.platform s)
  /\ message Toy.platform (ui Toy.platform s')
     = message Toy.platform (ui Toy.platform s)
  /\ error Toy.platform (ui Toy.platform s') = error Toy.platform (ui Toy.platform s)
  /\ isSending Toy.platform (ui Toy.platform s')
     = isSending Toy.platform (ui Toy.platform s)
  /\ pending Toy.platform s'
     = take 0 (pending Toy.platform s) ++ drop 1 (pending Toy.platform s)
  /\ List.length (pending Toy.platform s')
     = Nat.pred (List.length (pending Toy.platform s)).
Proof.
  apply (delivery_lands_in_the_open_conversation Toy.platform Toy.alice
           (Toy.entropy 4) ToyConversation.awaiting 0 Toy.hello
           (Toy.identity_json Toy.bob) Toy.K1).
  - reflexivity.
  - reflexivity.
Defined.

Example message_for_bob_shown_to_carol :
  let s := step Toy.platform Toy.alice (Settle 0 (Toy.entropy 4))
             ToyConversation.awaiting in
  peer Toy.platform (ui Toy.platform s)
  = Some (Toy.identity_json ToySession.carol)
  /\ List.map (fun m => (msg_senderId m, msg_text m))
       (messages Toy.platform (ui Toy.platform s))
     = [(Some (JStr (str "2222")), str "(Simulated Decryption) hello")].
Proof. vm_compute. split; reflexivity. Qed.

(** ** What holds in every state the component reaches *)

Section RunFacts.

Context (W : WebPlatform).

Lemma run_actions_invariant (identity : UserIdentity)
    (P : Session W -> Prop) (Q : Action -> Prop) :
  (forall a s, Q a -> P s -> P (step W identity a s)) ->
  forall actions s, Forall Q actions -> P s ->
                    P (run_actions W identity actions s).
Proof.
  intros Hstep actions. unfold run_actions.
  induction actions as [|a actions IH]; intros s Hall Hs; [exact Hs|].
  inversion_clear Hall as [|? ? Ha Hrest].
  cbn [fold_left]. apply IH; [exact Hrest|]. now apply Hstep.
Qed.

Lemma peer_effect_task (st : ChatState W) (t : Task W) :
  peer_effect W st = Some t ->
  task_peer W t = None.
Proof.
  unfold peer_effect, deriveAndSetSharedKey_begin.
  case_inner; intros [= <-]; reflexivity.
Qed.

Lemma Forall_remove {A} (P : A -> Prop) (i : nat) (l : list A) :
  Forall P l -> Forall P (take i l ++ drop (S i) l).
Proof.
  intros H. apply Forall_app. split; [now apply Forall_take | now apply Forall_drop].
Qed.

Lemma foreign_peer_truthy (identity : UserIdentity) (p : JSON) :
  is_foreign_peer identity p = true -> truthy (Some p) = true.
Proof.
  unfold is_foreign_peer. intros H. apply andb_true_iff in H as [H _].
  destruct (has_peer_fields_object p H) as [members ->]. reflexivity.
Qed.

(** The component after a click on "Connect to Peer". *)
Lemma connect_cases (identity : UserIdentity) (s : Session W) :
  let s' := step W identity ClickConnect s in
  (exists p,
      is_foreign_peer identity p = true
      /\ JSON_parse W (peerInput W (ui W s)) = Some p
      /\ truthy (peer W (ui W s)) = false
      /\ ui W s' = handleAddPeer W identity (ui W s)
      /\ peer W (ui W s') = Some p
      /\ localStorage W (ui W s') !! "shared-aes-key"%string = None
      /\ pending W s' = pending W s ++ [GenerateSharedSecret W]
      /\ key_uses W s' = key_uses W s)
  \/ (peer W (ui W s') = peer W (ui W s)
      /\ sharedKey W (ui W s') = sharedKey W (ui W s)
      /\ localStorage W (ui W s') = localStorage W (ui W s)
      /\ messages W (ui W s') = messages W (ui W s)
      /\ pending W s' = pending W s
      /\ key_uses W s' = key_uses W s).
Proof.
  cbv zeta. unfold step.
  destruct (truthy (peer W (ui W s))) eqn:Hpeer; cbn [orb];
    [right; repeat split; reflexivity|].
  destruct (Nat.eqb _ 0); [right; repeat split; reflexivity|].
  cbn [with_ui spawn ui pending key_uses].
  destruct (handleAddPeer_cases W identity (ui W s))
    as [(p & Hparse & Hforeign & ->) | [(p & _ & _ & _ & ->) | (_ & ->)]].
  - left. exists p.
    assert (Heffect : peer_effect W
              (localStorage_removeItem W "shared-aes-key"
                 (setMessages W [] (setPeerInput W [] (setPeer W (Some p)
                    (setError W [] (ui W s))))))
            = Some (GenerateSharedSecret W)).
    { unfold peer_effect, deriveAndSetSharedKey_begin.
      cbn [peer localStorage localStorage_removeItem setMessages setPeerInput
             setPeer setError].
      rewrite lookup_delete_eq.
      now rewrite (foreign_peer_truthy identity p Hforeign). }
    rewrite Heffect.
    cbn [peer localStorage localStorage_removeItem setMessages setPeerInput
           setPeer setError].
    repeat split; auto. apply lookup_delete_eq.
  - right. unfold peer_effect. cbn [peer setError]. rewrite Hpeer.
    rewrite app_nil_r. repeat split; reflexivity.
  - right. unfold peer_effect. cbn [peer setError]. rewrite Hpeer.
    rewrite app_nil_r. repeat split; reflexivity.
Qed.

Lemma step_keeps_peers_foreign (identity : UserIdentity) (a : Action)
    (s : Session W) :
  peers_are_foreign W identity s ->
  peers_are_foreign W identity (step W identity a s).
Proof.
  intros (Hpeer & Htasks & Huses).
  destruct a as [| text | text | | | e | i e].
  - (* Mount *)
    unfold step, spawn, peers_are_foreign. cbn [ui pending key_uses].
    split; [exact Hpeer|]. split; [|exact Huses].
    apply Forall_app. split; [exact Htasks|].
    destruct (peer_effect W (ui W s)) as [t|] eqn:E; [|constructor].
    constructor; [|constructor].
    intros p Hp. rewrite (peer_effect_task _ _ E) in Hp. discriminate.
  - unfold step. destruct (truthy _); [now repeat split|].
    unfold peers_are_foreign. cbn [with_ui ui pending key_uses setPeerInput peer].
    now repeat split.
  - unfold step. destruct (truthy _); [|now repeat split].
    unfold peers_are_foreign. cbn [with_ui ui pending key_uses setMessage peer].
    now repeat split.
  - (* ClickConnect *)
    destruct (connect_cases identity s)
      as [(p & Hforeign & _ & _ & _ & Hp & _ & Hpend & Hu)
         | (Hp & _ & _ & _ & Hpend & Hu)];
      unfold peers_are_foreign; rewrite Hp, Hpend, Hu.
    + split; [now intros p' [= <-]|]. split; [|exact Huses].
      apply Forall_app. split; [exact Htasks|].
      constructor; [|constructor]. intros p' Hp'. discriminate.
    + now repeat split.
  - (* ClickDisconnect *)
    unfold step. destruct (truthy _); [|now repeat split].
    unfold peers_are_foreign. cbn [with_ui ui pending key_uses setPeer peer].
    split; [discriminate|]. now split.
  - (* ClickSend *)
    unfold step. destruct (truthy _); [|now repeat split].
    destruct (handleSendMessage_cases W identity e s)
      as [[-> _] | (p & key & Hp & _ & _ & _ & ->)]; [now repeat split|].
    cbv zeta. pose proof (Hpeer p Hp) as Hforeign.
    destruct (settled _); unfold peers_are_foreign;
      cbn [ui pending key_uses peer setIsSending setMessage setMessages].
    + split; [exact Hpeer|]. split.
      * apply Forall_app. split; [exact Htasks|].
        constructor; [|constructor]. now intros p' [= <-].
      * apply Forall_app. split; [exact Huses|]. now repeat constructor.
    + split; [exact Hpeer|]. split; [exact Htasks|].
      apply Forall_app. split; [exact Huses|]. now repeat constructor.
  - (* Settle *)
    unfold step. destruct (pending W s !! i) as [t|] eqn:Hi; [|now repeat split].
    pose proof (Forall_remove _ i _ Htasks) as Hrest.
    assert (Ht : forall p, task_peer W t = Some p ->
                           is_foreign_peer identity p = true).
    { exact (Forall_lookup_1 _ _ _ _ Htasks Hi). }
    destruct t as [jwk | | env p key].
    + unfold settle. destruct (importAesKey W jwk); [|now repeat split].
      unfold peers_are_foreign. cbn [with_ui ui pending key_uses setSharedKey peer].
      now repeat split.
    + unfold settle.
      destruct (generateSharedSecret W e) as [newKey|]; [|now repeat split].
      destruct (exportAesKey W newKey); [|now repeat split].
      unfold peers_are_foreign.
      cbn [with_ui ui pending key_uses setSharedKey localStorage_setItem peer].
      now repeat split.
    + rewrite settle_delivery. unfold peers_are_foreign.
      cbn [ui pending key_uses setMessages peer].
      split; [exact Hpeer|]. split; [exact Hrest|].
      apply Forall_app. split; [exact Huses|].
      constructor; [|constructor]. cbn [use_peer]. now apply Ht.
Qed.

Lemma step_keeps_stored_key (identity : UserIdentity) (a : Action)
    (s : Session W) :
  is_mount a = false ->
  Forall (fun t => is_import W t = false) (pending W s)
  /\ stored_key_is_the_key_in_memory W s ->
  Forall (fun t => is_import W t = false) (pending W (step W identity a s))
  /\ stored_key_is_the_key_in_memory W (step W identity a s).
Proof.
  intros Ha (Htasks & Hkey).
  destruct a as [| text | text | | | e | i e]; [discriminate Ha| | | | | |].
  - unfold step. destruct (truthy _); [now split|]. now split.
  - unfold step. destruct (truthy _); [|now split]. now split.
  - (* ClickConnect *)
    destruct (connect_cases identity s)
      as [(p & _ & _ & _ & _ & _ & Hgone & Hpend & _)
         | (_ & Hk & Hst & _ & Hpend & _)].
    + split.
      * rewrite Hpend. apply Forall_app. split; [exact Htasks|].
        now repeat constructor.
      * intros text Htext. rewrite Hgone in Htext. discriminate.
    + split; [now rewrite Hpend|].
      intros text Htext. rewrite Hst in Htext. rewrite Hk. now apply Hkey.
  - unfold step. destruct (truthy _); [|now split]. now split.
  - (* ClickSend *)
    unfold step. destruct (truthy _); [|now split].
    destruct (handleSendMessage_cases W identity e s)
      as [[-> _] | (p & key & _ & _ & _ & _ & ->)]; [now split|].
    cbv zeta. destruct (settled _); cbn [pending]; (split; [|exact Hkey]).
    + apply Forall_app. split; [exact Htasks|]. now repeat constructor.
    + exact Htasks.
  - (* Settle *)
    unfold step. destruct (pending W s !! i) as [t|] eqn:Hi; [|now split].
    pose proof (Forall_remove _ i _ Htasks) as Hrest.
    assert (Ht : is_import W t = false).
    { exact (Forall_lookup_1 _ _ _ _ Htasks Hi). }
    destruct t as [jwk | | env p key]; [discriminate Ht| |].
    + unfold settle.
      destruct (generateSharedSecret W e) as [newKey|]; [|now split].
      destruct (exportAesKey W newKey) as [jwk|] eqn:Hexp; [|now split].
      split; [exact Hrest|].
      intros text.
      cbn [with_ui ui setSharedKey localStorage_setItem localStorage sharedKey].
      rewrite lookup_insert_eq. intros [= <-]. eauto.
    + rewrite settle_delivery. split; [exact Hrest|]. exact Hkey.
Qed.

End RunFacts.

(** X21.  In every state reached by a component that found no peer
    stored, whatever is clicked, typed or completes, the connected peer,
    the peer of every pending delivery and the peer of every use of a
    session key is a value that passed the check of [handleAddPeer]: an
    object with the four fields truthy and a [userId] that is not the
    local user's. *)
Theorem every_peer_passed_the_check (W : WebPlatform) (identity : UserIdentity)
    (actions : list Action) :
  peers_are_foreign W identity
    (run_actions W identity actions (initial_session W)).
Proof.
  apply (run_actions_invariant W identity (peers_are_foreign W identity)
           (fun _ => True)).
  - intros a s _. apply step_keeps_peers_foreign.
  - now apply Forall_forall.
  - unfold peers_are_foreign, initial_session, initial_state.
    cbn [ui peer pending key_uses]. split; [discriminate|]. split; constructor.
Qed.

(** X22.  After the first render of a component that found nothing
    stored, whatever is clicked, typed or completes: a session key in
    [localStorage] is always the printed export of the key in memory, and
    no import of a stored key is ever pending. *)
Theorem stored_key_mirrors_memory (W : WebPlatform) (identity : UserIdentity)
    (actions : list Action) :
  forallb (fun a => negb (is_mount a)) actions = true ->
  let s := run_actions W identity (Mount :: actions) (initial_session W) in
  stored_key_is_the_key_in_memory W s
  /\ Forall (fun t => is_import W t = false) (pending W s).
Proof.
  intros Hactions. cbv zeta.
  change (run_actions W identity (Mount :: actions) (initial_session W))
    with (run_actions W identity actions
            (step W identity Mount (initial_session W))).
  apply and_comm.
  apply (run_actions_invariant W identity
           (fun s => Forall (fun t => is_import W t = false) (pending W s)
                     /\ stored_key_is_the_key_in_memory W s)
           (fun a => is_mount a = false)).
  - intros a s. apply step_keeps_stored_key.
  - apply Forall_forall. intros a Ha.
    rewrite forallb_forall in Hactions.
    apply negb_true_iff. apply Hactions. now apply list_elem_of_In.
  - split; [constructor|]. intros text Htext. discriminate Htext.
Qed.

Lemma stored_key_mirrors_memory_witness :
  let s := run_actions Toy.platform Toy.alice
             (Mount :: tl ToySession.patient_send)
             (initial_session Toy.platform) in
  stored_key_is_the_key_in_memory Toy.platform s
  /\ Forall (fun t => is_import Toy.platform t = false)
            (pending Toy.platform s).
Proof.
  apply (stored_key_mirrors_memory Toy.platform Toy.alice
           (tl ToySession.patient_send)).
  reflexivity.
Defined.

(** ** The session key across a reload *)

(** X23.  The session key outlives a reload of the page: after
    [deriveAndSetSharedKey] has generated a key and stored its export, a
    component mounted later on that [localStorage] with a peer generates
    no new key; it imports the stored export, when the browser parses what
    it printed, and leaves the entry ['shared-aes-key'] as it was. *)
Theorem session_key_survives_reload (W : WebPlatform) (identity : UserIdentity)
    (e e' : Entropy) (s : Session W) (newKey : CryptoKey W) (jwk : JsonWebKey)
    (p : JSON) (messages0 : list Message) :
  generateSharedSecret W e = Some newKey ->
  exportAesKey W newKey = Some jwk ->
  JSON_stringify W jwk <> [] ->
  JSON_parse W (JSON_stringify W jwk) = Some jwk ->
  truthy (Some p) = true ->
  let s1 := settle W identity e (GenerateSharedSecret W) s in
  let s2 := run_actions W identity [Mount; Settle 0 e']
              (mounted W (Some p) messages0 (localStorage W (ui W s1))) in
  sharedKey W (ui W s1) = Some newKey
  /\ pending W (step W identity Mount
                  (mounted W (Some p) messages0 (localStorage W (ui W s1))))
     = [ImportStoredKey W jwk]
  /\ sharedKey W (ui W s2) = importAesKey W jwk
  /\ pending W s2 = []
  /\ localStorage W (ui W s2) !! "shared-aes-key"%string
     = Some (JSON_stringify W jwk)
  /\ localStorage W (ui W s1) !! "shared-aes-key"%string
     = Some (JSON_stringify W jwk).
Proof.
  intros Hgen Hexp Hnonempty Hparse Htruthy. cbv zeta.
  destruct (derivation_installs_generated_key W identity e s newKey jwk Hgen Hexp)
    as [Hmem Hstored].
  split; [exact Hmem|].
  set (storage := localStorage W (ui W (settle W identity e (GenerateSharedSecret W) s)))
    in *.
  assert (Hmount : step W identity Mount (mounted W (Some p) messages0 storage)
                   = {| ui := ui W (mounted W (Some p) messages0 storage);
                        pending := [ImportStoredKey W jwk];
                        key_uses := [] |}).
  { unfold step, spawn, peer_effect, deriveAndSetSharedKey_begin, mounted.
    cbn [ui peer localStorage pending key_uses].
    unfold JSString in *. rewrite Htruthy, Hstored, Hparse.
    destruct (JSON_stringify W jwk); [contradiction|]. reflexivity. }
  split; [now rewrite Hmount|].
  unfold run_actions. cbn [fold_left]. rewrite Hmount.
  unfold step. cbn [pending lookup list_lookup take drop app ui key_uses].
  unfold settle, mounted. cbn [ui].
  destruct (importAesKey W jwk);
    cbn [with_ui ui sharedKey pending localStorage setSharedKey];
    repeat split; try reflexivity; exact Hstored.
Qed.

Lemma session_key_survives_reload_witness :
  let s1 := settle Toy.platform Toy.alice (Toy.entropy 2)
              (GenerateSharedSecret Toy.platform) (initial_session Toy.platform) in
  let jwk := JObj [(str "kty", JStr (str "oct"));
                   (str "k", JStr (Toy.key_material (ToySession.generated_key 2)))] in
  let s2 := run_actions Toy.platform Toy.alice [Mount; Settle 0 (Toy.entropy 7)]
              (mounted Toy.platform (Some (Toy.identity_json Toy.bob)) []
                 (localStorage Toy.platform (ui Toy.platform s1))) in
  sharedKey Toy.platform (ui Toy.platform s1) = Some (ToySession.generated_key 2)
  /\ pending Toy.platform
       (step Toy.platform Toy.alice Mount
          (mounted Toy.platform (Some (Toy.identity_json Toy.bob)) []
             (localStorage Toy.platform (ui Toy.platform s1))))
     = [ImportStoredKey Toy.platform jwk]
  /\ sharedKey Toy.platform (ui Toy.platform s2) = importAesKey Toy.platform jwk
  /\ pending Toy.platform s2 = []
  /\ localStorage Toy.platform (ui Toy.platform s2) !! "shared-aes-key"%string
     = Some (JSON_stringify Toy.platform jwk)
  /\ localStorage Toy.platform (ui Toy.platform s1) !! "shared-aes-key"%string
     = Some (JSON_stringify Toy.platform jwk).
Proof.
  apply (session_key_survives_reload Toy.platform Toy.alice (Toy.entropy 2)
           (Toy.entropy 7) (initial_session Toy.platform)
           (ToySession.generated_key 2)
           (JObj [(str "kty", JStr (str "oct"));
                  (str "k", JStr (Toy.key_material (ToySession.generated_key 2)))])
           (Toy.identity_json Toy.bob) []).
  - reflexivity.
  - reflexivity.
  - vm_compute. discriminate.
  - vm_compute. reflexivity.
  - reflexivity.
Defined.

Example reloaded_key_is_the_generated_key :
  importAesKey Toy.platform
    (JObj [(str "kty", JStr (str "oct"));
           (str "k", JStr (Toy.key_material (ToySession.generated_key 2)))])
  = Some (ToySession.generated_key 2).
Proof. reflexivity. Qed.

(** X24.  A stored session key that cannot be used is never replaced: when
    the text under ['shared-aes-key'] is not empty and does not parse, or
    parses to something the browser does not import as an AES key, the
    component mounted with a peer ends with no key in memory and the text
    still stored under ['shared-aes-key'], nothing pending; and a click on
    Send does nothing then but what typing the draft did. *)
Theorem unusable_stored_key_is_kept (W : WebPlatform) (identity : UserIdentity)
    (e e' : Entropy) (storage : gmap string JSString) (text draft : JSString)
    (p : JSON) (messages0 : list Message) :
  storage !! "shared-aes-key"%string = Some text ->
  text <> [] ->
  truthy (Some p) = true ->
  (JSON_parse W text = None
   \/ exists jwk, JSON_parse W text = Some jwk /\ importAesKey W jwk = None) ->
  let s := run_actions W identity [Mount; Settle 0 e]
             (mounted W (Some p) messages0 storage) in
  sharedKey W (ui W s) = None
  /\ localStorage W (ui W s) !! "shared-aes-key"%string = Some text
  /\ pending W s = []
  /\ run_actions W identity [TypeMessage draft; ClickSend e'] s
     = with_ui W (setMessage W draft) s.
Proof.
  intros Hstored Hnonempty Htruthy Hbad. cbv zeta.
  assert (Hs : run_actions W identity [Mount; Settle 0 e]
                 (mounted W (Some p) messages0 storage)
               = mounted W (Some p) messages0 storage).
  { unfold run_actions. cbn [fold_left].
    unfold step at 2. unfold spawn, peer_effect, deriveAndSetSharedKey_begin, mounted.
    cbn [ui peer localStorage pending key_uses].
    unfold JSString in *. rewrite Htruthy, Hstored.
    destruct text as [|c text]; [contradiction|].
    cbn [List.length Nat.eqb negb].
    destruct Hbad as [Hparse | (jwk & Hparse & Himport)]; rewrite Hparse.
    - reflexivity.
    - unfold step. cbn [pending lookup list_lookup take drop app ui key_uses].
      unfold settle. now rewrite Himport. }
  rewrite Hs. split; [reflexivity|]. split; [exact Hstored|].
  split; [reflexivity|].
  unfold run_actions. cbn [fold_left].
  unfold step at 2. unfold mounted at 1. cbn [ui peer]. rewrite Htruthy.
  unfold step.
  cbn [with_ui ui peer setMessage mounted]. rewrite Htruthy.
  destruct (handleSendMessage_cases W identity e'
              (with_ui W (setMessage W draft)
                 (mounted W (Some p) messages0 storage)))
    as [[Hsame _] | (p' & key & _ & _ & Hkey & _)].
  - exact Hsame.
  - discriminate Hkey.
Qed.

Lemma unusable_stored_key_is_kept_witness :
  let s := run_actions Toy.platform Toy.alice [Mount; Settle 0 (Toy.entropy 2)]
             (mounted Toy.platform (Some (Toy.identity_json Toy.bob)) []
                {[ "shared-aes-key"%string := str "{}" ]}) in
  sharedKey Toy.platform (ui Toy.platform s) = None
  /\ localStorage Toy.platform (ui Toy.platform s) !! "shared-aes-key"%string
     = Some (str "{}")
  /\ pending Toy.platform s = []
  /\ run_actions Toy.platform Toy.alice
       [TypeMessage (str "hi bob"); ClickSend (Toy.entropy 3)] s
     = with_ui Toy.platform (setMessage Toy.platform (str "hi bob")) s.
Proof.
  apply (unusable_stored_key_is_kept Toy.platform Toy.alice (Toy.entropy 2)
           (Toy.entropy 3) {[ "shared-aes-key"%string := str "{}" ]}
           (str "{}") (str "hi bob") (Toy.identity_json Toy.bob) []).
  - reflexivity.
  - discriminate.
  - reflexivity.
  - right. exists (JObj []). split; reflexivity.
Defined.

(** ** The peer's key *)

Section OwnKeyFacts.

Context (W : WebPlatform).

Lemma seal_calls_own (identity : UserIdentity) (e : Entropy) (text : JSString)
    (key : CryptoKey W) :
  Forall (own_call W identity key)
         (calls (createEncryptedPayload W e text identity key)).
Proof.
  pose proof (createEncryptedPayload_run W e text identity key) as R.
  cbv zeta in R.
  destruct (subtle_encrypt W "AES-GCM" (getRandomValues e 12) key
              (TextEncoder_encode text)) as [ct|];
    [destruct (import_sign_key W identity) as [sk|];
     [destruct (subtle_sign W SIGN_ALGORITHM sk (salt_of e) ct) as [sg|]|]|];
    rewrite R; cbn [calls fst];
    repeat match goal with |- Forall _ _ => constructor end;
    cbn [own_call]; auto.
Qed.

Lemma open_calls_own (identity : UserIdentity) (env : EncryptedMessage)
    (key : CryptoKey W) :
  Forall (own_call W identity key)
         (calls (readEncryptedPayload W env (getPublicIdentity identity) key)).
Proof.
  destruct (readEncryptedPayload_run W env (getPublicIdentity identity) key);
    cbn [calls fst];
    repeat match goal with |- Forall _ _ => constructor end;
    cbn [own_call]; auto.
Qed.

Lemma step_key_uses (identity : UserIdentity) (a : Action) (s : Session W) :
  key_uses W (step W identity a s) = key_uses W s
  \/ exists u,
       key_uses W (step W identity a s) = key_uses W s ++ [u]
       /\ Forall (own_call W identity (use_key W u)) (use_calls W u).
Proof.
  destruct a as [| text | text | | | e | i e].
  - now left.
  - left. unfold step. now destruct (truthy _).
  - left. unfold step. now destruct (truthy _).
  - left. destruct (connect_cases W identity s)
      as [(p & _ & _ & _ & _ & _ & _ & _ & Hu) | (_ & _ & _ & _ & _ & Hu)];
      exact Hu.
  - left. unfold step. now destruct (truthy _).
  - unfold step. destruct (truthy _); [|now left].
    destruct (handleSendMessage_cases W identity e s)
      as [[-> _] | (p & key & _ & _ & _ & _ & ->)]; [now left|].
    cbv zeta. right.
    exists {| use_peer := p; use_key := key;
              use_calls := calls (createEncryptedPayload W e
                                    (trim (message W (ui W s))) identity key) |}.
    split; [now destruct (settled _)|].
    cbn [use_key use_calls]. apply seal_calls_own.
  - unfold step. destruct (pending W s !! i) as [t|]; [|now left].
    destruct t as [jwk | | env p key].
    + left. unfold settle. now destruct (importAesKey W jwk).
    + left. unfold settle.
      destruct (generateSharedSecret W e) as [newKey|]; [|reflexivity].
      now destruct (exportAesKey W newKey).
    + right. rewrite settle_delivery. cbn [key_uses].
      eexists. split; [reflexivity|].
      cbn [use_key use_calls]. apply open_calls_own.
Qed.

End OwnKeyFacts.

(** X25.  The key of the peer is never used.  In every state the
    component reaches, every key it has imported for a message is the
    local user's private key, for signing, or the local user's own public
    key, for verifying (the delivery it simulates checks the signature
    with the sender's key, not with anything the peer handed over); and
    what was encrypted or decrypted was so under the session key that was
    in memory when the message was sent. *)
Theorem peer_key_is_never_used (W : WebPlatform) (identity : UserIdentity)
    (actions : list Action) :
  uses_own_keys W identity (run_actions W identity actions (initial_session W)).
Proof.
  apply (run_actions_invariant W identity (uses_own_keys W identity)
           (fun _ => True)).
  - intros a s _ Hs. unfold uses_own_keys in *.
    destruct (step_key_uses W identity a s) as [-> | (u & -> & Hu)];
      [exact Hs|].
    apply Forall_app. split; [exact Hs|]. now repeat constructor.
  - now apply Forall_forall.
  - constructor.
Qed.

Example keys_imported_for_two_messages :
  List.map (fun u => List.filter
                       (fun ev => match ev with EvImportKey _ _ => true | _ => false end)
                       (use_calls Toy.platform u))
    (key_uses Toy.platform
       (run_actions Toy.platform Toy.alice
          [ClickSend (Toy.entropy 3); Settle 0 (Toy.entropy 4)]
          (ToyConversation.talking Toy.K1 ToyConversation.draft)))
  = [[EvImportKey (privateKey Toy.alice) [sign]];
     [EvImportKey (publicKey Toy.alice) [verify]]].
Proof. vm_compute. reflexivity. Qed.
